(** * Cloud bucket browser (app.py): path utilities, listing normaliser,
      chart heuristic and the page script, as a shallow embedding.

    Python [str] is modelled as [string] (a sequence of 8-bit characters;
    [lower] and [strip] act on the ASCII range), the Python [set] of
    directory paths as a [gset string], lists as [list], and the Streamlit
    script as a state-passing computation over the session state that
    records what it displays. *)

From Stdlib Require Import Ascii String ZArith Lia Sorted Permutation.
From stdpp Require Import base strings list gmap.

(** ** Python string methods *)

Module Str.

Definition slash : ascii := "/"%char.

(** [s.startswith(p)] *)
Definition startswith (s p : string) : bool := String.prefix p s.

(** [s.endswith(suf)] *)
Fixpoint endswith (s suf : string) : bool :=
  String.eqb s suf ||
  match s with
  | EmptyString => false
  | String _ s' => endswith s' suf
  end.

(** [s[n:]] *)
Fixpoint drop (n : nat) (s : string) : string :=
  match n, s with
  | O, _ => s
  | S n', String _ s' => drop n' s'
  | S _, EmptyString => EmptyString
  end.

(** [c in s] for a one-character [c] *)
Fixpoint contains (c : ascii) (s : string) : bool :=
  match s with
  | EmptyString => false
  | String a s' => Ascii.eqb a c || contains c s'
  end.

(** Removal of the trailing characters satisfying [p]. *)
Fixpoint rstrip_by (p : ascii -> bool) (s : string) : string :=
  match s with
  | EmptyString => EmptyString
  | String a s' =>
      match rstrip_by p s' with
      | EmptyString => if p a then EmptyString else String a EmptyString
      | r => String a r
      end
  end.

(** Removal of the leading characters satisfying [p]. *)
Fixpoint lstrip_by (p : ascii -> bool) (s : string) : string :=
  match s with
  | EmptyString => EmptyString
  | String a s' => if p a then lstrip_by p s' else s
  end.

(** [s.rstrip(c)] and [s.strip(c)] for a one-character [c] *)
Definition rstrip (c : ascii) (s : string) : string :=
  rstrip_by (fun a => Ascii.eqb a c) s.

Definition strip (c : ascii) (s : string) : string :=
  rstrip c (lstrip_by (fun a => Ascii.eqb a c) s).

(** The characters [str.isspace] accepts in the ASCII range:
    TAB, LF, VT, FF, CR, FS, GS, RS, US and the space. *)
Definition is_space (a : ascii) : bool :=
  let n := nat_of_ascii a in
  ((9 <=? n)%nat && (n <=? 13)%nat) ||
  ((28 <=? n)%nat && (n <=? 32)%nat).

(** [s.strip()] *)
Definition strip_ws (s : string) : string :=
  rstrip_by is_space (lstrip_by is_space s).

(** [s.lower()] *)
Definition lower_char (a : ascii) : ascii :=
  let n := nat_of_ascii a in
  if ((65 <=? n)%nat && (n <=? 90)%nat)%bool
  then ascii_of_nat (n + 32) else a.

Fixpoint lower (s : string) : string :=
  match s with
  | EmptyString => EmptyString
  | String a s' => String (lower_char a) (lower s')
  end.

(** [s.split(c)]: never empty, one more piece than occurrences of [c]. *)
Fixpoint split (c : ascii) (s : string) : list string :=
  match s with
  | EmptyString => [EmptyString]
  | String a s' =>
      if Ascii.eqb a c then EmptyString :: split c s'
      else match split c s' with
           | h :: t => String a h :: t
           | [] => [String a EmptyString]
           end
  end.

(** [s.split(c, 1)]: cut at the first [c], if any. *)
Fixpoint split1 (c : ascii) (s : string) : list string :=
  match s with
  | EmptyString => [EmptyString]
  | String a s' =>
      if Ascii.eqb a c then [EmptyString; s']
      else match split1 c s' with
           | h :: t => String a h :: t
           | [] => [String a EmptyString]
           end
  end.

(** [sep.join(l)] *)
Definition join (sep : string) (l : list string) : string :=
  String.concat sep l.

(** [s.rsplit(c, 1)]: cut at the last [c], if any. *)
Definition rsplit1 (c : ascii) (s : string) : list string :=
  match split c s with
  | [] | [_] => [s]
  | parts => [join (String c EmptyString) (removelast parts);
              List.last parts EmptyString]
  end.

(** [l[-1]] and [l[0]] of a list that the caller knows is not empty *)
Definition last_item (l : list string) : string := List.last l EmptyString.
Definition first_item (l : list string) : string := List.hd EmptyString l.

End Str.

(** ** Helpers of app.py *)

Definition ALLOWED_EXTS : list string := [".csv"; ".xls"; ".xlsx"].

Definition EXPECTED_TIME_SERIES : list string :=
  ["Frame Number"; "Procrustes Similarity"; "Joint Angle Distance"].

(** Truth value of a Python string. *)
Definition truthy (s : string) : bool := negb (String.eqb s "").

Definition detect_scheme (url : string) : string :=
  if negb (truthy url) then ""
  else if Str.startswith url "s3://" then "s3"
  else if Str.startswith url "gs://" then "gs"
  else "".

Definition clean_prefix (path : string) : string :=
  if negb (truthy path) then path
  else
    let path := Str.strip_ws path in
    Str.rstrip Str.slash path +:+ "/".

Definition strip_scheme (url : string) : string * string :=
  if Str.startswith url "s3://" then ("s3", Str.drop (String.length "s3://") url)
  else if Str.startswith url "gs://" then ("gs", Str.drop (String.length "gs://") url)
  else ("", url).

Definition rebuild_url (scheme without_scheme : string) : string :=
  scheme +:+ "://" +:+ without_scheme.

Definition basename_from_path (p : string) : string :=
  let p := Str.rstrip Str.slash p in
  if Str.contains Str.slash p then Str.last_item (Str.rsplit1 Str.slash p) else p.

Definition is_allowed_file (name : string) : bool :=
  let lname := Str.lower name in
  existsb (fun ext => Str.endswith lname ext) ALLOWED_EXTS.

(** ** External collaborators: storage, tables, figures *)

(** Outcome of a call into a library that may raise; [Exn] carries [str(e)]. *)
Inductive result (A : Type) : Type :=
| Ok (a : A)
| Exn (msg : string).
Arguments Ok {A} a.
Arguments Exn {A} msg.

(** One dictionary of [fs.ls(..., detail=True)], with the keys the code reads. *)
Record entry : Type := Entry {
  e_name : option string;
  e_Key : option string;
  e_type : option string
}.

(** The [token] handed to gcsfs: a string or the parsed service-account JSON. *)
Inductive token : Type :=
| TokStr (s : string)
| TokJson (j : string).

(** Keyword arguments collected in [kwargs] for [s3fs.S3FileSystem]. *)
Record s3_kwargs : Type := S3Kwargs {
  kw_key : option string;
  kw_secret : option string;
  kw_token : option (option string);
  kw_region_name : option string
}.

Inductive filesystem : Type :=
| S3FileSystem_anon
| S3FileSystem (kwargs : s3_kwargs)
| GCSFileSystem (tok : token).

(** The [storage_options] dictionaries the code builds. *)
Inductive storage_options : Type :=
| opts_empty
| opts_s3 (anon : bool) (key_secret : option (string * string))
          (tok : option string) (region_name : option string)
| opts_gs (tok : token).

(** pandas column types.  Text is stored either as Python objects
    ([object_]) or under the dedicated string dtype ([string_]), depending
    on the pandas version and options in use. *)
Inductive dtype : Type :=
| int64 | float64 | bool_ | complex128 | object_ | string_ | datetime64 | category.

Definition is_numeric_dtype (d : dtype) : bool :=
  match d with
  | int64 | float64 | bool_ | complex128 => true
  | object_ | string_ | datetime64 | category => false
  end.

Definition dtype_is_object (d : dtype) : bool :=
  match d with object_ => true | _ => false end.

(** What the heuristic reads of a column: its dtype and [nunique()]. *)
Record series : Type := Series {
  s_dtype : dtype;
  s_nunique : nat
}.

(** A loaded table: labelled columns in file order and [len(df)].
    [pd.read_csv] and [pd.read_excel] make the labels distinct. *)
Record DataFrame : Type := Frame {
  df_data : list (string * series);
  df_len : nat
}.

Definition df_columns (df : DataFrame) : list string := map fst (df_data df).

(** [df[c]] *)
Definition df_getitem (df : DataFrame) (c : string) : option series :=
  snd <$> List.find (fun p => String.eqb (fst p) c) (df_data df).

(** [df[cols]] for a list of labels *)
Definition df_select (df : DataFrame) (cols : list string) : DataFrame :=
  Frame (omap (fun c => pair c <$> df_getitem df c) cols) (df_len df).

Definition col_is_numeric (df : DataFrame) (c : string) : bool :=
  match df_getitem df c with
  | Some s => is_numeric_dtype (s_dtype s)
  | None => false
  end.

(** [int(len(df) * 0.8)]: the product is truncated, which is
    [floor (4 * len / 5)] for every row count a table can have. *)
Definition label_threshold (df : DataFrame) : nat :=
  Nat.max 50 (4 * df_len df / 5).

Definition col_is_label_candidate (df : DataFrame) (c : string) : bool :=
  match df_getitem df c with
  | Some s => dtype_is_object (s_dtype s) && (s_nunique s <=? label_threshold df)%nat
  | None => false
  end.

(** The figures the code asks plotly for. *)
Inductive figure : Type :=
| px_line (x : string) (y : list string) (title : string)
| px_line_wide (cols : list string) (title : string)
| px_bar (x y title text : string) (texttemplate : string) (xaxis_tickangle : Z).

(** ** The Streamlit script as a computation *)

Inductive ui_event : Type :=
| st_title (msg : string)
| st_sidebar_header (msg : string)
| st_sidebar_caption (msg : string)
| st_error (msg : string)
| st_warning (msg : string)
| st_info (msg : string)
| st_write (msg : string)
| st_subheader (msg : string)
| st_caption (msg : string)
| st_markdown (msg : string)
| st_sidebar_info (msg : string)
| st_dataframe (df : DataFrame)
| st_plotly_chart (fig : figure).

(** [st.session_state] with the keys the script uses; [None] is an absent key. *)
Record session : Type := Session {
  ss_default_path : option string;
  ss_prefix : option string;
  ss_fs : option filesystem;
  ss_scheme : option string;
  ss_storage_options : option storage_options
}.

Definition empty_session : session := Session None None None None None.

(** A run ends normally, is halted by [st.stop()], or dies of an exception. *)
Inductive outcome (A : Type) : Type :=
| Done (a : A)
| Stopped
| Raised (e : string).
Arguments Done {A} a.
Arguments Stopped {A}.
Arguments Raised {A} e.

Definition St (A : Type) : Type := session -> outcome A * session * list ui_event.

Definition st_ret {A} (a : A) : St A := fun s => (Done a, s, []).

Definition st_bind {A B} (m : St A) (f : A -> St B) : St B :=
  fun s =>
    match m s with
    | (Done a, s1, o1) =>
        match f a s1 with
        | (r, s2, o2) => (r, s2, o1 ++ o2)
        end
    | (Stopped, s1, o1) => (Stopped, s1, o1)
    | (Raised e, s1, o1) => (Raised e, s1, o1)
    end.

Notation "x <- m ;; k" := (st_bind m (fun x => k))
  (at level 100, m at next level, right associativity).
Notation "m ;;; k" := (st_bind m (fun _ => k))
  (at level 100, right associativity).

Definition emit (e : ui_event) : St unit := fun s => (Done tt, s, [e]).
Definition st_stop {A} : St A := fun s => (Stopped, s, []).
Definition raise {A} (e : string) : St A := fun s => (Raised e, s, []).
Definition get_session : St session := fun s => (Done s, s, []).
Definition put_session (s' : session) : St unit := fun _ => (Done tt, s', []).

Definition set_default_path (v : string) : St unit :=
  s <- get_session ;;
  put_session (Session (Some v) (ss_prefix s) (ss_fs s) (ss_scheme s) (ss_storage_options s)).
Definition set_prefix (v : string) : St unit :=
  s <- get_session ;;
  put_session (Session (ss_default_path s) (Some v) (ss_fs s) (ss_scheme s) (ss_storage_options s)).
Definition set_fs (v : filesystem) : St unit :=
  s <- get_session ;;
  put_session (Session (ss_default_path s) (ss_prefix s) (Some v) (ss_scheme s) (ss_storage_options s)).
Definition set_scheme (v : string) : St unit :=
  s <- get_session ;;
  put_session (Session (ss_default_path s) (ss_prefix s) (ss_fs s) (Some v) (ss_storage_options s)).
Definition set_storage_options (v : storage_options) : St unit :=
  s <- get_session ;;
  put_session (Session (ss_default_path s) (ss_prefix s) (ss_fs s) (ss_scheme s) (Some v)).

(** A library call inside the script: an exception nobody catches ends the run. *)
Definition lift {A} (r : result A) : St A :=
  match r with
  | Ok a => st_ret a
  | Exn e => raise e
  end.

Fixpoint for_each {A} (l : list A) (body : A -> St unit) : St unit :=
  match l with
  | [] => st_ret tt
  | x :: l' => body x ;;; for_each l' body
  end.

Fixpoint map_st {A B} (f : A -> St B) (l : list A) : St (list B) :=
  match l with
  | [] => st_ret []
  | x :: l' => y <- f x ;; ys <- map_st f l' ;; st_ret (y :: ys)
  end.

(** ** Accessor construction *)

Definition opt_if (b : bool) {A} (a : A) : option A := if b then Some a else None.

(** [gcsfs_init tok] is the exception, if any, with which the constructor
    [gcsfs.GCSFileSystem(token=tok)] ends: it resolves the credentials when
    it is called.  [s3fs.S3FileSystem] connects only when it is first used. *)
Definition get_fs (gcsfs_init : token -> option string) (scheme : string) (anon : bool)
    (aws_access_key_id aws_secret_access_key aws_session_token region_name : string)
    (gcs_token : option token) : result filesystem :=
  if String.eqb scheme "s3" then
    if anon then Ok S3FileSystem_anon
    else
      let with_keys := truthy aws_access_key_id && truthy aws_secret_access_key in
      Ok (S3FileSystem
            {| kw_key := opt_if with_keys aws_access_key_id;
               kw_secret := opt_if with_keys aws_secret_access_key;
               kw_token := opt_if with_keys (opt_if (truthy aws_session_token) aws_session_token);
               kw_region_name := opt_if (truthy region_name) region_name |})
  else if String.eqb scheme "gs" then
    let tok := if anon then TokStr "anon"
               else match gcs_token with
                    | Some t => t
                    | None => TokStr "google_default"
                    end in
    match gcsfs_init tok with
    | Some e => Exn e
    | None => Ok (GCSFileSystem tok)
    end
  else Exn "Unsupported scheme. Use s3:// or gs://".

Definition build_storage_options (scheme : string) (anon : bool)
    (aws_access_key_id aws_secret_access_key aws_session_token region_name : string)
    (gcs_token : option token) : storage_options :=
  if String.eqb scheme "s3" then
    opts_s3 anon
      (opt_if (negb anon && truthy aws_access_key_id && truthy aws_secret_access_key)
              (aws_access_key_id, aws_secret_access_key))
      (opt_if (negb anon && truthy aws_session_token) aws_session_token)
      (opt_if (truthy region_name) region_name)
  else if String.eqb scheme "gs" then
    opts_gs (if anon then TokStr "anon"
             else match gcs_token with
                  | Some t => t
                  | None => TokStr "google_default"
                  end)
  else opts_empty.

(** ** [sorted(..., key=...)]: a stable sort on the keys' code-point order *)

Section SortByKey.
Variable key : string -> string.

Definition key_le (a b : string) : Prop := String.le (key a) (key b).

Fixpoint insert_by_key (x : string) (l : list string) : list string :=
  match l with
  | [] => [x]
  | y :: l' =>
      if String.leb (key x) (key y) then x :: y :: l'
      else y :: insert_by_key x l'
  end.

Fixpoint sorted_by_key (l : list string) : list string :=
  match l with
  | [] => []
  | x :: l' => insert_by_key x (sorted_by_key l')
  end.
End SortByKey.

(** ** The listing normaliser *)

(** [a or b] on an optional string: [None] and the empty string are falsy. *)
Definition or_else (o : option string) (d : string) : string :=
  match o with
  | Some s => if truthy s then s else d
  | None => d
  end.

Definition entry_name (it : entry) : string :=
  or_else (e_name it) (or_else (e_Key it) "").

Definition type_is_directory (it : entry) : bool :=
  match e_type it with
  | Some t => String.eqb t "directory"
  | None => false
  end.

(** One turn of the loop over [items]. *)
Definition list_cloud_step (scheme without : string)
    (acc : gset string * list string) (it : entry) : gset string * list string :=
  let '(dirs_set, files) := acc in
  let name := entry_name it in
  let full_without := name in
  let rel := if Str.startswith full_without without
             then Str.drop (String.length without) full_without
             else full_without in
  if type_is_directory it || Str.endswith full_without "/" then
    ({[ rebuild_url scheme (Str.rstrip Str.slash full_without +:+ "/") ]} ∪ dirs_set, files)
  else if Str.contains Str.slash rel then
    let child := Str.first_item (Str.split1 Str.slash rel) in
    ({[ rebuild_url scheme
          (Str.rstrip Str.slash without +:+ "/" +:+ Str.strip Str.slash child +:+ "/") ]}
       ∪ dirs_set, files)
  else
    let full_url := rebuild_url scheme full_without in
    if is_allowed_file full_url then (dirs_set, files ++ [full_url])
    else (dirs_set, files).

(** The part of [list_cloud] after a successful [fs.ls]. *)
Definition normalize_listing (scheme without : string) (items : list entry)
  : list string * list string :=
  let '(dirs_set, files) := fold_left (list_cloud_step scheme without) items (∅, []) in
  (sorted_by_key Str.lower (elements dirs_set), sorted_by_key Str.lower files).

Section Script.

(** The storage back end, the table loaders and the JSON parser. *)
Variable fs_ls : filesystem -> string -> result (list entry).
Variable pd_read_csv : string -> storage_options -> result DataFrame.
Variable pd_read_excel : string -> storage_options -> result DataFrame.

(** The chart library: [px_raises df fig] is the exception, if any, that
    plotly express raises when it is asked to build [fig] from [df]. *)
Variable px_raises : DataFrame -> figure -> option string.

Variable json_load : string -> result string.

(** The constructor of the GCS accessor (see [get_fs]). *)
Variable gcsfs_init : token -> option string.

Definition list_cloud (fs : filesystem) (scheme prefix : string)
  : St (list string * list string) :=
  let '(_, without) := strip_scheme prefix in
  match fs_ls fs without with
  | Exn e =>
      emit (st_error ("Failed to list '" +:+ prefix +:+ "': " +:+ e)) ;;;
      st_ret ([], [])
  | Ok items => st_ret (normalize_listing scheme without items)
  end.

Definition read_any (path : string) : St (result DataFrame) :=
  s <- get_session ;;
  let storage_options := default opts_empty (ss_storage_options s) in
  if Str.endswith (Str.lower path) ".csv"
  then st_ret (pd_read_csv path storage_options)
  else st_ret (pd_read_excel path storage_options).

(** *** Charts *)

(** [fig = px....(df, ...)] followed by [st.plotly_chart(fig)]: nothing
    catches what the first call raises. *)
Definition plotly_chart (df : DataFrame) (fig : figure) : St unit :=
  match px_raises df fig with
  | Some e => raise e
  | None => emit (st_plotly_chart fig)
  end.

Definition plot_bar_interactive (df : DataFrame) (label_col stat_col title : string)
  : St unit :=
  plotly_chart df (px_bar label_col stat_col title stat_col "%{text:.2f}" (-45)).

Definition validate_and_plot_bar_interactive (df : DataFrame)
    (label_col stat_col title : string) : St unit :=
  if negb (bool_decide (stat_col ∈ df_columns df))
     || negb (bool_decide (label_col ∈ df_columns df))
  then emit (st_warning "Selected columns not found in the data.")
  else if negb (col_is_numeric df stat_col)
  then emit (st_warning ("The selected statistic column '" +:+ stat_col +:+ "' is not numeric."))
  else plot_bar_interactive df label_col stat_col title.

Definition plot_csv_line_chart (df : DataFrame) : St unit :=
  plotly_chart df
    (px_line "Frame Number" ["Procrustes Similarity"; "Joint Angle Distance"]
             "Metrics over Frames").

Definition numeric_columns (df : DataFrame) : list string :=
  List.filter (col_is_numeric df) (df_columns df).

Definition candidate_label_columns (df : DataFrame) : list string :=
  List.filter (col_is_label_candidate df) (df_columns df).

Definition plot_generic_lines (df : DataFrame) (title : string) : St unit :=
  let num_cols := numeric_columns df in
  match num_cols with
  | [] => emit (st_info "No numeric columns to plot.")
  | _ => plotly_chart (df_select df num_cols) (px_line_wide num_cols title)
  end.

Definition issubset (small big : list string) : bool :=
  forallb (fun c => bool_decide (c ∈ big)) small.

(** The chart choice made for one loaded table (the [if]/[else] that
    follows [st.dataframe] in the loop over the selected files). *)
Definition choose_chart (df : DataFrame) : St unit :=
  if issubset EXPECTED_TIME_SERIES (df_columns df) then plot_csv_line_chart df
  else
    let num_cols := numeric_columns df in
    let cand_label_cols := candidate_label_columns df in
    match num_cols, cand_label_cols with
    | stat_col :: _, label_col :: _ =>
        validate_and_plot_bar_interactive df label_col stat_col
          ("Bar: " +:+ label_col +:+ " vs " +:+ stat_col)
    | _, _ => plot_generic_lines df "Line plot (numeric columns)"
    end.

(** *** Widgets: what the user entered and pressed in this run *)

Record inputs : Type := Inputs {
  bucket_input : string;
  s3_public : bool;
  s3_region : string;
  in_access_key_id : string;
  in_secret_access_key : string;
  in_session_token : string;
  gs_public : bool;
  gs_creds_file : option string;
  connect : bool;
  up_btn : bool;
  refresh_btn : bool;
  folder_select : string;
  open_btn : bool;
  selected_labels : list string;
  visualize : bool;
  env_GOOGLE_APPLICATION_CREDENTIALS : option string
}.

Record auth : Type := Auth {
  public : bool;
  region_name : string;
  aws_access_key_id : string;
  aws_secret_access_key : string;
  aws_session_token : string;
  creds_file : option string
}.

(** The sidebar: widgets are shown according to the scheme typed in. *)
Definition sidebar (inp : inputs) : St (string * auth) :=
  emit (st_sidebar_header "Bucket connection (gs:// for GCS, s3:// for AWS)") ;;;
  let scheme := detect_scheme (bucket_input inp) in
  if String.eqb scheme "s3" then
    let public := s3_public inp in
    st_ret (scheme,
            {| public := public;
               region_name := s3_region inp;
               aws_access_key_id := if public then "" else in_access_key_id inp;
               aws_secret_access_key := if public then "" else in_secret_access_key inp;
               aws_session_token := if public then "" else in_session_token inp;
               creds_file := None |})
  else if String.eqb scheme "gs" then
    let public := gs_public inp in
    (if public then st_ret tt
     else emit (st_sidebar_caption "Or use Google Default Credentials via gcloud.")) ;;;
    st_ret (scheme,
            {| public := public;
               region_name := "";
               aws_access_key_id := "";
               aws_secret_access_key := "";
               aws_session_token := "";
               creds_file := if public then None else gs_creds_file inp |})
  else
    emit (st_sidebar_info "Enter a path starting with gs:// (Google Cloud) or s3:// (AWS).") ;;;
    st_ret (scheme, Auth true "" "" "" "" None).

(** The [if connect and scheme:] block. *)
Definition connect_handler (inp : inputs) (scheme : string) (a : auth) : St unit :=
  if connect inp && truthy scheme then
    set_default_path (bucket_input inp) ;;;
    set_prefix (clean_prefix (bucket_input inp)) ;;;
    if String.eqb scheme "s3" then
      fs <- lift (get_fs gcsfs_init "s3" (public a) (aws_access_key_id a) (aws_secret_access_key a)
                    (aws_session_token a) (region_name a) None) ;;
      set_fs fs ;;;
      set_scheme "s3" ;;;
      set_storage_options
        (build_storage_options "s3" (public a) (aws_access_key_id a)
           (aws_secret_access_key a) (aws_session_token a) (region_name a) None)
    else if String.eqb scheme "gs" then
      (if negb (public a) && negb (bool_decide (is_Some (creds_file a)))
          && negb (bool_decide (is_Some (env_GOOGLE_APPLICATION_CREDENTIALS inp)))
       then
         emit (st_error "Upload a Service Account JSON or run 'gcloud auth application-default login' before connecting.") ;;;
         st_stop
       else st_ret tt) ;;;
      tok <- (if public a then st_ret (TokStr "anon")
              else match creds_file a with
                   | Some f => j <- lift (json_load f) ;; st_ret (TokJson j)
                   | None => st_ret (TokStr "google_default")
                   end) ;;
      fs <- lift (get_fs gcsfs_init "gs" (public a) "" "" "" "" (Some tok)) ;;
      set_fs fs ;;;
      set_scheme "gs" ;;;
      set_storage_options (opts_gs tok)
    else st_ret tt
  else st_ret tt.

(** [l.index(x)]: the first position of [x]; [None] stands for ValueError. *)
Fixpoint py_index (l : list string) (x : string) : option nat :=
  match l with
  | [] => None
  | y :: l' => if String.eqb y x then Some 0%nat else S <$> py_index l' x
  end.

Definition index_or_raise (l : list string) (x : string) : St nat :=
  match py_index l x with
  | Some i => st_ret i
  | None => raise "ValueError"
  end.

Definition item_or_raise (l : list string) (i : nat) : St string :=
  match l !! i with
  | Some x => st_ret x
  | None => raise "IndexError"
  end.

(** The "Go up one level" button. *)
Definition go_up (current_prefix : string) : St string :=
  let '(scheme, without) := strip_scheme current_prefix in
  let parts := Str.split Str.slash (Str.rstrip Str.slash without) in
  let new_without :=
    if (1 <? length parts)%nat
    then Str.join "/" (removelast parts) +:+ "/"
    else Str.first_item parts +:+ "/" in
  set_prefix (rebuild_url scheme new_without) ;;;
  s <- get_session ;;
  st_ret (default "" (ss_prefix s)).

Definition folder_names_of (dirs : list string) : list string :=
  map (fun d => basename_from_path (Str.rstrip Str.slash d)) dirs.

(** The "Folders" select box and its "Open selected folder" button. *)
Definition folder_selection (inp : inputs) (fs : filesystem)
    (current_scheme current_prefix : string) (dirs files : list string)
  : St (string * (list string * list string)) :=
  match dirs with
  | [] => emit (st_write "No subfolders.") ;;; st_ret (current_prefix, (dirs, files))
  | _ =>
      let folder_names := folder_names_of dirs in
      let selected_folder := folder_select inp in
      if open_btn inp && negb (String.eqb selected_folder "(stay here)") then
        idx <- index_or_raise folder_names selected_folder ;;
        d <- item_or_raise dirs idx ;;
        set_prefix d ;;;
        s <- get_session ;;
        let current_prefix := default "" (ss_prefix s) in
        r <- list_cloud fs current_scheme current_prefix ;;
        st_ret (current_prefix, r)
      else st_ret (current_prefix, (dirs, files))
  end.

Definition visualize_file (fp : string) : St unit :=
  emit (st_markdown ("### " +:+ basename_from_path fp)) ;;;
  r <- read_any fp ;;
  match r with
  | Exn e => emit (st_error ("Failed to read " +:+ fp +:+ ": " +:+ e))
  | Ok df => emit (st_dataframe df) ;;; choose_chart df
  end.

(** The "Files" multiselect and its "Load and visualize" button. *)
Definition file_selection (inp : inputs) (files : list string) : St unit :=
  emit (st_subheader "Files (CSV/XLS/XLSX)") ;;;
  match files with
  | [] => emit (st_write "No CSV/Excel files in this folder.")
  | _ =>
      let file_labels := map basename_from_path files in
      selected_indices <- map_st (index_or_raise file_labels) (selected_labels inp) ;;
      picked <- map_st (item_or_raise files) selected_indices ;;
      let selected_files := take 2 picked in
      (if (2 <? length (selected_labels inp))%nat
       then emit (st_warning "You selected more than 2 files. Only the first 2 will be used.")
       else st_ret tt) ;;;
      match visualize inp, selected_files with
      | true, _ :: _ => for_each selected_files visualize_file
      | _, _ => st_ret tt
      end
  end.

(** What line 236 tests before showing the browser. *)
Definition connected (s : session) : bool :=
  let current_prefix := default "" (ss_prefix s) in
  let current_scheme := default (detect_scheme current_prefix) (ss_scheme s) in
  bool_decide (is_Some (ss_fs s)) && truthy current_prefix && truthy current_scheme.

Definition main_ui (inp : inputs) : St unit :=
  s <- get_session ;;
  let current_prefix := default "" (ss_prefix s) in
  let current_scheme := default (detect_scheme current_prefix) (ss_scheme s) in
  match ss_fs s with
  | Some fs =>
      if truthy current_prefix && truthy current_scheme then
        emit (st_subheader "Browse folders") ;;;
        emit (st_caption ("Current prefix: " +:+ current_prefix)) ;;;
        current_prefix <- (if up_btn inp then go_up current_prefix
                           else st_ret current_prefix) ;;
        r <- list_cloud fs current_scheme current_prefix ;;
        let '(dirs, files) := r in
        r' <- folder_selection inp fs current_scheme current_prefix dirs files ;;
        let '(_, (_, files)) := r' in
        file_selection inp files
      else emit (st_info "Enter your bucket/prefix (gs:// or s3://) and click Connect.")
  | None => emit (st_info "Enter your bucket/prefix (gs:// or s3://) and click Connect.")
  end.

(** The script down to the end of the connect block. *)
Definition connect_step (inp : inputs) : St unit :=
  r <- sidebar inp ;;
  let '(scheme, a) := r in
  connect_handler inp scheme a.

(** One run of the script. *)
Definition app (inp : inputs) : St unit :=
  emit (st_title "Cloud Bucket Browser (S3/GCS): View CSV/XLS(X) as Tables and Graphs") ;;;
  connect_step inp ;;;
  main_ui inp.

End Script.

(** ** The specification's wording, for comparison with the code *)

Module Spec.

(** A column "whose values are all numeric". *)
Definition is_numeric_column (c : string * series) : bool :=
  is_numeric_dtype (s_dtype c.2).

(** A text-typed column: text held as objects or under the string dtype. *)
Definition is_text_dtype (d : dtype) : bool :=
  match d with
  | object_ | string_ => true
  | _ => false
  end.

(** A distinct-value count that is at most max(50, 0.8 n): at most 50, or
    five times it at most 4 n. *)
Definition few_distinct (n : nat) (c : string * series) : bool :=
  (s_nunique c.2 <=? 50)%nat || (5 * s_nunique c.2 <=? 4 * n)%nat.

(** A text column whose distinct-value count is at most max(50, 0.8 n). *)
Definition is_label_candidate (n : nat) (c : string * series) : bool :=
  is_text_dtype (s_dtype c.2) && few_distinct n c.

(** The same for the columns whose dtype is exactly "object". *)
Definition is_object_label_candidate (n : nat) (c : string * series) : bool :=
  match s_dtype c.2 with
  | object_ => few_distinct n c
  | _ => false
  end.

(** The first listed file that carries a label. *)
Definition first_with_label (files : list string) (label : string) : option string :=
  List.find (fun f => String.eqb (basename_from_path f) label) files.

(** The files chosen by a list of labels, in the order of the labels;
    [None] when some label is carried by no listed file. *)
Definition resolve_labels (files labels : list string) : option (list string) :=
  mapM (first_with_label files) labels.

(** The first column, in file order, that satisfies [p]. *)
Definition first_column (p : string * series -> bool) (df : DataFrame) : option string :=
  fst <$> List.find p (df_data df).

Definition columns_where (p : string * series -> bool) (df : DataFrame) : list string :=
  map fst (List.filter p (df_data df)).

(** Segments of a body, the empty segments at its end ignored
    (the first segment always stays). *)
Fixpoint drop_trailing_empty (l : list string) : list string :=
  match l with
  | [] => []
  | x :: l' =>
      match drop_trailing_empty l' with
      | [] => if String.eqb x "" then [] else [x]
      | t => x :: t
      end
  end.

Definition segments (body : string) : list string :=
  match Str.split Str.slash body with
  | [] => []
  | x :: l => x :: drop_trailing_empty l
  end.

(** goUp on the body: drop the last of several segments and rejoin with
    a trailing slash; a single segment stays, followed by a slash. *)
Definition go_up_body (body : string) : string :=
  match segments body with
  | [] => "/"
  | [seg] => seg +:+ "/"
  | segs => Str.join "/" (removelast segs) +:+ "/"
  end.

(** The bucket: the first segment of a body. *)
Definition bucket (body : string) : string :=
  Str.first_item (Str.split Str.slash body).

End Spec.

(** ** Auxiliary notions used in the statements *)

(** The entries whose path ends up in the file list. *)
Definition is_file_entry (scheme without : string) (it : entry) : bool :=
  let name := entry_name it in
  let rel := if Str.startswith name without
             then Str.drop (String.length without) name else name in
  negb (type_is_directory it || Str.endswith name "/")
  && negb (Str.contains Str.slash rel)
  && is_allowed_file (rebuild_url scheme name).

(** The path of an entry relative to the listed prefix body. *)
Definition relative_name (without name : string) : string :=
  if Str.startswith name without then Str.drop (String.length without) name else name.

(** What a run of the chart choice is planned to show. *)
Inductive planned_outcome : ui_event -> Prop :=
| plan_fixed_line :
    planned_outcome
      (st_plotly_chart (px_line "Frame Number"
                          ["Procrustes Similarity"; "Joint Angle Distance"]
                          "Metrics over Frames"))
| plan_bar (label value title : string) :
    planned_outcome (st_plotly_chart (px_bar label value title value "%{text:.2f}" (-45)))
| plan_lines (cols : list string) (title : string) :
    cols <> [] -> planned_outcome (st_plotly_chart (px_line_wide cols title))
| plan_no_chart :
    planned_outcome (st_info "No numeric columns to plot.").

(** The session after a run, its outcome and what it displayed. *)
Definition session_after {A} (r : outcome A * session * list ui_event) : session := r.1.2.
Definition outcome_of {A} (r : outcome A * session * list ui_event) : outcome A := r.1.1.
Definition displayed {A} (r : outcome A * session * list ui_event) : list ui_event := r.2.

Definition is_error (e : ui_event) : bool :=
  match e with st_error _ => true | _ => false end.

(** The directory path an entry contributes, if any. *)
Definition entry_dir (scheme without : string) (it : entry) : option string :=
  let name := entry_name it in
  if type_is_directory it || Str.endswith name "/"
  then Some (rebuild_url scheme (Str.rstrip Str.slash name +:+ "/"))
  else if Str.contains Str.slash (relative_name without name)
  then Some (rebuild_url scheme
               (Str.rstrip Str.slash without +:+ "/"
                +:+ Str.strip Str.slash
                      (Str.first_item (Str.split1 Str.slash (relative_name without name)))
                +:+ "/"))
  else None.

(** A computation that leaves the session state as it found it,
    however it ends. *)
Definition keeps_session {A} (m : St A) : Prop :=
  forall s, session_after (m s) = s.

Definition is_markdown (e : ui_event) : bool :=
  match e with st_markdown _ => true | _ => false end.

(** A string that does not begin with a character satisfying [p]. *)
Definition head_not (p : ascii -> bool) (s : string) : bool :=
  match s with
  | EmptyString => true
  | String a _ => negb (p a)
  end.

(** The "Go up one level" button pressed in [n] runs in a row. *)
Fixpoint press_up (n : nat) (current_prefix : string) : St string :=
  match n with
  | O => st_ret current_prefix
  | S n' => p <- go_up current_prefix ;; press_up n' p
  end.

Definition is_chart (e : ui_event) : bool :=
  match e with st_plotly_chart _ => true | _ => false end.

(** How many of the displayed events satisfy [p]. *)
Definition count_events (p : ui_event -> bool) (l : list ui_event) : nat :=
  length (List.filter p l).

(** A computation that displays at most [n] events satisfying [p]. *)
Definition shows_at_most (p : ui_event -> bool) (n : nat) {A} (m : St A) : Prop :=
  forall s, (count_events p (displayed (m s)) <= n)%nat.

(** An instance of the chart library's behaviour: plotly express puts the
    columns plotted together on one axis and rejects them when they are of
    different kinds, integers and floats counting as one kind. *)
Inductive dtype_kind : Type :=
| kind_number | kind_bool | kind_complex | kind_object | kind_datetime.

Definition kind_of (d : dtype) : dtype_kind :=
  match d with
  | int64 | float64 => kind_number
  | bool_ => kind_bool
  | complex128 => kind_complex
  | object_ | string_ | category => kind_object
  | datetime64 => kind_datetime
  end.

Definition kind_eqb (a b : dtype_kind) : bool :=
  match a, b with
  | kind_number, kind_number | kind_bool, kind_bool | kind_complex, kind_complex
  | kind_object, kind_object | kind_datetime, kind_datetime => true
  | _, _ => false
  end.

Definition same_kinds (df : DataFrame) (cols : list string) : bool :=
  match omap (fun c => kind_of <$> (s_dtype <$> df_getitem df c)) cols with
  | [] => true
  | k :: ks => forallb (kind_eqb k) ks
  end.

Definition px_wide_form_check (df : DataFrame) (fig : figure) : option string :=
  let refuse (cols : list string) :=
    if same_kinds df cols then None
    else Some "Plotly Express cannot process wide-form data with columns of different type." in
  match fig with
  | px_line _ y _ => refuse y
  | px_line_wide cols _ => refuse cols
  | px_bar _ _ _ _ _ _ => None
  end.

(** The chart library accepting every request, and the GCS constructor
    accepting every token. *)
Definition px_accepts : DataFrame -> figure -> option string := fun _ _ => None.
Definition gcsfs_accepts : token -> option string := fun _ => None.

(** * Properties *)

Example split_ex : Str.split Str.slash "bucket/x/y" = ["bucket"; "x"; "y"].
Proof. reflexivity. Qed.

Example basename_ex : basename_from_path "s3://bucket/a/c/" = "c".
Proof. reflexivity. Qed.

Example clean_ex : clean_prefix " gs://b/p// " = "gs://b/p/".
Proof. reflexivity. Qed.

Example allowed_ex :
  is_allowed_file "s3://b/T.CSV" = true /\ is_allowed_file "s3://b/e.txt" = false.
Proof. split; reflexivity. Qed.

Example go_up_body_ex :
  Spec.go_up_body "bucket/x/y/" = "bucket/x/" /\ Spec.go_up_body "bucket/x/" = "bucket/"
  /\ Spec.go_up_body "bucket/" = "bucket/" /\ Spec.go_up_body "" = "/".
Proof. repeat split; reflexivity. Qed.

(** ** Strings *)

Lemma append_cons (x : ascii) (s t : string) : String x s +:+ t = String x (s +:+ t).
Proof. reflexivity. Qed.

Lemma append_nil_r (s : string) : s +:+ "" = s.
Proof. induction s as [|a s IH]; [reflexivity|]. now rewrite append_cons, IH. Qed.

Lemma append_assoc (a b c : string) : (a +:+ b) +:+ c = a +:+ (b +:+ c).
Proof. induction a as [|x a IH]; [reflexivity|]. now rewrite !append_cons, IH. Qed.

Lemma length_append (a b : string) :
  String.length (a +:+ b) = (String.length a + String.length b)%nat.
Proof. induction a as [|x a IH]; [reflexivity|]. rewrite append_cons. cbn. now rewrite IH. Qed.

Lemma startswith_drop (p s : string) :
  Str.startswith s p = true -> p +:+ Str.drop (String.length p) s = s.
Proof.
  unfold Str.startswith. revert s.
  induction p as [|a p IH]; intros s H.
  - reflexivity.
  - destruct s as [|b s]; [discriminate|].
    cbn in H. destruct (ascii_dec a b) as [->|]; [|discriminate].
    rewrite append_cons. cbn. now rewrite IH.
Qed.

Lemma startswith_append (p s : string) : Str.startswith (p +:+ s) p = true.
Proof.
  unfold Str.startswith. induction p as [|a p IH].
  - now destruct s.
  - rewrite append_cons. cbn. destruct (ascii_dec a a); [exact IH|congruence].
Qed.

Lemma drop_append (p s : string) : Str.drop (String.length p) (p +:+ s) = s.
Proof. induction p as [|a p IH]; [reflexivity|exact IH]. Qed.

Lemma endswith_length (s suf : string) :
  Str.endswith s suf = true -> (String.length suf <= String.length s)%nat.
Proof.
  induction s as [|a s IH]; cbn [Str.endswith]; intros H.
  - apply orb_true_iff in H as [H|H]; [|discriminate].
    apply String.eqb_eq in H as <-. reflexivity.
  - apply orb_true_iff in H as [H|H].
    + apply String.eqb_eq in H as <-. reflexivity.
    + specialize (IH H). cbn [String.length]. lia.
Qed.

(** A suffix test only looks at the end of the string. *)
Lemma endswith_append (a b suf : string) :
  (String.length suf <= String.length b)%nat ->
  Str.endswith (a +:+ b) suf = Str.endswith b suf.
Proof.
  intros Hlen. induction a as [|x a IH]; [reflexivity|].
  rewrite append_cons. cbn [Str.endswith]. rewrite IH.
  destruct (String.eqb_spec (String x (a +:+ b)) suf) as [E|_]; [|reflexivity].
  exfalso. apply (f_equal String.length) in E. cbn in E.
  rewrite length_append in E. lia.
Qed.

Lemma lower_append (a b : string) : Str.lower (a +:+ b) = Str.lower a +:+ Str.lower b.
Proof. induction a as [|x a IH]; [reflexivity|]. rewrite !append_cons. cbn. now rewrite IH. Qed.

Lemma lower_length (a : string) : String.length (Str.lower a) = String.length a.
Proof. induction a as [|x a IH]; [reflexivity|]. cbn. now rewrite IH. Qed.

(** The file filter only looks at the end of the name. *)
Lemma is_allowed_file_append (a b : string) :
  (5 <= String.length b)%nat -> is_allowed_file (a +:+ b) = is_allowed_file b.
Proof.
  intros Hlen. unfold is_allowed_file, ALLOWED_EXTS. cbn [existsb].
  rewrite lower_append.
  rewrite !endswith_append by (rewrite lower_length; cbn; lia).
  reflexivity.
Qed.

Lemma rebuild_url_inj (scheme : string) : Inj (=) (=) (rebuild_url scheme).
Proof.
  intros a b H. unfold rebuild_url in H.
  apply (inj (String.append scheme)) in H. now apply (inj (String.append "://")) in H.
Qed.

(** ** Round trip of scheme stripping *)

(** C9: for every URL that begins with s3:// or gs://, rebuilding the path
    from the (scheme, body) pair that [strip_scheme] returns gives the URL
    back. *)
Theorem rebuild_strip_scheme (u : string) :
  Str.startswith u "s3://" = true \/ Str.startswith u "gs://" = true ->
  uncurry rebuild_url (strip_scheme u) = u.
Proof.
  intros H. unfold strip_scheme.
  destruct (Str.startswith u "s3://") eqn:E3.
  - cbn [uncurry]. unfold rebuild_url.
    rewrite <- (startswith_drop "s3://" u E3) at 2. reflexivity.
  - destruct H as [H|H]; [discriminate|]. rewrite H.
    cbn [uncurry]. unfold rebuild_url.
    rewrite <- (startswith_drop "gs://" u H) at 2. reflexivity.
Qed.

Lemma rebuild_strip_scheme_witness :
  uncurry rebuild_url (strip_scheme "gs://bucket/some/prefix/") = "gs://bucket/some/prefix/".
Proof. apply rebuild_strip_scheme. right. reflexivity. Defined.

(** ** Sorting by key *)

Section SortByKeyFacts.
Variable key : string -> string.

Lemma insert_by_key_perm (x : string) (l : list string) :
  Permutation (insert_by_key key x l) (x :: l).
Proof.
  induction l as [|y l IH]; cbn; [reflexivity|].
  destruct (String.leb (key x) (key y)); [reflexivity|].
  rewrite IH. apply perm_swap.
Qed.

Lemma sorted_by_key_perm (l : list string) : Permutation (sorted_by_key key l) l.
Proof.
  induction l as [|x l IH]; cbn; [reflexivity|].
  rewrite insert_by_key_perm. now constructor.
Qed.

Lemma key_le_total (a b : string) : key_le key a b \/ key_le key b a.
Proof. unfold key_le. destruct (total String.le (key a) (key b)); auto. Qed.

Lemma key_le_trans : Transitive (key_le key).
Proof. intros a b c. unfold key_le. apply transitivity. Qed.

Lemma insert_by_key_hdrel (x y : string) (l : list string) :
  key_le key y x -> HdRel (key_le key) y l -> HdRel (key_le key) y (insert_by_key key x l).
Proof.
  intros Hyx H. destruct l as [|z l]; cbn; [now constructor|].
  destruct (String.leb (key x) (key z)); constructor; [exact Hyx|].
  now inversion H.
Qed.

Lemma insert_by_key_sorted (x : string) (l : list string) :
  Sorted (key_le key) l -> Sorted (key_le key) (insert_by_key key x l).
Proof.
  induction 1 as [|y l Hl IH Hhd]; cbn; [repeat constructor|].
  destruct (String.leb (key x) (key y)) eqn:E.
  - constructor; [now constructor|]. constructor.
    unfold key_le, String.le. now rewrite E.
  - constructor; [exact IH|].
    apply insert_by_key_hdrel; [|exact Hhd].
    destruct (key_le_total x y) as [H|H]; [|exact H].
    unfold key_le, String.le in H. now rewrite E in H.
Qed.

Lemma sorted_by_key_sorted (l : list string) :
  StronglySorted (key_le key) (sorted_by_key key l).
Proof.
  apply (@Sorted_StronglySorted _ _ key_le_trans).
  induction l as [|x l IH]; cbn; [constructor|].
  now apply insert_by_key_sorted.
Qed.

Lemma sorted_by_key_NoDup (l : list string) : NoDup l -> NoDup (sorted_by_key key l).
Proof. intros H. now rewrite sorted_by_key_perm. Qed.

(** Entries with equal keys keep their order: the sort is stable. *)
Lemma insert_by_key_filter (p : string -> bool) (x : string) (l : list string) :
  (forall y, p y = true -> key y = key x) ->
  List.filter p (insert_by_key key x l) = List.filter p (x :: l).
Proof.
  intros Hp. induction l as [|y l IH]; [reflexivity|].
  cbn [insert_by_key]. destruct (String.leb (key x) (key y)) eqn:E; [reflexivity|].
  cbn [List.filter] in *. destruct (p y) eqn:Ey.
  - apply Hp in Ey. rewrite Ey in E.
    assert (H : String.le (key x) (key x)) by reflexivity.
    unfold String.le in H. now rewrite E in H.
  - rewrite IH. reflexivity.
Qed.

End SortByKeyFacts.

Section SortStable.
Variable key : string -> string.

Lemma insert_by_key_filter_out (p : string -> bool) (x : string) (l : list string) :
  p x = false -> List.filter p (insert_by_key key x l) = List.filter p l.
Proof.
  intros Hx. induction l as [|y l IH]; cbn; [now rewrite Hx|].
  destruct (String.leb (key x) (key y)); cbn; [now rewrite Hx|].
  now rewrite IH.
Qed.

(** [sorted] is stable: the entries of one key keep their order. *)
Lemma sorted_by_key_stable (k : string) (l : list string) :
  List.filter (fun y => String.eqb (key y) k) (sorted_by_key key l)
  = List.filter (fun y => String.eqb (key y) k) l.
Proof.
  induction l as [|x l IH]; [reflexivity|].
  cbn [sorted_by_key]. destruct (String.eqb (key x) k) eqn:E.
  - rewrite insert_by_key_filter.
    + cbn. now rewrite E, IH.
    + intros y Hy. apply String.eqb_eq in Hy, E. congruence.
  - rewrite insert_by_key_filter_out by exact E. cbn. now rewrite E, IH.
Qed.
End SortStable.

(** ** The listing normaliser *)

Lemma list_cloud_step_files (scheme without : string) (acc : gset string * list string)
    (it : entry) :
  (list_cloud_step scheme without acc it).2
  = acc.2 ++ (if is_file_entry scheme without it
              then [rebuild_url scheme (entry_name it)] else []).
Proof.
  destruct acc as [d f]. unfold list_cloud_step, is_file_entry. cbn [snd].
  destruct (type_is_directory it || Str.endswith (entry_name it) "/");
    cbn [negb andb snd]; [now rewrite app_nil_r|].
  destruct (Str.contains Str.slash _); cbn [negb andb snd]; [now rewrite app_nil_r|].
  destruct (is_allowed_file _); cbn [snd]; [reflexivity|now rewrite app_nil_r].
Qed.

Lemma fold_list_cloud_files (scheme without : string) (items : list entry)
    (acc : gset string * list string) :
  (fold_left (list_cloud_step scheme without) items acc).2
  = acc.2 ++ map (fun it => rebuild_url scheme (entry_name it))
               (List.filter (is_file_entry scheme without) items).
Proof.
  revert acc. induction items as [|it items IH]; intros acc; cbn [fold_left List.filter].
  - cbn. now rewrite app_nil_r.
  - rewrite IH, list_cloud_step_files.
    destruct (is_file_entry scheme without it); cbn [map].
    + now rewrite <- app_assoc.
    + now rewrite app_nil_r.
Qed.

Lemma normalize_listing_eq (scheme without : string) (items : list entry) :
  normalize_listing scheme without items
  = (sorted_by_key Str.lower
       (elements (fold_left (list_cloud_step scheme without) items (∅, [])).1),
     sorted_by_key Str.lower
       (fold_left (list_cloud_step scheme without) items (∅, [])).2).
Proof. unfold normalize_listing. now destruct (fold_left _ _ _). Qed.

Lemma NoDup_map_filter {A B} (f : A -> B) (p : A -> bool) (l : list A) :
  NoDup (map f l) -> NoDup (map f (List.filter p l)).
Proof.
  induction l as [|x l IH]; cbn; [auto|].
  intros H. apply NoDup_cons in H as [Hx Hl].
  destruct (p x); cbn; [|auto].
  apply NoDup_cons. split; [|auto].
  intros Hin. apply Hx.
  apply list_elem_of_fmap in Hin as (y & -> & Hy).
  apply list_elem_of_fmap. exists y. split; [reflexivity|].
  apply list_elem_of_In in Hy. apply filter_In in Hy as [Hy _].
  now apply list_elem_of_In.
Qed.

Lemma list_cloud_ok (fs_ls : filesystem -> string -> result (list entry))
    (fs : filesystem) (scheme prefix : string) (items : list entry) (s : session) :
  fs_ls fs (strip_scheme prefix).2 = Ok items ->
  list_cloud fs_ls fs scheme prefix s
  = (Done (normalize_listing scheme (strip_scheme prefix).2 items), s, []).
Proof.
  intros H. unfold list_cloud. destruct (strip_scheme prefix) as [sch without].
  cbn [snd] in H |- *. now rewrite H.
Qed.

Lemma list_cloud_exn (fs_ls : filesystem -> string -> result (list entry))
    (fs : filesystem) (scheme prefix e : string) (s : session) :
  fs_ls fs (strip_scheme prefix).2 = Exn e ->
  list_cloud fs_ls fs scheme prefix s
  = (Done ([], []), s, [st_error ("Failed to list '" +:+ prefix +:+ "': " +:+ e)]).
Proof.
  intros H. unfold list_cloud. destruct (strip_scheme prefix) as [sch without].
  cbn [snd] in H |- *. now rewrite H.
Qed.

(** No listing ever touches the session state. *)
Lemma list_cloud_session (fs_ls : filesystem -> string -> result (list entry))
    (fs : filesystem) (scheme prefix : string) (s : session) :
  session_after (list_cloud fs_ls fs scheme prefix s) = s.
Proof.
  destruct (fs_ls fs (strip_scheme prefix).2) as [items|e] eqn:E.
  - now rewrite (list_cloud_ok _ _ _ _ _ _ E).
  - now rewrite (list_cloud_exn _ _ _ _ _ _ E).
Qed.

Lemma list_cloud_step_dir (scheme without : string) (d : gset string) (f : list string)
    (it : entry) :
  type_is_directory it || Str.endswith (entry_name it) "/" = true ->
  list_cloud_step scheme without (d, f) it
  = ({[ rebuild_url scheme (Str.rstrip Str.slash (entry_name it) +:+ "/") ]} ∪ d, f).
Proof. intros H. unfold list_cloud_step. now rewrite H. Qed.

Lemma list_cloud_step_child (scheme without : string) (d : gset string) (f : list string)
    (it : entry) :
  type_is_directory it || Str.endswith (entry_name it) "/" = false ->
  Str.contains Str.slash (relative_name without (entry_name it)) = true ->
  list_cloud_step scheme without (d, f) it
  = ({[ rebuild_url scheme
          (Str.rstrip Str.slash without +:+ "/"
           +:+ Str.strip Str.slash
                 (Str.first_item (Str.split1 Str.slash (relative_name without (entry_name it))))
           +:+ "/") ]} ∪ d, f).
Proof.
  intros H1 H2. unfold list_cloud_step. rewrite H1.
  unfold relative_name in H2 |- *. now rewrite H2.
Qed.

Lemma list_cloud_step_file (scheme without : string) (d : gset string) (f : list string)
    (it : entry) :
  type_is_directory it || Str.endswith (entry_name it) "/" = false ->
  Str.contains Str.slash (relative_name without (entry_name it)) = false ->
  list_cloud_step scheme without (d, f) it
  = (d, if is_allowed_file (rebuild_url scheme (entry_name it))
        then f ++ [rebuild_url scheme (entry_name it)] else f).
Proof.
  intros H1 H2. unfold list_cloud_step. rewrite H1.
  unfold relative_name in H2. rewrite H2.
  now destruct (is_allowed_file _).
Qed.

(** C1 (as amended): with the listed names carrying the bucket, as [fs.ls]
    returns them, the entries bucket/a/b.csv, bucket/a/c/d.csv and
    bucket/a/e.txt, none marked as a directory, listed under the prefix body
    bucket/a/ give the directory list [scheme://bucket/a/c/] and the file
    list [scheme://bucket/a/b.csv], for every scheme. *)
Theorem list_cloud_example (fs_ls : filesystem -> string -> result (list entry))
    (fs : filesystem) (scheme prefix : string) (s : session) (e1 e2 e3 : entry) :
  (strip_scheme prefix).2 = "bucket/a/" ->
  fs_ls fs "bucket/a/" = Ok [e1; e2; e3] ->
  entry_name e1 = "bucket/a/b.csv" -> type_is_directory e1 = false ->
  entry_name e2 = "bucket/a/c/d.csv" -> type_is_directory e2 = false ->
  entry_name e3 = "bucket/a/e.txt" -> type_is_directory e3 = false ->
  list_cloud fs_ls fs scheme prefix s
  = (Done ([rebuild_url scheme "bucket/a/c/"], [rebuild_url scheme "bucket/a/b.csv"]), s, []).
Proof.
  intros Hp Hls N1 T1 N2 T2 N3 T3.
  rewrite <- Hp in Hls. rewrite (list_cloud_ok _ _ _ _ _ _ Hls), Hp.
  assert (A1 : is_allowed_file (rebuild_url scheme "bucket/a/b.csv") = true).
  { unfold rebuild_url. rewrite is_allowed_file_append; [reflexivity|vm_compute; lia]. }
  assert (A3 : is_allowed_file (rebuild_url scheme "bucket/a/e.txt") = false).
  { unfold rebuild_url. rewrite is_allowed_file_append; [reflexivity|vm_compute; lia]. }
  assert (F : fold_left (list_cloud_step scheme "bucket/a/") [e1; e2; e3] (∅, [])
              = ({[ rebuild_url scheme "bucket/a/c/" ]},
                 [rebuild_url scheme "bucket/a/b.csv"])).
  { cbn [fold_left].
    rewrite (list_cloud_step_file scheme "bucket/a/" ∅ [] e1)
      by (rewrite ?N1, ?T1; reflexivity).
    rewrite N1, A1.
    rewrite (list_cloud_step_child scheme "bucket/a/" ∅ _ e2)
      by (rewrite ?N2, ?T2; reflexivity).
    rewrite N2.
    rewrite (list_cloud_step_file scheme "bucket/a/" _ _ e3)
      by (rewrite ?N3, ?T3; reflexivity).
    rewrite N3, A3. rewrite (right_id_L ∅ (∪)). reflexivity. }
  rewrite normalize_listing_eq, F. cbn [fst snd].
  rewrite elements_singleton. reflexivity.
Qed.

Lemma list_cloud_example_witness :
  list_cloud (fun _ _ => Ok [Entry (Some "bucket/a/b.csv") None (Some "file");
                             Entry None (Some "bucket/a/c/d.csv") None;
                             Entry (Some "bucket/a/e.txt") None (Some "file")])
    (GCSFileSystem (TokStr "anon")) "gs" "gs://bucket/a/" empty_session
  = (Done (["gs://bucket/a/c/"], ["gs://bucket/a/b.csv"]), empty_session, []).
Proof.
  apply (list_cloud_example _ (GCSFileSystem (TokStr "anon")) "gs" "gs://bucket/a/" empty_session
           (Entry (Some "bucket/a/b.csv") None (Some "file"))
           (Entry None (Some "bucket/a/c/d.csv") None)
           (Entry (Some "bucket/a/e.txt") None (Some "file")));
    reflexivity.
Defined.

(** C1 fails as stated: the names a/b.csv, a/c/d.csv and a/e.txt do not
    start with the prefix body bucket/a/, so each is taken whole as its
    relative path and collapses into the inferred folder bucket/a/a/. *)
Lemma list_cloud_example_relative_names :
  let r := list_cloud (fun _ _ => Ok [Entry (Some "a/b.csv") None None;
                                      Entry (Some "a/c/d.csv") None None;
                                      Entry (Some "a/e.txt") None None])
             S3FileSystem_anon "s3" "s3://bucket/a/" empty_session in
  outcome_of r = Done (["s3://bucket/a/a/"], [])
  /\ outcome_of r <> Done (["s3://bucket/a/c/"], ["s3://bucket/a/b.csv"]).
Proof. split; [vm_compute; reflexivity|vm_compute; discriminate]. Qed.

(** C3: when [fs.ls] raises, [list_cloud] does not: it shows one error that
    names the prefix and the cause, returns two empty lists and leaves the
    session state as it was; a refresh of a connected page then shows an
    empty browser, with the prefix unchanged. *)
Theorem list_cloud_failure (fs_ls : filesystem -> string -> result (list entry))
    (pd_read_csv pd_read_excel : string -> storage_options -> result DataFrame)
    (px_raises : DataFrame -> figure -> option string)
    (inp : inputs) (fs : filesystem) (scheme prefix e : string) (s : session) :
  fs_ls fs (strip_scheme prefix).2 = Exn e ->
  list_cloud fs_ls fs scheme prefix s
  = (Done ([], []), s, [st_error ("Failed to list '" +:+ prefix +:+ "': " +:+ e)])
  /\ (ss_fs s = Some fs -> ss_prefix s = Some prefix ->
      connected s = true -> up_btn inp = false ->
      main_ui fs_ls pd_read_csv pd_read_excel px_raises inp s
      = (Done tt, s,
         [st_subheader "Browse folders";
          st_caption ("Current prefix: " +:+ prefix);
          st_error ("Failed to list '" +:+ prefix +:+ "': " +:+ e);
          st_write "No subfolders.";
          st_subheader "Files (CSV/XLS/XLSX)";
          st_write "No CSV/Excel files in this folder."])).
Proof.
  intros Hls. split; [now apply list_cloud_exn|].
  intros Hfs Hp Hc Hup. unfold connected in Hc. rewrite Hfs, Hp in Hc.
  cbn [default] in Hc.
  apply andb_true_iff in Hc as [Hc Hsch]. apply andb_true_iff in Hc as [_ Hpre].
  unfold main_ui, st_bind at 1, get_session. rewrite Hfs, Hp. cbn [default].
  rewrite Hpre, Hsch, Hup. cbn [andb].
  unfold st_bind, emit, st_ret.
  rewrite (list_cloud_exn _ _ _ _ _ _ Hls). reflexivity.
Qed.

Lemma list_cloud_failure_witness :
  let s := Session (Some "s3://bucket/a") (Some "s3://bucket/a/")
             (Some S3FileSystem_anon) (Some "s3") (Some (opts_s3 true None None None)) in
  let inp := Inputs "s3://bucket/a" true "" "" "" "" true None
               false false true "(stay here)" false [] false None in
  session_after (main_ui (fun _ _ => Exn "NoSuchBucket") (fun _ _ => Exn "") (fun _ _ => Exn "")
                   px_accepts inp s) = s.
Proof.
  intros s inp.
  destruct (list_cloud_failure (fun _ _ => Exn "NoSuchBucket") (fun _ _ => Exn "")
              (fun _ _ => Exn "") px_accepts inp S3FileSystem_anon "s3" "s3://bucket/a/" "NoSuchBucket" s
              eq_refl) as [_ H].
  rewrite H; reflexivity.
Defined.

(** C5 (as amended): whatever the listing call returns, [list_cloud]
    returns a directory list without duplicates, and both lists are sorted
    on their lower-cased paths; the file list is free of duplicates when no
    name occurs twice in the listing (repeated file entries are kept). *)
Theorem list_cloud_sorted_unique (fs_ls : filesystem -> string -> result (list entry))
    (fs : filesystem) (scheme prefix : string) (s : session) :
  exists dirs files,
    outcome_of (list_cloud fs_ls fs scheme prefix s) = Done (dirs, files)
    /\ NoDup dirs
    /\ StronglySorted (key_le Str.lower) dirs
    /\ StronglySorted (key_le Str.lower) files
    /\ (forall items, fs_ls fs (strip_scheme prefix).2 = Ok items ->
        NoDup (map entry_name items) -> NoDup files).
Proof.
  destruct (fs_ls fs (strip_scheme prefix).2) as [items|e] eqn:E.
  - rewrite (list_cloud_ok _ _ _ _ _ _ E), normalize_listing_eq.
    eexists _, _. split; [reflexivity|]. repeat split.
    + apply sorted_by_key_NoDup, NoDup_elements.
    + apply sorted_by_key_sorted.
    + apply sorted_by_key_sorted.
    + intros items' [= <-] Hnd. apply sorted_by_key_NoDup.
      rewrite fold_list_cloud_files. cbn [snd app].
      rewrite <- (map_map entry_name (rebuild_url scheme)).
      apply (@NoDup_fmap_2 _ _ (rebuild_url scheme) (rebuild_url_inj scheme)).
      now apply NoDup_map_filter.
  - rewrite (list_cloud_exn _ _ _ _ _ _ E).
    exists [], []. split; [reflexivity|]. repeat split; constructor.
Qed.

Lemma list_cloud_sorted_unique_witness :
  exists dirs files,
    outcome_of (list_cloud (fun _ _ => Ok [Entry (Some "b/K/z.csv") None None;
                                           Entry (Some "b/a.csv") None None;
                                           Entry (Some "b/k/") None None;
                                           Entry (Some "b/B.xls") None None])
                  S3FileSystem_anon "s3" "s3://b/" empty_session) = Done (dirs, files)
    /\ NoDup dirs /\ NoDup files.
Proof.
  destruct (list_cloud_sorted_unique
              (fun _ _ => Ok [Entry (Some "b/K/z.csv") None None;
                              Entry (Some "b/a.csv") None None;
                              Entry (Some "b/k/") None None;
                              Entry (Some "b/B.xls") None None])
              S3FileSystem_anon "s3" "s3://b/" empty_session)
    as (dirs & files & H & Hd & _ & _ & Hf).
  exists dirs, files. split; [exact H|]. split; [exact Hd|].
  apply (Hf _ eq_refl).
  apply (bool_decide_unpack _). vm_compute. exact I.
Defined.

(** C5 fails as stated: an entry listed twice appears twice among the files. *)
Lemma list_cloud_repeated_file :
  let r := list_cloud (fun _ _ => Ok [Entry (Some "bucket/a/b.csv") None None;
                                      Entry (Some "bucket/a/b.csv") None None])
             S3FileSystem_anon "s3" "s3://bucket/a/" empty_session in
  outcome_of r = Done ([], ["s3://bucket/a/b.csv"; "s3://bucket/a/b.csv"])
  /\ ~ NoDup ["s3://bucket/a/b.csv"; "s3://bucket/a/b.csv"].
Proof.
  split; [vm_compute; reflexivity|].
  intros H. apply NoDup_cons in H as [H _]. apply H. now left.
Qed.

(** ** The chart heuristic *)

Lemma issubset_spec (small big : list string) :
  issubset small big = true <-> small ⊆ big.
Proof.
  unfold issubset. rewrite forallb_forall. split.
  - intros H x Hx. apply list_elem_of_In in Hx.
    apply H in Hx. now apply bool_decide_eq_true in Hx.
  - intros H x Hx. apply bool_decide_eq_true, H. now apply list_elem_of_In.
Qed.

Lemma find_head_filter {A} (p : A -> bool) (l : list A) :
  List.find p l = head (List.filter p l).
Proof. induction l as [|x l IH]; cbn; [reflexivity|]. now destruct (p x). Qed.

(** With distinct labels, [df[c]] is the column labelled [c]. *)
Lemma find_label (data : list (string * series)) (c : string) (v : series) :
  NoDup (map fst data) -> (c, v) ∈ data ->
  List.find (fun p => String.eqb p.1 c) data = Some (c, v).
Proof.
  induction data as [|[c' v'] data IH]; cbn [map fst List.find].
  - intros _ H. now apply elem_of_nil in H.
  - intros Hnd Hin. apply NoDup_cons in Hnd as [Hc' Hnd].
    apply elem_of_cons in Hin as [[= <- <-]|Hin].
    + now rewrite String.eqb_refl.
    + destruct (String.eqb_spec c' c) as [->|_]; [|now apply IH].
      exfalso. apply Hc'. apply list_elem_of_fmap. now exists (c, v).
Qed.

Lemma df_getitem_column (df : DataFrame) (c : string) (v : series) :
  NoDup (df_columns df) -> (c, v) ∈ df_data df -> df_getitem df c = Some v.
Proof.
  intros Hnd Hin. unfold df_getitem. now rewrite (find_label _ _ _ Hnd Hin).
Qed.

(** A test made through [df[c]] on the labels selects the columns that
    pass it. *)
Lemma filter_by_getitem (df : DataFrame) (q : series -> bool) (l : list (string * series)) :
  NoDup (df_columns df) -> l ⊆ df_data df ->
  List.filter (fun c => match df_getitem df c with Some s => q s | None => false end)
    (map fst l)
  = map fst (List.filter (fun cv => q cv.2) l).
Proof.
  intros Hnd. induction l as [|[c v] l IH]; intros Hsub; [reflexivity|].
  cbn [map fst List.filter snd].
  rewrite (df_getitem_column df c v Hnd) by (apply Hsub; now left).
  rewrite IH by (intros x Hx; apply Hsub; now right).
  now destruct (q v).
Qed.

Lemma label_threshold_spec (k n : nat) :
  (k <=? Nat.max 50 (4 * n / 5))%nat = ((k <=? 50)%nat || (5 * k <=? 4 * n)%nat).
Proof.
  assert (H5 : (k <= 4 * n / 5 <-> 5 * k <= 4 * n)%nat).
  { split; intros H.
    - pose proof (Nat.Div0.mul_div_le (4 * n) 5). lia.
    - apply Nat.div_le_lower_bound; lia. }
  destruct (Nat.leb_spec k 50) as [H1|H1], (Nat.leb_spec (5 * k) (4 * n)) as [H2|H2];
    cbn [orb]; [apply Nat.leb_le; lia..|apply Nat.leb_gt; lia].
Qed.

Lemma numeric_columns_spec (df : DataFrame) :
  NoDup (df_columns df) ->
  numeric_columns df = Spec.columns_where Spec.is_numeric_column df.
Proof.
  intros Hnd. unfold numeric_columns, Spec.columns_where, df_columns.
  exact (filter_by_getitem df (fun s => is_numeric_dtype (s_dtype s)) (df_data df) Hnd
           (fun _ H => H)).
Qed.

Lemma candidate_label_columns_spec (df : DataFrame) :
  NoDup (df_columns df) ->
  candidate_label_columns df
  = Spec.columns_where (Spec.is_object_label_candidate (df_len df)) df.
Proof.
  intros Hnd. unfold candidate_label_columns, Spec.columns_where, df_columns.
  set (q := fun s => match s_dtype s with
                     | object_ => (s_nunique s <=? 50)%nat
                                  || (5 * s_nunique s <=? 4 * df_len df)%nat
                     | _ => false
                     end).
  transitivity
    (List.filter (fun c => match df_getitem df c with Some s => q s | None => false end)
       (map fst (df_data df))).
  - apply filter_ext. intros c. unfold col_is_label_candidate, q.
    destruct (df_getitem df c) as [v|]; [|reflexivity].
    unfold label_threshold. rewrite label_threshold_spec. now destruct (s_dtype v).
  - exact (filter_by_getitem df q (df_data df) Hnd (fun _ H => H)).
Qed.

Lemma first_column_head (p : string * series -> bool) (df : DataFrame) :
  Spec.first_column p df = head (Spec.columns_where p df).
Proof.
  unfold Spec.first_column, Spec.columns_where. rewrite find_head_filter.
  now destruct (List.filter p (df_data df)).
Qed.

Lemma numeric_columns_valid (df : DataFrame) (c : string) :
  c ∈ numeric_columns df -> c ∈ df_columns df /\ col_is_numeric df c = true.
Proof.
  intros H. apply list_elem_of_In, filter_In in H as [H1 H2].
  split; [now apply list_elem_of_In|exact H2].
Qed.

Lemma candidate_label_columns_valid (df : DataFrame) (c : string) :
  c ∈ candidate_label_columns df -> c ∈ df_columns df.
Proof.
  intros H. apply list_elem_of_In, filter_In in H as [H1 _]. now apply list_elem_of_In.
Qed.

Lemma plotly_chart_run (px_raises : DataFrame -> figure -> option string)
    (df : DataFrame) (fig : figure) (s : session) :
  plotly_chart px_raises df fig s
  = match px_raises df fig with
    | None => (Done tt, s, [st_plotly_chart fig])
    | Some e => (Raised e, s, [])
    end.
Proof. unfold plotly_chart. now destruct (px_raises df fig). Qed.

Lemma validate_passes (px_raises : DataFrame -> figure -> option string)
    (df : DataFrame) (label_col stat_col title : string) (s : session) :
  stat_col ∈ df_columns df -> label_col ∈ df_columns df -> col_is_numeric df stat_col = true ->
  validate_and_plot_bar_interactive px_raises df label_col stat_col title s
  = plotly_chart px_raises df (px_bar label_col stat_col title stat_col "%{text:.2f}" (-45)) s.
Proof.
  intros H1 H2 H3. unfold validate_and_plot_bar_interactive.
  rewrite (bool_decide_eq_true_2 _ H1), (bool_decide_eq_true_2 _ H2), H3. reflexivity.
Qed.

Lemma validate_degrades (px_raises : DataFrame -> figure -> option string)
    (df : DataFrame) (label_col stat_col title : string) (s : session) :
  stat_col ∉ df_columns df \/ col_is_numeric df stat_col = false ->
  exists msg,
    validate_and_plot_bar_interactive px_raises df label_col stat_col title s
    = (Done tt, s, [st_warning msg]).
Proof.
  intros H. unfold validate_and_plot_bar_interactive.
  destruct (bool_decide (stat_col ∈ df_columns df)) eqn:E1; cbn [negb orb].
  - destruct H as [H|H]; [now apply bool_decide_eq_true in E1|].
    destruct (bool_decide (label_col ∈ df_columns df)); cbn [negb];
      [rewrite H|]; eexists; reflexivity.
  - eexists; reflexivity.
Qed.

Lemma choose_chart_not_fixed (df : DataFrame) :
  ~ EXPECTED_TIME_SERIES ⊆ df_columns df ->
  issubset EXPECTED_TIME_SERIES (df_columns df) = false.
Proof.
  intros H. destruct (issubset _ _) eqn:E; [|reflexivity].
  now apply issubset_spec in E.
Qed.

(** C6: a table whose columns include Frame Number, Procrustes Similarity
    and Joint Angle Distance gets the fixed line chart over these three
    columns (x = Frame Number), whatever its other columns are: the only
    thing the heuristic does is to ask the chart library for that chart,
    which is shown (or, if the library refuses the two metric columns, its
    exception ends the run); no other tier is tested or shown. *)
Theorem fixed_time_series_chart (px_raises : DataFrame -> figure -> option string)
    (df : DataFrame) (s : session) :
  EXPECTED_TIME_SERIES ⊆ df_columns df ->
  choose_chart px_raises df s
  = match px_raises df (px_line "Frame Number"
                          ["Procrustes Similarity"; "Joint Angle Distance"]
                          "Metrics over Frames") with
    | None =>
        (Done tt, s,
         [st_plotly_chart (px_line "Frame Number"
                             ["Procrustes Similarity"; "Joint Angle Distance"]
                             "Metrics over Frames")])
    | Some e => (Raised e, s, [])
    end.
Proof.
  intros H. apply issubset_spec in H. unfold choose_chart. rewrite H.
  apply plotly_chart_run.
Qed.

Lemma fixed_time_series_chart_witness :
  choose_chart px_wide_form_check
    (Frame [("Extra", Series object_ 7); ("Frame Number", Series int64 10);
            ("Joint Angle Distance", Series int64 3);
            ("Procrustes Similarity", Series float64 10)] 10) empty_session
  = (Done tt, empty_session,
     [st_plotly_chart (px_line "Frame Number"
                         ["Procrustes Similarity"; "Joint Angle Distance"]
                         "Metrics over Frames")]).
Proof.
  rewrite fixed_time_series_chart; [reflexivity|].
  apply issubset_spec. vm_compute. reflexivity.
Defined.

(** C2 (as amended): for a table with distinct column labels that does not
    contain the three time-series columns, when some column is numeric and
    some column of dtype object has at most max(50, 0.8 n) distinct values,
    the heuristic asks for the bar chart of the first such object column
    (labels) against the first numeric column (values), in column order;
    the check made before rendering shows a warning and no chart, without
    raising, whenever the value column is missing or not numeric. *)
Theorem inferred_bar_chart (px_raises : DataFrame -> figure -> option string)
    (df : DataFrame) (s : session) (label stat : string) :
  NoDup (df_columns df) ->
  ~ EXPECTED_TIME_SERIES ⊆ df_columns df ->
  Spec.first_column Spec.is_numeric_column df = Some stat ->
  Spec.first_column (Spec.is_object_label_candidate (df_len df)) df = Some label ->
  choose_chart px_raises df s
  = match px_raises df (px_bar label stat ("Bar: " +:+ label +:+ " vs " +:+ stat) stat
                          "%{text:.2f}" (-45)) with
    | None =>
        (Done tt, s,
         [st_plotly_chart
            (px_bar label stat ("Bar: " +:+ label +:+ " vs " +:+ stat) stat
               "%{text:.2f}" (-45))])
    | Some e => (Raised e, s, [])
    end
  /\ (forall (df' : DataFrame) (label' stat' title : string) (s' : session),
        stat' ∉ df_columns df' \/ col_is_numeric df' stat' = false ->
        exists msg,
          validate_and_plot_bar_interactive px_raises df' label' stat' title s'
          = (Done tt, s', [st_warning msg])).
Proof.
  intros Hnd Hfix Hstat Hlabel. split; [|intros; now apply validate_degrades].
  unfold choose_chart. rewrite (choose_chart_not_fixed df Hfix).
  rewrite first_column_head, <- numeric_columns_spec in Hstat by exact Hnd.
  rewrite first_column_head, <- candidate_label_columns_spec in Hlabel by exact Hnd.
  destruct (numeric_columns df) as [|stat0 nums] eqn:En; [discriminate|].
  destruct (candidate_label_columns df) as [|label0 cands] eqn:Ec; [discriminate|].
  cbn in Hstat, Hlabel. injection Hstat as ->. injection Hlabel as ->.
  destruct (numeric_columns_valid df stat) as [H1 H2]; [rewrite En; now left|].
  rewrite validate_passes; [apply plotly_chart_run|exact H1| |exact H2].
  apply candidate_label_columns_valid. rewrite Ec. now left.
Qed.

Lemma inferred_bar_chart_witness :
  choose_chart px_wide_form_check
    (Frame [("Label", Series object_ 3); ("Value", Series float64 9)] 10) empty_session
  = (Done tt, empty_session,
     [st_plotly_chart (px_bar "Label" "Value" "Bar: Label vs Value" "Value" "%{text:.2f}" (-45))]).
Proof.
  refine (eq_trans
            (proj1 (inferred_bar_chart px_wide_form_check
                      (Frame [("Label", Series object_ 3); ("Value", Series float64 9)] 10)
                      empty_session "Label" "Value" _ _ _ _)) _).
  - apply (bool_decide_unpack _). vm_compute. exact I.
  - intros H. apply issubset_spec in H. vm_compute in H. discriminate.
  - reflexivity.
  - reflexivity.
  - reflexivity.
Defined.

(** C2 fails as stated: a text column held under the string dtype is not
    of dtype object, so it is no label candidate for the code; the table
    Label (text, 3 distinct values, 10 rows), Value (numeric) then gets the
    line chart over Value and not the bar chart. *)
Lemma inferred_bar_chart_string_dtype :
  let df := Frame [("Label", Series string_ 3); ("Value", Series float64 10)] 10 in
  ~ EXPECTED_TIME_SERIES ⊆ df_columns df
  /\ Spec.first_column Spec.is_numeric_column df = Some "Value"
  /\ Spec.first_column (Spec.is_label_candidate (df_len df)) df = Some "Label"
  /\ choose_chart px_accepts df empty_session
     = (Done tt, empty_session,
        [st_plotly_chart (px_line_wide ["Value"] "Line plot (numeric columns)")])
  /\ choose_chart px_accepts df empty_session
     <> (Done tt, empty_session,
         [st_plotly_chart
            (px_bar "Label" "Value" "Bar: Label vs Value" "Value" "%{text:.2f}" (-45))]).
Proof.
  cbv zeta. split; [|split; [|split; [|split]]].
  - intros H. apply issubset_spec in H. vm_compute in H. discriminate.
  - reflexivity.
  - reflexivity.
  - vm_compute. reflexivity.
  - vm_compute. discriminate.
Qed.

(** A run of the chart choice ends in one of two ways: normally, with
    exactly one of the four planned displays, or with nothing shown and the
    exception the chart library raised. *)
Lemma choose_chart_cases (px_raises : DataFrame -> figure -> option string)
    (df : DataFrame) (s : session) :
  (exists ev, choose_chart px_raises df s = (Done tt, s, [ev]) /\ planned_outcome ev)
  \/ (exists e, choose_chart px_raises df s = (Raised e, s, [])).
Proof.
  unfold choose_chart. destruct (issubset _ _).
  - unfold plot_csv_line_chart. rewrite plotly_chart_run.
    destruct (px_raises df _); [right|left]; eexists; [reflexivity|].
    split; [reflexivity|constructor].
  - destruct (numeric_columns df) as [|stat nums] eqn:En.
    + unfold plot_generic_lines. rewrite En.
      left. eexists. split; [reflexivity|constructor].
    + destruct (candidate_label_columns df) as [|label cands] eqn:Ec.
      * unfold plot_generic_lines. rewrite En, plotly_chart_run.
        destruct (px_raises _ _); [right|left]; eexists; [reflexivity|].
        split; [reflexivity|now constructor].
      * destruct (numeric_columns_valid df stat) as [H1 H2]; [rewrite En; now left|].
        rewrite validate_passes; [|exact H1| |exact H2].
        -- rewrite plotly_chart_run.
           destruct (px_raises df _); [right|left]; eexists; [reflexivity|].
           split; [reflexivity|constructor].
        -- apply candidate_label_columns_valid. rewrite Ec. now left.
Qed.

(** C7: the generic line chart is requested without any check of what the
    chart library accepts: for a table that has no time-series columns, no
    candidate label column and at least one numeric column, when the
    library refuses the numeric columns the run shows nothing and ends with
    the library's exception, which nothing catches. *)
Theorem generic_lines_uncaught (px_raises : DataFrame -> figure -> option string)
    (df : DataFrame) (s : session) (e : string) :
  ~ EXPECTED_TIME_SERIES ⊆ df_columns df ->
  candidate_label_columns df = [] ->
  numeric_columns df <> [] ->
  px_raises (df_select df (numeric_columns df))
    (px_line_wide (numeric_columns df) "Line plot (numeric columns)") = Some e ->
  choose_chart px_raises df s = (Raised e, s, []).
Proof.
  intros Hfix Hc Hn He. unfold choose_chart.
  rewrite (choose_chart_not_fixed df Hfix), Hc.
  assert (E : plot_generic_lines px_raises df "Line plot (numeric columns)" s = (Raised e, s, [])).
  { unfold plot_generic_lines. destruct (numeric_columns df) as [|c cs] eqn:En; [congruence|].
    now rewrite plotly_chart_run, He. }
  now destruct (numeric_columns df).
Qed.

Lemma generic_lines_uncaught_witness :
  choose_chart px_wide_form_check
    (Frame [("A", Series int64 3); ("B", Series bool_ 2)] 3) empty_session
  = (Raised "Plotly Express cannot process wide-form data with columns of different type.",
     empty_session, []).
Proof.
  apply generic_lines_uncaught.
  - intros H. apply issubset_spec in H. vm_compute in H. discriminate.
  - reflexivity.
  - discriminate.
  - reflexivity.
Defined.

(** X26: for a table with distinct column labels that has neither the
    three time-series columns nor both a numeric column and an object
    label candidate, the heuristic shows the information message
    "No numeric columns to plot." when no column is numeric, and otherwise
    asks for the line chart over exactly the numeric columns, in column
    order, of the table restricted to them: the chart is shown, or the
    library's exception ends the run.  For every table the choice either
    ends normally with exactly one of the four planned displays, or shows
    nothing and ends with the exception of the chart library. *)
Theorem generic_lines_or_no_chart (px_raises : DataFrame -> figure -> option string)
    (df : DataFrame) (s : session) :
  NoDup (df_columns df) ->
  ~ EXPECTED_TIME_SERIES ⊆ df_columns df ->
  Spec.first_column Spec.is_numeric_column df = None
  \/ Spec.first_column (Spec.is_object_label_candidate (df_len df)) df = None ->
  choose_chart px_raises df s
  = match Spec.columns_where Spec.is_numeric_column df with
    | [] => (Done tt, s, [st_info "No numeric columns to plot."])
    | cols =>
        match px_raises (df_select df cols)
                (px_line_wide cols "Line plot (numeric columns)") with
        | None =>
            (Done tt, s, [st_plotly_chart (px_line_wide cols "Line plot (numeric columns)")])
        | Some e => (Raised e, s, [])
        end
    end
  /\ (forall (df' : DataFrame) (s' : session),
        (exists ev, choose_chart px_raises df' s' = (Done tt, s', [ev]) /\ planned_outcome ev)
        \/ (exists e, choose_chart px_raises df' s' = (Raised e, s', []))).
Proof.
  intros Hnd Hfix Htier. split; [|apply choose_chart_cases].
  unfold choose_chart. rewrite (choose_chart_not_fixed df Hfix).
  rewrite !first_column_head in Htier.
  rewrite <- numeric_columns_spec, <- candidate_label_columns_spec in Htier by exact Hnd.
  rewrite <- numeric_columns_spec by exact Hnd.
  unfold plot_generic_lines.
  destruct (numeric_columns df) as [|stat nums] eqn:En; [reflexivity|].
  destruct (candidate_label_columns df) as [|label cands] eqn:Ec;
    [apply plotly_chart_run|].
  destruct Htier; discriminate.
Qed.

Lemma generic_lines_or_no_chart_witness :
  choose_chart px_wide_form_check
    (Frame [("A", Series int64 4); ("T", Series datetime64 4);
            ("B", Series float64 4)] 4) empty_session
  = (Done tt, empty_session,
     [st_plotly_chart (px_line_wide ["A"; "B"] "Line plot (numeric columns)")])
  /\ choose_chart px_wide_form_check
       (Frame [("Name", Series object_ 2); ("City", Series object_ 2)] 2) empty_session
     = (Done tt, empty_session, [st_info "No numeric columns to plot."]).
Proof.
  split.
  - refine (eq_trans
              (proj1 (generic_lines_or_no_chart px_wide_form_check
                        (Frame [("A", Series int64 4); ("T", Series datetime64 4);
                                ("B", Series float64 4)] 4) empty_session _ _ _)) _).
    + apply (bool_decide_unpack _). vm_compute. exact I.
    + intros H. apply issubset_spec in H. vm_compute in H. discriminate.
    + right. reflexivity.
    + reflexivity.
  - refine (eq_trans
              (proj1 (generic_lines_or_no_chart px_wide_form_check
                        (Frame [("Name", Series object_ 2); ("City", Series object_ 2)] 2)
                        empty_session _ _ _)) _).
    + apply (bool_decide_unpack _). vm_compute. exact I.
    + intros H. apply issubset_spec in H. vm_compute in H. discriminate.
    + left. reflexivity.
    + reflexivity.
Defined.

(** ** Going up one level *)

Lemma split_nonempty (c : ascii) (s : string) : Str.split c s <> [].
Proof.
  destruct s as [|a s]; cbn; [discriminate|].
  destruct (Ascii.eqb a c); [discriminate|].
  destruct (Str.split c s); discriminate.
Qed.

Lemma split_cons_sep (c : ascii) (s : string) :
  Str.split c (String c s) = "" :: Str.split c s.
Proof. cbn. now rewrite Ascii.eqb_refl. Qed.

Lemma split_cons_other (c a : ascii) (s : string) :
  Ascii.eqb a c = false ->
  Str.split c (String a s)
  = String a (Str.first_item (Str.split c s)) :: tail (Str.split c s).
Proof.
  intros H. cbn. rewrite H.
  destruct (Str.split c s) eqn:E; [now apply split_nonempty in E|reflexivity].
Qed.

Lemma rstrip_cons (c a : ascii) (s : string) :
  Str.rstrip c (String a s)
  = match Str.rstrip c s with
    | EmptyString => if Ascii.eqb a c then "" else String a ""
    | r => String a r
    end.
Proof. reflexivity. Qed.

(** Splitting what [rstrip] leaves is splitting and then ignoring the empty
    segments at the end. *)
Lemma split_rstrip_cases (c : ascii) (s : string) :
  (Str.rstrip c s = "" /\ Spec.drop_trailing_empty (Str.split c s) = [])
  \/ (Str.rstrip c s <> ""
      /\ Spec.drop_trailing_empty (Str.split c s) = Str.split c (Str.rstrip c s)).
Proof.
  induction s as [|a s IH]; [left; now split|].
  rewrite rstrip_cons.
  destruct (Ascii.eqb a c) eqn:Eac.
  - apply Ascii.eqb_eq in Eac as ->. rewrite split_cons_sep.
    cbn [Spec.drop_trailing_empty].
    destruct IH as [[Hr Hd]|[Hr Hd]].
    + left. rewrite Hr, Hd. now split.
    + right. rewrite Hd.
      destruct (Str.rstrip c s) as [|b r] eqn:Er; [congruence|].
      split; [discriminate|].
      rewrite <- Er in *. rewrite Er at 2. rewrite split_cons_sep, Er.
      destruct (Str.split c (String b r)) eqn:E; [now apply split_nonempty in E|].
      reflexivity.
  - right. rewrite (split_cons_other c a s Eac).
    destruct (Str.split c s) as [|h t] eqn:Es; [now apply split_nonempty in Es|].
    cbn [Str.first_item hd tail]. cbn [Spec.drop_trailing_empty] in IH |- *.
    destruct IH as [[Hr Hd]|[Hr Hd]].
    + rewrite Hr. split; [discriminate|].
      destruct (Spec.drop_trailing_empty t); [|discriminate].
      destruct (String.eqb_spec h "") as [->|]; [|discriminate].
      cbn. now rewrite Eac.
    + destruct (Str.rstrip c s) as [|b r] eqn:Er; [congruence|].
      split; [discriminate|].
      rewrite (split_cons_other c a (String b r) Eac).
      destruct (Spec.drop_trailing_empty t) as [|t0 t'].
      * destruct (String.eqb h ""); [symmetry in Hd; now apply split_nonempty in Hd|].
        rewrite <- Hd. reflexivity.
      * rewrite <- Hd. reflexivity.
Qed.

Lemma segments_rstrip (body : string) :
  Str.split Str.slash (Str.rstrip Str.slash body) = Spec.segments body.
Proof.
  unfold Spec.segments.
  destruct (split_rstrip_cases Str.slash body) as [[Hr Hd]|[Hr Hd]].
  - rewrite Hr. destruct (Str.split Str.slash body) as [|x l] eqn:E;
      [now apply split_nonempty in E|].
    cbn [Spec.drop_trailing_empty] in Hd.
    destruct (Spec.drop_trailing_empty l); [|discriminate].
    destruct (String.eqb_spec x "") as [->|]; [reflexivity|discriminate].
  - rewrite <- Hd. destruct (Str.split Str.slash body) as [|x l] eqn:E;
      [now apply split_nonempty in E|].
    cbn [Spec.drop_trailing_empty] in Hd |- *.
    destruct (Spec.drop_trailing_empty l); [|reflexivity].
    destruct (String.eqb x ""); [|reflexivity].
    symmetry in Hd. now apply split_nonempty in Hd.
Qed.

Lemma first_item_split_no_sep (c : ascii) (s : string) :
  Str.contains c (Str.first_item (Str.split c s)) = false.
Proof.
  induction s as [|a s IH]; [reflexivity|].
  destruct (Ascii.eqb a c) eqn:E.
  - apply Ascii.eqb_eq in E as ->. now rewrite split_cons_sep.
  - rewrite (split_cons_other c a s E). cbn. now rewrite E, IH.
Qed.

Lemma first_item_split_append (c : ascii) (x r : string) :
  Str.contains c x = false ->
  Str.first_item (Str.split c (x +:+ String c r)) = x.
Proof.
  induction x as [|a x IH]; intros H.
  - change ("" +:+ String c r) with (String c r). now rewrite split_cons_sep.
  - cbn in H. apply orb_false_iff in H as [Ha Hx].
    rewrite append_cons, (split_cons_other c a _ Ha). cbn. now rewrite IH.
Qed.

Lemma join_cons2 (sep x y : string) (l : list string) :
  Str.join sep (x :: y :: l) = x +:+ sep +:+ Str.join sep (y :: l).
Proof. reflexivity. Qed.

(** The body computed by the button is the one the wording describes. *)
Lemma go_up_new_without (body : string) :
  (let parts := Str.split Str.slash (Str.rstrip Str.slash body) in
   if (1 <? length parts)%nat
   then Str.join "/" (removelast parts) +:+ "/"
   else Str.first_item parts +:+ "/")
  = Spec.go_up_body body.
Proof.
  cbv zeta. unfold Spec.go_up_body. rewrite segments_rstrip.
  destruct (Spec.segments body) as [|x [|y l]]; reflexivity.
Qed.

Lemma segments_head (body : string) :
  exists l, Spec.segments body = Spec.bucket body :: l.
Proof.
  unfold Spec.segments, Spec.bucket.
  destruct (Str.split Str.slash body) as [|x l] eqn:E; [now apply split_nonempty in E|].
  now eexists.
Qed.

(** Going up keeps the first segment of the body. *)
Lemma go_up_body_bucket (body : string) :
  Spec.bucket (Spec.go_up_body body) = Spec.bucket body.
Proof.
  pose proof (first_item_split_no_sep Str.slash body) as Hx.
  fold (Spec.bucket body) in Hx.
  destruct (segments_head body) as [l Hl]. unfold Spec.go_up_body. rewrite Hl.
  set (x := Spec.bucket body) in *. unfold Spec.bucket at 1.
  destruct l as [|y l].
  - now apply first_item_split_append.
  - change (removelast (x :: y :: l)) with (x :: removelast (y :: l)).
    destruct (removelast (y :: l)) as [|z l'].
    + now apply first_item_split_append.
    + rewrite join_cons2, !append_assoc. now apply first_item_split_append.
Qed.

Lemma rebuild_url_truthy (scheme body : string) : truthy (rebuild_url scheme body) = true.
Proof. unfold rebuild_url. now destruct scheme. Qed.

Lemma strip_scheme_detect (p : string) :
  truthy (detect_scheme p) = true -> detect_scheme p = (strip_scheme p).1.
Proof.
  unfold detect_scheme, strip_scheme.
  destruct (truthy p); cbn [negb]; [|discriminate].
  destruct (Str.startswith p "s3://"); [reflexivity|].
  destruct (Str.startswith p "gs://"); [reflexivity|discriminate].
Qed.

Lemma detect_scheme_rebuild (scheme body : string) :
  scheme = "s3" \/ scheme = "gs" -> detect_scheme (rebuild_url scheme body) = scheme.
Proof. intros [-> | ->]; destruct body; reflexivity. Qed.

Lemma detect_scheme_cases (p : string) :
  truthy (detect_scheme p) = true -> detect_scheme p = "s3" \/ detect_scheme p = "gs".
Proof.
  unfold detect_scheme.
  destruct (truthy p); cbn [negb]; [|discriminate].
  destruct (Str.startswith p "s3://"); [now left|].
  destruct (Str.startswith p "gs://"); [now right|discriminate].
Qed.

(** C8: in a connected session the button strips the scheme, splits the
    body on slashes ignoring empty segments at its end, and stores the
    scheme with the segments but the last (a single segment stays),
    followed by a slash; it ends normally, keeps the bucket (the first
    segment), the accessor and the scheme, and the session stays connected. *)
Theorem go_up_one_level (s : session) (p : string) :
  connected s = true -> ss_prefix s = Some p ->
  let scheme := (strip_scheme p).1 in
  let body := (strip_scheme p).2 in
  let p' := rebuild_url scheme (Spec.go_up_body body) in
  go_up p s
  = (Done p',
     Session (ss_default_path s) (Some p') (ss_fs s) (ss_scheme s) (ss_storage_options s),
     [])
  /\ Spec.bucket (Spec.go_up_body body) = Spec.bucket body
  /\ connected (session_after (go_up p s)) = true.
Proof.
  intros Hc Hp scheme body p'.
  assert (E : go_up p s
              = (Done p',
                 Session (ss_default_path s) (Some p') (ss_fs s) (ss_scheme s)
                   (ss_storage_options s), [])).
  { unfold go_up, p', scheme, body. destruct (strip_scheme p) as [sch b]. cbn [fst snd].
    pose proof (go_up_new_without b) as Hb. cbv zeta in Hb. rewrite Hb. reflexivity. }
  split; [exact E|]. split; [apply go_up_body_bucket|].
  rewrite E. unfold session_after, connected in *. cbn [fst snd ss_fs ss_prefix ss_scheme default].
  rewrite Hp in Hc. cbn [default] in Hc. unfold id in *.
  apply andb_true_iff in Hc as [Hc Hsch]. apply andb_true_iff in Hc as [Hfs _].
  rewrite Hfs. unfold p' at 1. rewrite rebuild_url_truthy. cbn [andb].
  destruct (ss_scheme s) as [sch|]; [exact Hsch|]. cbn [default] in *. unfold id in *.
  unfold p', scheme. rewrite <- (strip_scheme_detect p Hsch).
  rewrite detect_scheme_rebuild; [exact Hsch|now apply detect_scheme_cases].
Qed.

Lemma go_up_one_level_witness :
  let s := fun p => Session (Some "s3://bucket/x/y") (Some p) (Some S3FileSystem_anon)
                      (Some "s3") (Some (opts_s3 true None None None)) in
  outcome_of (go_up "s3://bucket/x/y/" (s "s3://bucket/x/y/")) = Done "s3://bucket/x/"
  /\ outcome_of (go_up "s3://bucket/x/" (s "s3://bucket/x/")) = Done "s3://bucket/"
  /\ outcome_of (go_up "s3://bucket/" (s "s3://bucket/")) = Done "s3://bucket/".
Proof.
  intros s. split; [|split].
  - destruct (go_up_one_level (s "s3://bucket/x/y/") "s3://bucket/x/y/" eq_refl eq_refl)
      as [H _].
    rewrite H. reflexivity.
  - destruct (go_up_one_level (s "s3://bucket/x/") "s3://bucket/x/" eq_refl eq_refl)
      as [H _].
    rewrite H. reflexivity.
  - destruct (go_up_one_level (s "s3://bucket/") "s3://bucket/" eq_refl eq_refl)
      as [H _].
    rewrite H. reflexivity.
Defined.

(** ** Selection by label *)

Lemma py_index_lookup (l : list string) (x : string) (k : nat) :
  py_index l x = Some k ->
  l !! k = Some x /\ forall m, (m < k)%nat -> l !! m <> Some x.
Proof.
  revert k. induction l as [|y l IH]; intros k H; [discriminate|].
  cbn in H. destruct (String.eqb_spec y x) as [->|Hne].
  - injection H as <-. split; [reflexivity|]. intros m Hm. lia.
  - destruct (py_index l x) as [k'|]; [|discriminate].
    injection H as <-. destruct (IH k' eq_refl) as [H1 H2].
    split; [exact H1|]. intros [|m] Hm; cbn.
    + congruence.
    + apply H2. lia.
Qed.

Lemma py_index_first (l : list string) (x : string) (i : nat) :
  l !! i = Some x -> exists k, py_index l x = Some k /\ (k <= i)%nat.
Proof.
  revert i. induction l as [|y l IH]; intros i H; [discriminate|].
  cbn. destruct (String.eqb_spec y x) as [->|Hne].
  - exists 0%nat. split; [reflexivity|lia].
  - destruct i as [|i]; [cbn in H; congruence|].
    destruct (IH i H) as (k & -> & Hk). exists (S k). split; [reflexivity|lia].
Qed.

(** A position that repeats an earlier label is never what a label
    resolves to. *)
Lemma py_index_never_later (l : list string) (x : string) (i j : nat) :
  (i < j)%nat -> l !! i = Some x -> l !! j = Some x ->
  forall sel, py_index l sel <> Some j.
Proof.
  intros Hij Hi Hj sel H. apply py_index_lookup in H as [H1 H2].
  assert (sel = x) as -> by congruence.
  now apply (H2 i Hij).
Qed.

Lemma map_st_index_never_later (labels sels : list string) (i j : nat) (x : string)
    (s : session) (idxs : list nat) :
  (i < j)%nat -> labels !! i = Some x -> labels !! j = Some x ->
  outcome_of (map_st (index_or_raise labels) sels s) = Done idxs -> j ∉ idxs.
Proof.
  intros Hij Hi Hj. revert idxs. induction sels as [|sel sels IH]; intros idxs H.
  - injection H as <-. apply not_elem_of_nil.
  - cbn [map_st] in H. unfold st_bind at 1, index_or_raise at 1 in H.
    destruct (py_index labels sel) as [k|] eqn:Ek; [|discriminate].
    cbn in H. unfold st_bind at 1 in H.
    destruct (map_st (index_or_raise labels) sels s) as [[[ks| |e] s1] o1] eqn:Em;
      cbn in H; try discriminate.
    injection H as <-. apply not_elem_of_cons. split.
    + intros E. rewrite <- E in Ek.
      now apply (py_index_never_later labels x i j Hij Hi Hj sel).
    + now apply IH.
Qed.

Lemma first_with_label_index (files : list string) (sel : string) :
  Spec.first_with_label files sel
  = py_index (map basename_from_path files) sel ≫= (files !!.).
Proof.
  unfold Spec.first_with_label. induction files as [|f files IH]; [reflexivity|].
  cbn. destruct (String.eqb (basename_from_path f) sel); [reflexivity|].
  rewrite IH. now destruct (py_index _ sel).
Qed.

Lemma map_st_index_run (labels sels : list string) (s : session) :
  map_st (index_or_raise labels) sels s
  = match mapM (py_index labels) sels with
    | Some idxs => (Done idxs, s, [])
    | None => (Raised "ValueError", s, [])
    end.
Proof.
  induction sels as [|sel sels IH]; [reflexivity|].
  cbn [map_st mapM]. unfold st_bind at 1, index_or_raise at 1.
  destruct (py_index labels sel) as [k|]; [|reflexivity].
  cbn. unfold st_bind at 1. rewrite IH.
  destruct (mapM (py_index labels) sels); reflexivity.
Qed.

Lemma map_st_item_run (files : list string) (idxs : list nat) (s : session) :
  map_st (item_or_raise files) idxs s
  = match mapM (files !!.) idxs with
    | Some picked => (Done picked, s, [])
    | None => (Raised "IndexError", s, [])
    end.
Proof.
  induction idxs as [|k idxs IH]; [reflexivity|].
  cbn [map_st mapM]. unfold st_bind at 1, item_or_raise at 1.
  destruct (files !! k) as [f|]; [|reflexivity].
  cbn. unfold st_bind at 1. rewrite IH.
  destruct (mapM (files !!.) idxs); reflexivity.
Qed.

Lemma py_index_bound (l : list string) (x : string) (k : nat) :
  py_index l x = Some k -> (k < length l)%nat.
Proof.
  intros H. apply py_index_lookup in H as [H _]. now apply lookup_lt_Some in H.
Qed.

Lemma resolve_labels_index (files sels : list string) :
  Spec.resolve_labels files sels
  = mapM (py_index (map basename_from_path files)) sels ≫= mapM (files !!.).
Proof.
  unfold Spec.resolve_labels. induction sels as [|sel sels IH]; [reflexivity|].
  cbn [mapM]. rewrite IH, first_with_label_index.
  destruct (py_index _ sel) as [k|] eqn:Ek; [|reflexivity]. cbn.
  destruct (mapM (py_index _) sels) as [idxs|]; cbn.
  - reflexivity.
  - destruct (files !! k) as [f|] eqn:Ef; [reflexivity|].
    reflexivity.
Qed.

Lemma mapM_lookup_indices (files sels : list string) (idxs : list nat) :
  mapM (py_index (map basename_from_path files)) sels = Some idxs ->
  is_Some (mapM (files !!.) idxs).
Proof.
  revert idxs. induction sels as [|sel sels IH]; intros idxs H.
  - injection H as <-. now eexists.
  - cbn in H. destruct (py_index _ sel) as [k|] eqn:Ek; [|discriminate]. cbn in H.
    destruct (mapM _ sels) as [ks|]; [|discriminate]. injection H as <-.
    destruct (IH ks eq_refl) as [picked Hp]. cbn. rewrite Hp.
    apply py_index_bound in Ek. rewrite length_map in Ek.
    destruct (lookup_lt_is_Some_2 files k Ek) as [f ->]. now eexists.
Qed.

Lemma file_picks_then
    (pd_read_csv pd_read_excel : string -> storage_options -> result DataFrame)
    (px_raises : DataFrame -> figure -> option string)
    (inp : inputs) (files : list string) (s : session) :
  (selected_indices <- map_st (index_or_raise (map basename_from_path files))
                         (selected_labels inp) ;;
   picked <- map_st (item_or_raise files) selected_indices ;;
   (if (2 <? length (selected_labels inp))%nat
    then emit (st_warning "You selected more than 2 files. Only the first 2 will be used.")
    else st_ret tt) ;;;
   match visualize inp, take 2 picked with
   | true, _ :: _ =>
       for_each (take 2 picked) (visualize_file pd_read_csv pd_read_excel px_raises)
   | _, _ => st_ret tt
   end) s
  = match Spec.resolve_labels files (selected_labels inp) with
    | None => raise "ValueError"
    | Some picked =>
        (if (2 <? length (selected_labels inp))%nat
         then emit (st_warning "You selected more than 2 files. Only the first 2 will be used.")
         else st_ret tt) ;;;
        if visualize inp
        then for_each (take 2 picked) (visualize_file pd_read_csv pd_read_excel px_raises)
        else st_ret tt
    end s.
Proof.
  unfold st_bind at 1. rewrite map_st_index_run, resolve_labels_index.
  destruct (mapM (py_index _) (selected_labels inp)) as [idxs|] eqn:E; [|reflexivity].
  unfold st_bind at 1. rewrite map_st_item_run. cbn [mbind option_bind].
  destruct (mapM_lookup_indices _ _ _ E) as [picked ->].
  replace (match visualize inp, take 2 picked with
           | true, _ :: _ =>
               for_each (take 2 picked) (visualize_file pd_read_csv pd_read_excel px_raises)
           | _, _ => st_ret tt
           end)
    with (if visualize inp
          then for_each (take 2 picked) (visualize_file pd_read_csv pd_read_excel px_raises)
          else st_ret tt)
    by (destruct (visualize inp); [now destruct (take 2 picked)|reflexivity]).
  destruct (st_bind _ _ s) as [[r s2] o2]. reflexivity.
Qed.

Lemma file_selection_eq
    (pd_read_csv pd_read_excel : string -> storage_options -> result DataFrame)
    (px_raises : DataFrame -> figure -> option string)
    (inp : inputs) (files : list string) (s : session) :
  files <> [] ->
  file_selection pd_read_csv pd_read_excel px_raises inp files s
  = (emit (st_subheader "Files (CSV/XLS/XLSX)") ;;;
     match Spec.resolve_labels files (selected_labels inp) with
     | None => raise "ValueError"
     | Some picked =>
         (if (2 <? length (selected_labels inp))%nat
          then emit (st_warning "You selected more than 2 files. Only the first 2 will be used.")
          else st_ret tt) ;;;
         if visualize inp
         then for_each (take 2 picked) (visualize_file pd_read_csv pd_read_excel px_raises)
         else st_ret tt
     end) s.
Proof.
  intros Hne. unfold file_selection. destruct files as [|f0 files']; [contradiction|].
  unfold st_bind at 1. unfold emit at 1. rewrite file_picks_then.
  symmetry. unfold st_bind at 1. unfold emit at 1. reflexivity.
Qed.

Lemma find_delete_false {A} (p : A -> bool) (l : list A) (j : nat) (b : A) :
  l !! j = Some b -> p b = false -> List.find p (delete j l) = List.find p l.
Proof.
  revert j. induction l as [|x l IH]; intros j Hj Hb; [reflexivity|].
  destruct j as [|j]; cbn in *.
  - injection Hj as ->. now rewrite Hb.
  - destruct (p x); [reflexivity|]. now apply IH.
Qed.

Lemma find_delete_later {A} (p : A -> bool) (l : list A) (i j : nat) (a b : A) :
  (i < j)%nat -> l !! i = Some a -> l !! j = Some b -> p a = p b ->
  List.find p (delete j l) = List.find p l.
Proof.
  revert i j. induction l as [|x l IH]; intros i j Hij Hi Hj Hp; [reflexivity|].
  destruct j as [|j]; [lia|]. cbn in *.
  destruct (p x) eqn:Ex; [reflexivity|].
  destruct i as [|i]; cbn in Hi.
  - injection Hi as ->. apply (find_delete_false p l j b Hj). congruence.
  - apply (IH i j); [lia|assumption..].
Qed.

Lemma first_with_label_delete (files : list string) (i j : nat) (label sel : string) :
  (i < j)%nat ->
  map basename_from_path files !! i = Some label ->
  map basename_from_path files !! j = Some label ->
  Spec.first_with_label (delete j files) sel = Spec.first_with_label files sel.
Proof.
  intros Hij Hi Hj. rewrite list_lookup_fmap in Hi, Hj.
  destruct (files !! i) as [a|] eqn:Ea; [|discriminate].
  destruct (files !! j) as [b|] eqn:Eb; [|discriminate].
  cbn in Hi, Hj. unfold Spec.first_with_label.
  apply (find_delete_later _ files i j a b Hij Ea Eb). congruence.
Qed.

Lemma resolve_labels_delete (files sels : list string) (i j : nat) (label : string) :
  (i < j)%nat ->
  map basename_from_path files !! i = Some label ->
  map basename_from_path files !! j = Some label ->
  Spec.resolve_labels (delete j files) sels = Spec.resolve_labels files sels.
Proof.
  intros Hij Hi Hj. unfold Spec.resolve_labels.
  induction sels as [|sel sels IH]; [reflexivity|].
  cbn [mapM]. now rewrite IH, (first_with_label_delete files i j label sel).
Qed.

Lemma first_with_label_position (files : list string) (sel f : string) :
  Spec.first_with_label files sel = Some f ->
  exists k, py_index (map basename_from_path files) sel = Some k
            /\ files !! k = Some f /\ basename_from_path f = sel
            /\ forall m, (m < k)%nat -> map basename_from_path files !! m <> Some sel.
Proof.
  rewrite first_with_label_index.
  destruct (py_index _ sel) as [k|] eqn:Ek; [|discriminate]. cbn. intros Hf.
  exists k. split; [reflexivity|]. split; [exact Hf|].
  destruct (py_index_lookup _ _ _ Ek) as [Hk Hmin]. split; [|exact Hmin].
  rewrite list_lookup_fmap, Hf in Hk. now injection Hk.
Qed.

(** C10: folders and files are resolved through the first position of the
    chosen label.  When two listed folders share a label, choosing it opens
    the first folder with that label, and no choice opens the later one.
    When two listed files share a label, every chosen label resolves to a
    position other than the later one; the file section loads, for each
    chosen label in turn, the first listed file that carries it, and dies
    of ValueError when a chosen label is carried by no listed file; a file
    so chosen stands at the first position of its label, which is never the
    later duplicate's; and the file section runs exactly as it would if the
    later duplicate were not listed at all. *)
Theorem selection_resolves_to_first
    (fs_ls : filesystem -> string -> result (list entry))
    (pd_read_csv pd_read_excel : string -> storage_options -> result DataFrame)
    (px_raises : DataFrame -> figure -> option string)
    (inp : inputs) (fs : filesystem) (current_scheme current_prefix : string)
    (dirs files : list string) (s : session) (i j : nat) (label : string) :
  (i < j)%nat ->
  (folder_names_of dirs !! i = Some label -> folder_names_of dirs !! j = Some label ->
   (forall sel, py_index (folder_names_of dirs) sel <> Some j)
   /\ (open_btn inp = true -> folder_select inp = label -> label <> "(stay here)" ->
       exists k d,
         py_index (folder_names_of dirs) label = Some k /\ (k <= i)%nat
         /\ (forall m, (m < k)%nat -> folder_names_of dirs !! m <> Some label)
         /\ dirs !! k = Some d
         /\ ss_prefix (session_after
                         (folder_selection fs_ls inp fs current_scheme current_prefix
                            dirs files s)) = Some d))
  /\ (map basename_from_path files !! i = Some label ->
      map basename_from_path files !! j = Some label ->
      (exists k, py_index (map basename_from_path files) label = Some k /\ (k <= i)%nat)
      /\ (forall sel, py_index (map basename_from_path files) sel <> Some j)
      /\ (forall sels s' idxs,
            outcome_of (map_st (index_or_raise (map basename_from_path files)) sels s')
            = Done idxs -> j ∉ idxs)
      /\ file_selection pd_read_csv pd_read_excel px_raises inp files s
         = (emit (st_subheader "Files (CSV/XLS/XLSX)") ;;;
            match Spec.resolve_labels files (selected_labels inp) with
            | None => raise "ValueError"
            | Some picked =>
                (if (2 <? length (selected_labels inp))%nat
                 then emit (st_warning
                              "You selected more than 2 files. Only the first 2 will be used.")
                 else st_ret tt) ;;;
                if visualize inp
                then for_each (take 2 picked)
                       (visualize_file pd_read_csv pd_read_excel px_raises)
                else st_ret tt
            end) s
      /\ (forall sel f,
            Spec.first_with_label files sel = Some f ->
            exists k, files !! k = Some f /\ k <> j /\ basename_from_path f = sel
                      /\ forall m, (m < k)%nat ->
                                   map basename_from_path files !! m <> Some sel)
      /\ file_selection pd_read_csv pd_read_excel px_raises inp files s
         = file_selection pd_read_csv pd_read_excel px_raises inp (delete j files) s).
Proof.
  intros Hij. split.
  - intros Hi Hj. split; [now apply (py_index_never_later _ label i j)|].
    intros Hopen Hsel Hstay.
    destruct (py_index_first _ _ _ Hi) as (k & Hk & Hki).
    destruct (py_index_lookup _ _ _ Hk) as [Hlk Hmin].
    assert (Hd : exists d, dirs !! k = Some d).
    { unfold folder_names_of in Hlk. rewrite list_lookup_fmap in Hlk.
      destruct (dirs !! k) as [d|]; [now exists d|discriminate]. }
    destruct Hd as [d Hd]. exists k, d. repeat split; try assumption.
    unfold folder_selection. destruct dirs as [|d0 dirs']; [discriminate|].
    rewrite Hopen, Hsel. destruct (String.eqb_spec label "(stay here)") as [|_]; [contradiction|].
    cbn [andb negb]. unfold st_bind at 1, index_or_raise. rewrite Hk.
    unfold st_ret at 1. unfold st_bind at 1, item_or_raise. rewrite Hd.
    unfold st_ret at 1. unfold set_prefix, st_bind, get_session, put_session.
    cbn [default ss_prefix]. unfold id.
    pose proof (list_cloud_session fs_ls fs current_scheme d
                  (Session (ss_default_path s) (Some d) (ss_fs s) (ss_scheme s)
                     (ss_storage_options s))) as Hs.
    unfold session_after in *.
    destruct (list_cloud fs_ls fs current_scheme d _) as [[[r| |e] s1] o1];
      cbn in Hs |- *; now subst s1.
  - intros Hi Hj.
    assert (Hlen : (S j <= length files)%nat).
    { apply lookup_lt_Some in Hj. rewrite length_map in Hj. lia. }
    assert (Hne : files <> []) by (intros ->; cbn in Hlen; lia).
    assert (Hne' : delete j files <> []).
    { intros E. apply (f_equal length) in E. rewrite length_delete in E.
      - cbn in E. lia.
      - apply lookup_lt_is_Some_2. lia. }
    split; [now apply py_index_first|].
    split; [now apply (py_index_never_later _ label i j)|].
    split; [intros sels s' idxs; now apply (map_st_index_never_later _ _ i j label)|].
    split; [now apply file_selection_eq|].
    split.
    + intros sel f Hf.
      destruct (first_with_label_position _ _ _ Hf) as (k & Hk & Hfk & Hbn & Hmin).
      exists k. repeat split; try assumption.
      intros ->. now apply (py_index_never_later _ label i j Hij Hi Hj sel).
    + rewrite !file_selection_eq by assumption.
      now rewrite (resolve_labels_delete files _ i j label).
Qed.

Lemma selection_resolves_to_first_witness :
  let inp := Inputs "s3://b/" true "" "" "" "" true None
               false false false "x" true ["x.csv"] true None in
  ss_prefix (session_after
     (folder_selection (fun _ _ => Ok []) inp
        S3FileSystem_anon "s3" "s3://b/" ["s3://b/a/x/"; "s3://b/c/x/"]
        ["s3://b/a/x.csv"; "s3://b/c/x.csv"] empty_session))
  = Some "s3://b/a/x/"
  /\ displayed
       (file_selection (fun _ _ => Exn "denied") (fun _ _ => Exn "denied") px_accepts inp
          ["s3://b/a/x.csv"; "s3://b/c/x.csv"] empty_session)
     = [st_subheader "Files (CSV/XLS/XLSX)"; st_markdown "### x.csv";
        st_error "Failed to read s3://b/a/x.csv: denied"].
Proof.
  intros inp.
  destruct (selection_resolves_to_first (fun _ _ => Ok [])
              (fun _ _ => Exn "denied") (fun _ _ => Exn "denied") px_accepts inp
              S3FileSystem_anon "s3" "s3://b/" ["s3://b/a/x/"; "s3://b/c/x/"]
              ["s3://b/a/x.csv"; "s3://b/c/x.csv"]
              empty_session 0 1 "x" ltac:(lia)) as [H _].
  destruct (selection_resolves_to_first (fun _ _ => Ok [])
              (fun _ _ => Exn "denied") (fun _ _ => Exn "denied") px_accepts inp
              S3FileSystem_anon "s3" "s3://b/" ["s3://b/a/x/"; "s3://b/c/x/"]
              ["s3://b/a/x.csv"; "s3://b/c/x.csv"]
              empty_session 0 1 "x.csv" ltac:(lia)) as [_ H2].
  split.
  - destruct (H eq_refl eq_refl) as [_ H'].
    destruct (H' eq_refl eq_refl ltac:(discriminate)) as (k & d & Hk & Hle & _ & Hd & Hp).
    assert (k = 0%nat) as -> by lia.
    injection Hd as <-. exact Hp.
  - destruct (H2 eq_refl eq_refl) as (_ & _ & _ & Heq & _ & _).
    rewrite Heq. reflexivity.
Defined.

(** ** Connecting *)

Lemma clean_prefix_truthy (p : string) : truthy p = true -> truthy (clean_prefix p) = true.
Proof.
  intros H. unfold clean_prefix. rewrite H. cbn [negb].
  now destruct (Str.rstrip Str.slash (Str.strip_ws p)).
Qed.

Lemma detect_scheme_truthy (p : string) : truthy (detect_scheme p) = true -> truthy p = true.
Proof. unfold detect_scheme. now destruct (truthy p). Qed.

(** C4 (as amended): accessor construction rejects every scheme other than
    s3 and gs with the unsupported-scheme error, and a connect attempt on a
    URL without a recognised scheme is ignored, the session unchanged.  For
    gs, a non-anonymous attempt with neither an uploaded credential file nor
    the environment default halts the run with the missing-credentials
    error before any accessor, scheme or storage options are stored, so a
    session without accessor stays unconnected.  For s3 no credential is
    required: every attempt, also a non-anonymous one without keys, ends
    normally and leaves the session connected, with no error shown. *)
Theorem connect_errors (fs_ls : filesystem -> string -> result (list entry))
    (pd_read_csv pd_read_excel : string -> storage_options -> result DataFrame)
    (px_raises : DataFrame -> figure -> option string)
    (json_load : string -> result string)
    (gcsfs_init : token -> option string) (inp : inputs) (s : session) :
  (forall scheme anon k sk tk rg tok,
      scheme <> "s3" -> scheme <> "gs" ->
      get_fs gcsfs_init scheme anon k sk tk rg tok = Exn "Unsupported scheme. Use s3:// or gs://")
  /\ (detect_scheme (bucket_input inp) = "" ->
      connect_step json_load gcsfs_init inp s
      = (Done tt, s,
         [st_sidebar_header "Bucket connection (gs:// for GCS, s3:// for AWS)";
          st_sidebar_info "Enter a path starting with gs:// (Google Cloud) or s3:// (AWS)."]))
  /\ (detect_scheme (bucket_input inp) = "gs" -> connect inp = true ->
      gs_public inp = false -> gs_creds_file inp = None ->
      env_GOOGLE_APPLICATION_CREDENTIALS inp = None ->
      let r := app fs_ls pd_read_csv pd_read_excel px_raises json_load gcsfs_init inp s in
      outcome_of r = Stopped
      /\ displayed r
         = [st_title "Cloud Bucket Browser (S3/GCS): View CSV/XLS(X) as Tables and Graphs";
            st_sidebar_header "Bucket connection (gs:// for GCS, s3:// for AWS)";
            st_sidebar_caption "Or use Google Default Credentials via gcloud.";
            st_error "Upload a Service Account JSON or run 'gcloud auth application-default login' before connecting."]
      /\ ss_fs (session_after r) = ss_fs s
      /\ ss_scheme (session_after r) = ss_scheme s
      /\ ss_storage_options (session_after r) = ss_storage_options s
      /\ (ss_fs s = None -> connected (session_after r) = false))
  /\ (detect_scheme (bucket_input inp) = "s3" -> connect inp = true ->
      let r := connect_step json_load gcsfs_init inp s in
      outcome_of r = Done tt
      /\ displayed r = [st_sidebar_header "Bucket connection (gs:// for GCS, s3:// for AWS)"]
      /\ connected (session_after r) = true
      /\ ss_scheme (session_after r) = Some "s3").
Proof.
  split; [|split; [|split]].
  - intros scheme anon k sk tk rg tok H3 Hg. unfold get_fs.
    destruct (String.eqb_spec scheme "s3") as [|_]; [contradiction|].
    destruct (String.eqb_spec scheme "gs") as [|_]; [contradiction|reflexivity].
  - intros H. unfold connect_step, sidebar. rewrite H. cbn.
    unfold connect_handler. rewrite andb_false_r. reflexivity.
  - intros H Hc Hpub Hfile Henv. cbv zeta.
    unfold app, connect_step, sidebar. rewrite H, Hpub, Hfile. cbn.
    unfold connect_handler. rewrite Hc, Henv. cbn.
    repeat split. intros Hfs. unfold connected. cbn. now rewrite Hfs.
  - intros H Hc. cbv zeta.
    assert (Ht : truthy (clean_prefix (bucket_input inp)) = true).
    { apply clean_prefix_truthy, detect_scheme_truthy. now rewrite H. }
    unfold connect_step, sidebar. rewrite H. cbn.
    unfold connect_handler. rewrite Hc. cbn.
    destruct (s3_public inp); cbn; unfold connected; cbn; unfold id; rewrite Ht; repeat split.
Qed.

Lemma connect_errors_witness :
  let inp := Inputs "gs://bucket/data" true "" "" "" "" false None
               true false false "(stay here)" false [] false None in
  outcome_of (app (fun _ _ => Ok []) (fun _ _ => Exn "") (fun _ _ => Exn "") px_accepts
                (fun j => Ok j) gcsfs_accepts inp empty_session) = Stopped
  /\ connected (session_after
                  (app (fun _ _ => Ok []) (fun _ _ => Exn "") (fun _ _ => Exn "") px_accepts
                     (fun j => Ok j) gcsfs_accepts inp empty_session)) = false
  /\ connected (session_after
                  (connect_step (fun j => Ok j) gcsfs_accepts
                     (Inputs "s3://bucket/data" false "" "" "" "" true None
                        true false false "(stay here)" false [] false None)
                     empty_session)) = true.
Proof.
  intros inp.
  destruct (connect_errors (fun _ _ => Ok []) (fun _ _ => Exn "") (fun _ _ => Exn "") px_accepts
              (fun j => Ok j) gcsfs_accepts inp empty_session) as (_ & _ & Hgs & _).
  destruct (Hgs eq_refl eq_refl eq_refl eq_refl eq_refl) as (H1 & _ & _ & _ & _ & H2).
  destruct (connect_errors (fun _ _ => Ok []) (fun _ _ => Exn "") (fun _ _ => Exn "") px_accepts
              (fun j => Ok j) gcsfs_accepts
              (Inputs "s3://bucket/data" false "" "" "" "" true None
                 true false false "(stay here)" false [] false None)
              empty_session) as (_ & _ & _ & Hs3).
  destruct (Hs3 eq_refl eq_refl) as (_ & _ & H3 & _).
  split; [exact H1|]. split; [exact (H2 eq_refl)|exact H3].
Defined.

(** C4 fails as stated: on s3 a non-anonymous connect without any key is
    accepted; the run ends normally, shows no error and leaves the session
    connected through an accessor built without credentials. *)
Lemma connect_s3_without_credentials :
  let inp := Inputs "s3://bucket/data/" false "" "" "" "" true None
               true false false "(stay here)" false [] false None in
  let r := app (fun _ _ => Ok []) (fun _ _ => Exn "") (fun _ _ => Exn "") px_accepts
             (fun j => Ok j) gcsfs_accepts inp empty_session in
  outcome_of r = Done tt
  /\ existsb is_error (displayed r) = false
  /\ connected (session_after r) = true
  /\ ss_fs (session_after r) = Some (S3FileSystem (S3Kwargs None None None None)).
Proof. repeat split. Qed.

(** * Further properties of the helpers *)

(** ** Stripping *)

Lemma rstrip_by_append (p : ascii -> bool) (a b : string) :
  Str.rstrip_by p (a +:+ b)
  = match Str.rstrip_by p b with
    | EmptyString => Str.rstrip_by p a
    | r => a +:+ r
    end.
Proof.
  induction a as [|x a IH].
  - change ("" +:+ b) with b. now destruct (Str.rstrip_by p b).
  - rewrite append_cons. cbn [Str.rstrip_by]. rewrite IH.
    destruct (Str.rstrip_by p b) as [|y r] eqn:E; [reflexivity|].
    rewrite append_cons. destruct a; reflexivity.
Qed.

Lemma rstrip_by_idem (p : ascii -> bool) (s : string) :
  Str.rstrip_by p (Str.rstrip_by p s) = Str.rstrip_by p s.
Proof.
  induction s as [|a s IH]; [reflexivity|].
  cbn [Str.rstrip_by]. destruct (Str.rstrip_by p s) as [|b r] eqn:E.
  - destruct (p a) eqn:Ea; [reflexivity|]. cbn. now rewrite Ea.
  - cbn [Str.rstrip_by] in IH |- *. now rewrite IH.
Qed.

Lemma rstrip_no_sep (c : ascii) (s : string) :
  Str.contains c s = false -> Str.rstrip c s = s.
Proof.
  unfold Str.rstrip. induction s as [|a s IH]; [reflexivity|].
  cbn. intros H. apply orb_false_iff in H as [Ha Hs].
  rewrite (IH Hs), Ha. now destruct s.
Qed.

Lemma endswith_iff (s suf : string) :
  Str.endswith s suf = true <-> exists a, s = a +:+ suf.
Proof.
  split.
  - induction s as [|x s IH]; cbn [Str.endswith]; intros H.
    + apply orb_true_iff in H as [H|H]; [|discriminate].
      apply String.eqb_eq in H as <-. now exists "".
    + apply orb_true_iff in H as [H|H].
      * apply String.eqb_eq in H as <-. now exists "".
      * destruct (IH H) as [a ->]. now exists (String x a).
  - intros [a ->]. induction a as [|x a IH].
    + change ("" +:+ suf) with suf. destruct suf; cbn [Str.endswith];
        now rewrite String.eqb_refl.
    + rewrite append_cons. cbn [Str.endswith]. rewrite IH. apply orb_true_r.
Qed.

Lemma append_last_inj (a b : string) (c d : ascii) :
  a +:+ String c "" = b +:+ String d "" -> c = d.
Proof.
  revert b. induction a as [|x a IH]; intros [|y b] H.
  - now injection H.
  - rewrite append_cons in H. injection H as _ H. now destruct b.
  - rewrite append_cons in H. injection H as _ H. now destruct a.
  - rewrite !append_cons in H. injection H as _ H. now apply (IH b).
Qed.

Lemma endswith_rstrip (c : ascii) (s : string) :
  Str.endswith (Str.rstrip c s) (String c "") = false.
Proof.
  unfold Str.rstrip. induction s as [|a s IH]; [reflexivity|].
  cbn [Str.rstrip_by]. destruct (Str.rstrip_by _ s) as [|b r] eqn:E.
  - destruct (Ascii.eqb a c) eqn:Ea; [reflexivity|].
    cbn. rewrite Ea. reflexivity.
  - cbn [Str.endswith] in IH |- *. rewrite IH.
    cbn. destruct (Ascii.eqb a c); reflexivity.
Qed.

Lemma head_not_lstrip (p : ascii -> bool) (s : string) :
  head_not p (Str.lstrip_by p s) = true.
Proof.
  induction s as [|a s IH]; [reflexivity|].
  cbn. destruct (p a) eqn:E; [exact IH|]. cbn. now rewrite E.
Qed.

Lemma head_not_rstrip (p q : ascii -> bool) (s : string) :
  head_not p s = true -> head_not p (Str.rstrip_by q s) = true.
Proof.
  destruct s as [|a s]; [reflexivity|]. cbn. intros H.
  destruct (Str.rstrip_by q s); [destruct (q a)|]; cbn; auto.
Qed.

Lemma lstrip_head_not (p : ascii -> bool) (s : string) :
  head_not p s = true -> Str.lstrip_by p s = s.
Proof.
  destruct s as [|a s]; [reflexivity|]. cbn. intros H.
  now apply negb_true_iff in H as ->.
Qed.

Lemma head_not_append (p : ascii -> bool) (s t : string) :
  head_not p s = true -> head_not p t = true -> head_not p (s +:+ t) = true.
Proof. destruct s; auto. Qed.

(** ** Schemes and prefixes *)

Lemma strip_rebuild (scheme body : string) :
  scheme = "s3" \/ scheme = "gs" ->
  strip_scheme (rebuild_url scheme body) = (scheme, body).
Proof.
  intros [-> | ->]; unfold strip_scheme, rebuild_url.
  - rewrite <- append_assoc. change ("s3" +:+ "://") with "s3://".
    now rewrite startswith_append, drop_append.
  - rewrite <- append_assoc. change ("gs" +:+ "://") with "gs://".
    assert (H : Str.startswith ("gs://" +:+ body) "s3://" = false) by now destruct body.
    now rewrite H, startswith_append, drop_append.
Qed.

(** X1: for the two recognised schemes, stripping the scheme of a rebuilt
    URL gives back the scheme and the body it was built from. *)
Theorem strip_scheme_rebuild (scheme body : string) :
  scheme = "s3" \/ scheme = "gs" ->
  strip_scheme (rebuild_url scheme body) = (scheme, body).
Proof.
  intros Hsch. unfold strip_scheme, rebuild_url. rewrite <- append_assoc.
  destruct Hsch as [-> | ->].
  - change ("s3" +:+ "://") with "s3://".
    rewrite startswith_append. now rewrite drop_append.
  - change ("gs" +:+ "://") with "gs://".
    assert (H : Str.startswith ("gs://" +:+ body) "s3://" = false) by now destruct body.
    rewrite H, startswith_append. now rewrite drop_append.
Qed.

Lemma strip_scheme_rebuild_witness :
  strip_scheme (rebuild_url "gs" "bucket/some/key.csv") = ("gs", "bucket/some/key.csv").
Proof. apply strip_scheme_rebuild. now right. Defined.

(** X2: rebuilding what [strip_scheme] returns gives the URL back exactly
    when the URL begins with s3:// or gs://; any other string comes back
    with "://" put in front of it. *)
Theorem rebuild_strip_scheme_iff (u : string) :
  (uncurry rebuild_url (strip_scheme u) = u
   <-> Str.startswith u "s3://" = true \/ Str.startswith u "gs://" = true)
  /\ (Str.startswith u "s3://" = false -> Str.startswith u "gs://" = false ->
      uncurry rebuild_url (strip_scheme u) = "://" +:+ u).
Proof.
  assert (Hno : Str.startswith u "s3://" = false -> Str.startswith u "gs://" = false ->
                uncurry rebuild_url (strip_scheme u) = "://" +:+ u).
  { intros H3 Hg. unfold strip_scheme. now rewrite H3, Hg. }
  split; [|exact Hno]. split.
  2:{ intros H. unfold strip_scheme.
      destruct (Str.startswith u "s3://") eqn:E3.
      - cbn [uncurry]. unfold rebuild_url.
        rewrite <- (startswith_drop "s3://" u E3) at 2. reflexivity.
      - destruct H as [H|H]; [discriminate|]. rewrite H.
        cbn [uncurry]. unfold rebuild_url.
        rewrite <- (startswith_drop "gs://" u H) at 2. reflexivity. }
  intros H. destruct (Str.startswith u "s3://") eqn:E3; [now left|].
  destruct (Str.startswith u "gs://") eqn:Eg; [now right|].
  rewrite (Hno eq_refl eq_refl) in H.
  apply (f_equal String.length) in H. rewrite length_append in H. cbn in H. lia.
Qed.

Lemma rebuild_strip_scheme_iff_witness :
  uncurry rebuild_url (strip_scheme "http://host/x") = "://http://host/x".
Proof. apply rebuild_strip_scheme_iff; reflexivity. Defined.

Lemma detect_strip (u : string) : detect_scheme u = (strip_scheme u).1.
Proof.
  unfold detect_scheme, strip_scheme. destruct u as [|a u]; [reflexivity|].
  cbn [truthy String.eqb negb].
  destruct (Str.startswith _ "s3://"); [reflexivity|].
  destruct (Str.startswith _ "gs://"); reflexivity.
Qed.

(** X3: the scheme that [detect_scheme] reports is always the one that
    [strip_scheme] strips, the empty string included. *)
Theorem detect_scheme_strip_scheme (u : string) :
  detect_scheme u = (strip_scheme u).1.
Proof.
  unfold detect_scheme, strip_scheme. destruct (truthy u) eqn:Hu; cbn [negb].
  - destruct (Str.startswith u "s3://"); [reflexivity|].
    destruct (Str.startswith u "gs://"); reflexivity.
  - destruct u; [reflexivity|discriminate].
Qed.

Lemma clean_prefix_eq (p : string) :
  truthy p = true ->
  clean_prefix p = Str.rstrip Str.slash (Str.strip_ws p) +:+ "/".
Proof. intros H. unfold clean_prefix. now rewrite H. Qed.

Lemma is_space_slash : Str.is_space Str.slash = false.
Proof. reflexivity. Qed.

Lemma strip_ws_clean (r : string) :
  head_not Str.is_space r = true -> Str.strip_ws (r +:+ "/") = r +:+ "/".
Proof.
  intros H. unfold Str.strip_ws.
  rewrite lstrip_head_not by (apply head_not_append; [exact H|reflexivity]).
  rewrite rstrip_by_append. reflexivity.
Qed.

(** X4: normalising a prefix twice is the same as normalising it once. *)
Theorem clean_prefix_idempotent (p : string) :
  clean_prefix (clean_prefix p) = clean_prefix p.
Proof.
  destruct (truthy p) eqn:Hp; [|unfold clean_prefix at 2; now rewrite Hp].
  rewrite (clean_prefix_eq p Hp).
  set (r := Str.rstrip Str.slash (Str.strip_ws p)).
  assert (Hr : head_not Str.is_space r = true).
  { unfold r, Str.rstrip, Str.strip_ws. do 2 apply head_not_rstrip. apply head_not_lstrip. }
  rewrite clean_prefix_eq by now destruct r.
  rewrite (strip_ws_clean r Hr). unfold Str.rstrip. rewrite rstrip_by_append.
  change (Str.rstrip_by (fun a => Ascii.eqb a Str.slash) "/") with "".
  unfold r, Str.rstrip. now rewrite rstrip_by_idem.
Qed.

(** X5: a normalised non-empty prefix ends with exactly one slash: it is a
    string that does not end with a slash, followed by one slash. *)
Theorem clean_prefix_one_slash (p : string) :
  truthy p = true ->
  exists r, clean_prefix p = r +:+ "/" /\ Str.endswith r "/" = false
            /\ Str.endswith (clean_prefix p) "/" = true.
Proof.
  intros Hp. rewrite (clean_prefix_eq p Hp).
  exists (Str.rstrip Str.slash (Str.strip_ws p)).
  split; [reflexivity|]. split; [apply endswith_rstrip|].
  apply endswith_iff. now eexists.
Qed.

Lemma clean_prefix_one_slash_witness :
  exists r, clean_prefix "  s3://bucket/path///  " = r +:+ "/"
            /\ Str.endswith r "/" = false
            /\ Str.endswith (clean_prefix "  s3://bucket/path///  ") "/" = true.
Proof. apply clean_prefix_one_slash. reflexivity. Defined.

Lemma strip_ws_scheme_url (pre b : string) :
  pre = "s3://" \/ pre = "gs://" ->
  Str.strip_ws (pre +:+ b) = pre +:+ Str.rstrip_by Str.is_space b.
Proof.
  intros H. unfold Str.strip_ws.
  rewrite lstrip_head_not by (destruct H as [-> | ->]; reflexivity).
  rewrite rstrip_by_append.
  destruct (Str.rstrip_by Str.is_space b);
    [destruct H as [-> | ->]; reflexivity|reflexivity].
Qed.

Lemma clean_prefix_scheme_url (pre b : string) :
  pre = "s3://" \/ pre = "gs://" ->
  clean_prefix (pre +:+ b)
  = match Str.rstrip Str.slash (Str.rstrip_by Str.is_space b) with
    | EmptyString => Str.rstrip Str.slash pre +:+ "/"
    | r => pre +:+ r +:+ "/"
    end.
Proof.
  intros H. rewrite clean_prefix_eq by (destruct H as [-> | ->]; reflexivity).
  rewrite (strip_ws_scheme_url pre b H). unfold Str.rstrip at 1.
  rewrite rstrip_by_append. fold (Str.rstrip Str.slash (Str.rstrip_by Str.is_space b)).
  destruct (Str.rstrip Str.slash _); [reflexivity|now rewrite append_assoc].
Qed.

Lemma detect_scheme_url (u : string) :
  truthy (detect_scheme u) = true ->
  exists pre, (pre = "s3://" \/ pre = "gs://")
              /\ u = pre +:+ (strip_scheme u).2
              /\ pre = detect_scheme u +:+ "://".
Proof.
  unfold detect_scheme, strip_scheme. destruct (truthy u); cbn [negb]; [|discriminate].
  destruct (Str.startswith u "s3://") eqn:E3.
  - intros _. exists "s3://". cbn [snd]. rewrite (startswith_drop _ _ E3). auto.
  - destruct (Str.startswith u "gs://") eqn:Eg; [|discriminate].
    intros _. exists "gs://". cbn [snd]. rewrite (startswith_drop _ _ Eg). auto.
Qed.

(** X6: what Connect stores for a URL with a recognised scheme depends on
    its body once trailing white space and slashes are removed.  If
    something is left, the stored prefix is the scheme, that rest and one
    slash, and it still carries the scheme.  If nothing is left (the URL is
    only "s3://" or "gs://", possibly with more slashes or blanks), the
    stored prefix is "s3:/" or "gs:/", in which no scheme is detected. *)
Theorem clean_prefix_scheme (u : string) :
  truthy (detect_scheme u) = true ->
  let rest := Str.rstrip Str.slash (Str.rstrip_by Str.is_space (strip_scheme u).2) in
  (truthy rest = true ->
   clean_prefix u = rebuild_url (detect_scheme u) (rest +:+ "/")
   /\ detect_scheme (clean_prefix u) = detect_scheme u)
  /\ (truthy rest = false ->
      clean_prefix u = detect_scheme u +:+ ":/"
      /\ detect_scheme (clean_prefix u) = "").
Proof.
  intros Hd rest. destruct (detect_scheme_url u Hd) as (pre & Hpre & Hu & Hsch).
  pose proof (clean_prefix_scheme_url pre (strip_scheme u).2 Hpre) as Hc.
  rewrite <- Hu in Hc. fold rest in Hc.
  destruct (detect_scheme_cases u Hd) as [Es|Es]; rewrite Es in *;
    change ("s3" +:+ "://") with "s3://" in Hsch;
    change ("gs" +:+ "://") with "gs://" in Hsch; subst pre;
    (split; intros Hr; destruct rest as [|x rest']; try discriminate; rewrite Hc;
     [split; reflexivity|split; reflexivity]).
Qed.

Lemma clean_prefix_scheme_witness :
  (clean_prefix "gs://bucket/data// " = "gs://bucket/data/"
   /\ detect_scheme (clean_prefix "gs://bucket/data// ") = "gs")
  /\ (clean_prefix "s3:// " = "s3:/" /\ detect_scheme (clean_prefix "s3:// ") = "").
Proof.
  split.
  - exact (proj1 (clean_prefix_scheme "gs://bucket/data// " eq_refl) eq_refl).
  - exact (proj2 (clean_prefix_scheme "s3:// " eq_refl) eq_refl).
Defined.

(** ** Splitting and joining *)

Lemma split_no_sep (c : ascii) (s : string) :
  Str.contains c s = false -> Str.split c s = [s].
Proof.
  induction s as [|a s IH]; [reflexivity|].
  cbn. intros H. apply orb_false_iff in H as [Ha Hs].
  now rewrite Ha, (IH Hs).
Qed.

Lemma split_pieces_no_sep (c : ascii) (s : string) :
  Forall (fun x => Str.contains c x = false) (Str.split c s).
Proof.
  induction s as [|a s IH]; [repeat constructor|].
  destruct (Ascii.eqb a c) eqn:E.
  - apply Ascii.eqb_eq in E as ->. rewrite split_cons_sep. now constructor.
  - rewrite (split_cons_other c a s E).
    destruct (Str.split c s) as [|h t] eqn:Es; [now apply split_nonempty in Es|].
    apply Forall_cons in IH as [Hh Ht]. cbn. constructor; [|exact Ht].
    cbn. now rewrite E, Hh.
Qed.

Lemma split_append_sep (c : ascii) (a b : string) :
  Str.split c (a +:+ String c b) = Str.split c a ++ Str.split c b.
Proof.
  induction a as [|x a IH].
  - change ("" +:+ String c b) with (String c b). now rewrite split_cons_sep.
  - rewrite append_cons. destruct (Ascii.eqb x c) eqn:E.
    + apply Ascii.eqb_eq in E as ->. now rewrite !split_cons_sep, IH.
    + rewrite !(split_cons_other c x _ E), IH.
      destruct (Str.split c a) as [|h t] eqn:Es; [now apply split_nonempty in Es|].
      reflexivity.
Qed.

Lemma join_split (c : ascii) (s : string) :
  Str.join (String c "") (Str.split c s) = s.
Proof.
  induction s as [|a s IH]; [reflexivity|].
  destruct (Ascii.eqb a c) eqn:E.
  - apply Ascii.eqb_eq in E as ->. rewrite split_cons_sep.
    destruct (Str.split c s) as [|h t] eqn:Es; [now apply split_nonempty in Es|].
    rewrite join_cons2, IH. reflexivity.
  - rewrite (split_cons_other c a s E).
    destruct (Str.split c s) as [|h t] eqn:Es; [now apply split_nonempty in Es|].
    cbn [Str.first_item hd tail]. rewrite <- IH.
    destruct t as [|h' t]; [reflexivity|].
    now rewrite !join_cons2, append_cons.
Qed.

Lemma split_join (c : ascii) (l : list string) :
  l <> [] -> Forall (fun x => Str.contains c x = false) l ->
  Str.split c (Str.join (String c "") l) = l.
Proof.
  induction l as [|x l IH]; [congruence|]. intros _ H.
  apply Forall_cons in H as [Hx Hl].
  destruct l as [|y l]; [now apply split_no_sep|].
  rewrite join_cons2. change (String c "" +:+ ?t) with (String c t).
  rewrite split_append_sep, (split_no_sep c x Hx), IH by (congruence || exact Hl).
  reflexivity.
Qed.

Lemma contains_append (c : ascii) (a b : string) :
  Str.contains c (a +:+ b) = Str.contains c a || Str.contains c b.
Proof.
  induction a as [|x a IH]; [reflexivity|].
  rewrite append_cons. cbn. now rewrite IH, orb_assoc.
Qed.

Lemma rstrip_append_no_sep (c : ascii) (a x : string) :
  truthy x = true -> Str.contains c x = false -> Str.rstrip c (a +:+ x) = a +:+ x.
Proof.
  intros Hx Hc. unfold Str.rstrip. rewrite rstrip_by_append.
  fold (Str.rstrip c x). rewrite (rstrip_no_sep c x Hc). now destruct x.
Qed.

Lemma rstrip_append_sep (c : ascii) (a : string) :
  Str.rstrip c (a +:+ String c "") = Str.rstrip c a.
Proof.
  unfold Str.rstrip. rewrite rstrip_by_append. cbn. now rewrite Ascii.eqb_refl.
Qed.

Lemma last_app_singleton (l : list string) (x d : string) : List.last (l ++ [x]) d = x.
Proof. induction l as [|y l IH]; [reflexivity|]. cbn. destruct (l ++ [x]) eqn:E; [now destruct l|exact IH]. Qed.

Lemma Forall_last (P : string -> Prop) (l : list string) (d : string) :
  l <> [] -> Forall P l -> P (List.last l d).
Proof.
  induction l as [|x l IH]; [congruence|]. intros _ H.
  apply Forall_cons in H as [Hx Hl].
  destruct l as [|y l]; [exact Hx|]. apply IH; [discriminate|exact Hl].
Qed.

(** ** Labels *)

Lemma basename_cases (p : string) :
  basename_from_path p = List.last (Str.split Str.slash (Str.rstrip Str.slash p)) "".
Proof.
  unfold basename_from_path. set (q := Str.rstrip Str.slash p).
  destruct (Str.contains Str.slash q) eqn:Ec.
  - unfold Str.last_item, Str.rsplit1.
    destruct (Str.split Str.slash q) as [|x [|y l]] eqn:Es.
    + now apply split_nonempty in Es.
    + pose proof (join_split Str.slash q) as Hj. rewrite Es in Hj. cbn in Hj.
      subst x. reflexivity.
    + reflexivity.
  - now rewrite (split_no_sep _ _ Ec).
Qed.

(** X7: a label never contains a slash. *)
Theorem basename_no_slash (p : string) :
  Str.contains Str.slash (basename_from_path p) = false.
Proof.
  rewrite basename_cases.
  pose proof (split_pieces_no_sep Str.slash (Str.rstrip Str.slash p)) as H.
  apply (Forall_last _ _ "" (split_nonempty _ _) H).
Qed.

(** X8: the label of a path that ends with a non-empty slash-free segment,
    with or without one slash after it, is that segment; so an inferred
    child folder is shown under the name of its segment, and a listed file
    under its file name. *)
Theorem basename_last_segment (front seg : string) :
  truthy seg = true -> Str.contains Str.slash seg = false ->
  basename_from_path (front +:+ "/" +:+ seg) = seg
  /\ basename_from_path (front +:+ "/" +:+ seg +:+ "/") = seg
  /\ basename_from_path (Str.rstrip Str.slash (front +:+ "/" +:+ seg +:+ "/")) = seg.
Proof.
  intros Hs Hc.
  assert (H1 : Str.rstrip Str.slash (front +:+ "/" +:+ seg) = front +:+ "/" +:+ seg).
  { rewrite <- append_assoc. now apply rstrip_append_no_sep. }
  assert (H2 : Str.rstrip Str.slash (front +:+ "/" +:+ seg +:+ "/") = front +:+ "/" +:+ seg).
  { rewrite <- !append_assoc. rewrite (rstrip_append_sep Str.slash).
    now apply rstrip_append_no_sep. }
  assert (B : basename_from_path (front +:+ "/" +:+ seg) = seg).
  { rewrite basename_cases, H1. change ("/" +:+ seg) with (String Str.slash seg).
    rewrite split_append_sep, (split_no_sep _ _ Hc). apply last_app_singleton. }
  split; [exact B|]. split.
  - rewrite basename_cases, H2, <- H1, <- basename_cases. exact B.
  - rewrite H2. exact B.
Qed.

Lemma basename_last_segment_witness :
  basename_from_path "s3://bucket/a/b.csv" = "b.csv"
  /\ basename_from_path "s3://bucket/a/c/" = "c"
  /\ basename_from_path (Str.rstrip Str.slash "s3://bucket/a/c/") = "c".
Proof.
  split; [|split].
  - exact (proj1 (basename_last_segment "s3://bucket/a" "b.csv" eq_refl eq_refl)).
  - exact (proj1 (proj2 (basename_last_segment "s3://bucket/a" "c" eq_refl eq_refl))).
  - exact (proj2 (proj2 (basename_last_segment "s3://bucket/a" "c" eq_refl eq_refl))).
Defined.

(** ** More on going up *)

Lemma go_up_run (p : string) (s : session) :
  go_up p s
  = (Done (rebuild_url (strip_scheme p).1 (Spec.go_up_body (strip_scheme p).2)),
     Session (ss_default_path s)
       (Some (rebuild_url (strip_scheme p).1 (Spec.go_up_body (strip_scheme p).2)))
       (ss_fs s) (ss_scheme s) (ss_storage_options s),
     []).
Proof.
  unfold go_up. destruct (strip_scheme p) as [sch b]. cbn [fst snd].
  pose proof (go_up_new_without b) as Hb. cbv zeta in Hb. rewrite Hb. reflexivity.
Qed.

Lemma go_up_body_code (body : string) :
  Spec.go_up_body body
  = (if (1 <? length (Str.split Str.slash (Str.rstrip Str.slash body)))%nat
     then Str.join "/" (removelast (Str.split Str.slash (Str.rstrip Str.slash body))) +:+ "/"
     else Str.first_item (Str.split Str.slash (Str.rstrip Str.slash body)) +:+ "/").
Proof. symmetry. exact (go_up_new_without body). Qed.

Lemma go_up_body_child (w child : string) :
  truthy child = true -> Str.contains Str.slash child = false ->
  Spec.go_up_body (w +:+ "/" +:+ child +:+ "/") = w +:+ "/".
Proof.
  intros Hs Hc. rewrite go_up_body_code.
  assert (H : Str.rstrip Str.slash (w +:+ "/" +:+ child +:+ "/") = w +:+ "/" +:+ child).
  { rewrite <- !append_assoc. rewrite (rstrip_append_sep Str.slash).
    now apply rstrip_append_no_sep. }
  rewrite H. change ("/" +:+ child) with (String Str.slash child).
  rewrite split_append_sep, (split_no_sep _ _ Hc).
  rewrite length_app, removelast_last. cbn [length].
  replace (1 <? length (Str.split Str.slash w) + 1)%nat with true.
  - change "/" with (String Str.slash "") at 1. now rewrite join_split.
  - symmetry. apply Nat.ltb_lt.
    destruct (Str.split Str.slash w) eqn:E; [now apply split_nonempty in E|cbn; lia].
Qed.

(** X9: going up from a child folder leads back to where the child was
    listed: from scheme://w/child/, with a non-empty slash-free child, the
    button stores scheme://w/ and touches nothing else in the session. *)
Theorem go_up_after_open (scheme w child : string) (s : session) :
  scheme = "s3" \/ scheme = "gs" ->
  truthy child = true -> Str.contains Str.slash child = false ->
  go_up (rebuild_url scheme (w +:+ "/" +:+ child +:+ "/")) s
  = (Done (rebuild_url scheme (w +:+ "/")),
     Session (ss_default_path s) (Some (rebuild_url scheme (w +:+ "/")))
       (ss_fs s) (ss_scheme s) (ss_storage_options s),
     []).
Proof.
  intros Hsch Hs Hc. rewrite go_up_run, (strip_rebuild _ _ Hsch). cbn [fst snd].
  now rewrite (go_up_body_child w child Hs Hc).
Qed.

Lemma go_up_after_open_witness :
  outcome_of (go_up "gs://bucket/data/run1/" empty_session) = Done "gs://bucket/data/".
Proof.
  change "gs://bucket/data/run1/" with (rebuild_url "gs" ("bucket/data" +:+ "/" +:+ "run1" +:+ "/")).
  rewrite (go_up_after_open "gs" "bucket/data" "run1" empty_session (or_intror eq_refl)
             eq_refl eq_refl).
  reflexivity.
Defined.

Lemma drop_trailing_empty_length (l : list string) :
  (length (Spec.drop_trailing_empty l) <= length l)%nat.
Proof.
  induction l as [|x l IH]; [reflexivity|].
  cbn [Spec.drop_trailing_empty].
  destruct (Spec.drop_trailing_empty l); [destruct (String.eqb x "")|]; cbn in *; lia.
Qed.

Lemma segments_length (body : string) :
  (1 <= length (Spec.segments body) <= length (Str.split Str.slash body))%nat.
Proof.
  unfold Spec.segments.
  destruct (Str.split Str.slash body) as [|x l] eqn:E; [now apply split_nonempty in E|].
  pose proof (drop_trailing_empty_length l). cbn. lia.
Qed.

Lemma segments_no_sep (body : string) :
  Forall (fun x => Str.contains Str.slash x = false) (Spec.segments body).
Proof. rewrite <- segments_rstrip. apply split_pieces_no_sep. Qed.

Lemma Forall_removelast (P : string -> Prop) (l : list string) :
  Forall P l -> Forall P (removelast l).
Proof.
  induction l as [|x l IH]; [auto|]. intros H. apply Forall_cons in H as [Hx Hl].
  destruct l as [|y l]; [constructor|]. change (Forall P (x :: removelast (y :: l))).
  constructor; auto.
Qed.

Lemma removelast_length (l : list string) : length (removelast l) = (length l - 1)%nat.
Proof.
  induction l as [|x l IH]; [reflexivity|].
  destruct l as [|y l]; [reflexivity|].
  change (length (x :: removelast (y :: l)) = (length (x :: y :: l) - 1)%nat).
  cbn [length] in *. lia.
Qed.

Lemma rstrip_append_slash (a : string) :
  Str.rstrip Str.slash (a +:+ "/") = Str.rstrip Str.slash a.
Proof. exact (rstrip_append_sep Str.slash a). Qed.

Lemma go_up_body_at_root (body seg : string) :
  Spec.segments body = [seg] ->
  Spec.go_up_body body = seg +:+ "/" /\ Spec.go_up_body (seg +:+ "/") = seg +:+ "/".
Proof.
  intros H. pose proof (segments_no_sep body) as Hc. rewrite H in Hc.
  apply Forall_cons in Hc as [Hc _].
  split; [unfold Spec.go_up_body; now rewrite H|].
  rewrite go_up_body_code.
  now rewrite rstrip_append_slash, (rstrip_no_sep _ _ Hc), (split_no_sep _ _ Hc).
Qed.

Lemma go_up_body_shorter (body : string) :
  (1 < length (Spec.segments body))%nat ->
  (length (Spec.segments (Spec.go_up_body body)) < length (Spec.segments body))%nat.
Proof.
  intros Hlen. pose proof (segments_no_sep body) as Hc.
  unfold Spec.go_up_body.
  destruct (Spec.segments body) as [|x [|y l]] eqn:E; cbn [length] in Hlen; [lia..|].
  set (rl := removelast (x :: y :: l)).
  assert (Hrl : rl <> []) by (unfold rl; change (removelast (x :: y :: l))
                                with (x :: removelast (y :: l)); discriminate).
  assert (Hf : Forall (fun x => Str.contains Str.slash x = false) rl)
    by now apply Forall_removelast.
  rewrite <- segments_rstrip, rstrip_append_slash, segments_rstrip.
  pose proof (segments_length (Str.join "/" rl)) as Hs.
  pose proof (split_join Str.slash rl Hrl Hf) as Hsj.
  change (String Str.slash "") with "/" in Hsj. rewrite Hsj in Hs.
  assert (Hl : length rl = S (length l)).
  { unfold rl. rewrite removelast_length. cbn [length]. lia. }
  cbn [length]. lia.
Qed.

Lemma iter_go_up_fixed (n : nat) (b : string) :
  Spec.go_up_body b = b -> Nat.iter n Spec.go_up_body b = b.
Proof. intros H. induction n as [|n IH]; [reflexivity|]. now rewrite Nat.iter_succ, IH. Qed.

Lemma iter_go_up_root (n : nat) (body : string) :
  (length (Spec.segments body) <= n)%nat ->
  Nat.iter n Spec.go_up_body body = Spec.bucket body +:+ "/".
Proof.
  revert body. induction n as [|n IH]; intros body Hn.
  - pose proof (segments_length body). lia.
  - rewrite Nat.iter_succ_r.
    destruct (segments_head body) as [l Hl].
    destruct l as [|y l].
    + destruct (go_up_body_at_root body _ Hl) as [H1 H2]. rewrite H1.
      now apply iter_go_up_fixed.
    + rewrite IH; [now rewrite go_up_body_bucket|].
      assert (1 < length (Spec.segments body))%nat by (rewrite Hl; cbn; lia).
      pose proof (go_up_body_shorter body). lia.
Qed.

Lemma press_up_run (n : nat) (scheme body : string) (s : session) :
  scheme = "s3" \/ scheme = "gs" ->
  outcome_of (press_up n (rebuild_url scheme body) s)
  = Done (rebuild_url scheme (Nat.iter n Spec.go_up_body body)).
Proof.
  intros Hsch. revert body s. induction n as [|n IH]; intros body s; [reflexivity|].
  cbn [press_up]. unfold st_bind. rewrite go_up_run, (strip_rebuild _ _ Hsch). cbn [fst snd].
  specialize (IH (Spec.go_up_body body)
                (Session (ss_default_path s)
                   (Some (rebuild_url scheme (Spec.go_up_body body)))
                   (ss_fs s) (ss_scheme s) (ss_storage_options s))).
  rewrite Nat.iter_succ_r.
  destruct (press_up n _ _) as [[r s1] o1]. cbn in IH |- *. exact IH.
Qed.

(** X10: going up ends at the bucket root and stays there: pressing the
    button at least as often as the body has segments leaves the prefix
    scheme://bucket/, where bucket is the first segment of the body. *)
Theorem press_up_reaches_root (n : nat) (scheme body : string) (s : session) :
  scheme = "s3" \/ scheme = "gs" ->
  (length (Spec.segments body) <= n)%nat ->
  outcome_of (press_up n (rebuild_url scheme body) s)
  = Done (rebuild_url scheme (Spec.bucket body +:+ "/")).
Proof.
  intros Hsch Hn. rewrite (press_up_run n scheme body s Hsch).
  now rewrite (iter_go_up_root n body Hn).
Qed.

Lemma press_up_reaches_root_witness :
  outcome_of (press_up 5 (rebuild_url "s3" "bucket/x//y/z/") empty_session)
  = Done "s3://bucket/".
Proof.
  rewrite (press_up_reaches_root 5 "s3" "bucket/x//y/z/" empty_session (or_introl eq_refl)).
  - reflexivity.
  - vm_compute. lia.
Defined.

(** X11: on a prefix in which no scheme is recognised the button treats the
    whole prefix as the body and stores the result with "://" in front. *)
Theorem go_up_without_scheme (p : string) (s : session) :
  detect_scheme p = "" ->
  outcome_of (go_up p s) = Done ("://" +:+ Spec.go_up_body p)
  /\ ss_prefix (session_after (go_up p s)) = Some ("://" +:+ Spec.go_up_body p).
Proof.
  intros H. rewrite go_up_run.
  assert (E : strip_scheme p = ("", p)).
  { rewrite detect_strip in H. unfold strip_scheme in *.
    destruct (Str.startswith p "s3://"); [discriminate|].
    destruct (Str.startswith p "gs://"); [discriminate|reflexivity]. }
  rewrite E. split; reflexivity.
Qed.

Lemma go_up_without_scheme_witness :
  outcome_of (go_up (clean_prefix "s3://") empty_session) = Done "://s3:/".
Proof.
  destruct (go_up_without_scheme (clean_prefix "s3://") empty_session eq_refl) as [H _].
  rewrite H. reflexivity.
Defined.

(** ** More on the listing normaliser *)

Lemma allowed_not_slash (f : string) :
  is_allowed_file f = true -> Str.endswith f "/" = false.
Proof.
  intros H. destruct (Str.endswith f "/") eqn:E; [|reflexivity]. exfalso.
  apply endswith_iff in E as [a ->].
  unfold is_allowed_file, ALLOWED_EXTS in H. cbn [existsb] in H.
  rewrite lower_append in H. change (Str.lower "/") with (String Str.slash "") in H.
  rewrite !orb_true_iff in H.
  destruct H as [H|[H|[H|H]]]; [| | |discriminate];
    apply endswith_iff in H as [b H].
  - change ".csv" with (".cs" +:+ String "v"%char "") in H.
    rewrite <- append_assoc in H. now apply append_last_inj in H.
  - change ".xls" with (".xl" +:+ String "s"%char "") in H.
    rewrite <- append_assoc in H. now apply append_last_inj in H.
  - change ".xlsx" with (".xls" +:+ String "x"%char "") in H.
    rewrite <- append_assoc in H. now apply append_last_inj in H.
Qed.

Lemma list_cloud_step_dirs (scheme without : string) (acc : gset string * list string)
    (it : entry) :
  (list_cloud_step scheme without acc it).1
  = match entry_dir scheme without it with
    | Some d => {[ d ]} ∪ acc.1
    | None => acc.1
    end.
Proof.
  destruct acc as [d f]. unfold list_cloud_step, entry_dir, relative_name. cbn [fst].
  destruct (type_is_directory it || Str.endswith (entry_name it) "/"); [reflexivity|].
  destruct (Str.contains Str.slash _); [reflexivity|].
  now destruct (is_allowed_file _).
Qed.

Lemma fold_list_cloud_dirs (scheme without : string) (items : list entry)
    (acc : gset string * list string) (d : string) :
  d ∈ (fold_left (list_cloud_step scheme without) items acc).1
  <-> d ∈ acc.1 \/ exists it, it ∈ items /\ entry_dir scheme without it = Some d.
Proof.
  revert acc. induction items as [|it items IH]; intros acc; cbn [fold_left].
  - split; [auto|]. intros [H|(it & Hit & _)]; [exact H|now apply elem_of_nil in Hit].
  - rewrite IH, list_cloud_step_dirs. split.
    + intros [H|(it' & Hin & Hd)].
      * destruct (entry_dir scheme without it) as [d'|] eqn:E; [|now left].
        apply elem_of_union in H as [H|H]; [|now left].
        apply elem_of_singleton in H as ->. right. exists it. split; [now left|exact E].
      * right. exists it'. split; [now right|exact Hd].
    + intros [H|(it' & Hin & Hd)].
      * left. destruct (entry_dir scheme without it); [|exact H].
        apply elem_of_union. now right.
      * apply elem_of_cons in Hin as [->|Hin].
        -- left. rewrite Hd. apply elem_of_union. left. now apply elem_of_singleton.
        -- right. now exists it'.
Qed.

Lemma sorted_by_key_elem (key : string -> string) (l : list string) (x : string) :
  x ∈ sorted_by_key key l <-> x ∈ l.
Proof. now rewrite (sorted_by_key_perm key l). Qed.

Lemma normalize_listing_members (scheme without : string) (items : list entry) :
  (forall d, d ∈ (normalize_listing scheme without items).1
             <-> exists it, it ∈ items /\ entry_dir scheme without it = Some d)
  /\ (forall f, f ∈ (normalize_listing scheme without items).2
                <-> exists it, it ∈ items /\ is_file_entry scheme without it = true
                               /\ f = rebuild_url scheme (entry_name it)).
Proof.
  rewrite normalize_listing_eq. cbn [fst snd]. split.
  - intros d. rewrite sorted_by_key_elem, elem_of_elements, fold_list_cloud_dirs.
    cbn [fst]. split; [intros [H|H]; [now apply elem_of_empty in H|exact H]|auto].
  - intros f. rewrite sorted_by_key_elem, fold_list_cloud_files. cbn [snd].
    rewrite app_nil_l, list_elem_of_In, in_map_iff. split.
    + intros (it & <- & Hin). apply filter_In in Hin as [Hin Hf].
      exists it. split; [now apply list_elem_of_In|auto].
    + intros (it & Hin & Hf & ->). exists it. split; [reflexivity|].
      apply filter_In. split; [now apply list_elem_of_In|exact Hf].
Qed.

(** X12: after a successful listing call, a path is among the returned
    directories exactly when some entry contributes it (an entry typed as
    directory or ending with a slash gives its own path with one trailing
    slash, a nested key gives the child folder of its first segment), and a
    path is among the returned files exactly when some entry that is no
    directory, has no slash in its relative path and passes the file filter
    has that URL. *)
Theorem list_cloud_members (fs_ls : filesystem -> string -> result (list entry))
    (fs : filesystem) (scheme prefix : string) (items : list entry) (s : session) :
  fs_ls fs (strip_scheme prefix).2 = Ok items ->
  exists dirs files,
    list_cloud fs_ls fs scheme prefix s = (Done (dirs, files), s, [])
    /\ (forall d, d ∈ dirs
                  <-> exists it, it ∈ items
                                 /\ entry_dir scheme (strip_scheme prefix).2 it = Some d)
    /\ (forall f, f ∈ files
                  <-> exists it, it ∈ items
                                 /\ is_file_entry scheme (strip_scheme prefix).2 it = true
                                 /\ f = rebuild_url scheme (entry_name it)).
Proof.
  intros H. rewrite (list_cloud_ok _ _ _ _ _ _ H).
  destruct (normalize_listing_members scheme (strip_scheme prefix).2 items) as [Hd Hf].
  destruct (normalize_listing scheme (strip_scheme prefix).2 items) as [dirs files].
  exists dirs, files. split; [reflexivity|]. split; assumption.
Qed.

Lemma list_cloud_members_witness :
  exists dirs files,
    list_cloud (fun _ _ => Ok [Entry (Some "b/run/log.csv") None None;
                               Entry None (Some "b/notes.XLSX") None])
      S3FileSystem_anon "s3" "s3://b/" empty_session = (Done (dirs, files), empty_session, [])
    /\ "s3://b/run/" ∈ dirs /\ "s3://b/notes.XLSX" ∈ files.
Proof.
  destruct (list_cloud_members
              (fun _ _ => Ok [Entry (Some "b/run/log.csv") None None;
                              Entry None (Some "b/notes.XLSX") None])
              S3FileSystem_anon "s3" "s3://b/"
              [Entry (Some "b/run/log.csv") None None; Entry None (Some "b/notes.XLSX") None]
              empty_session eq_refl) as (dirs & files & H & Hd & Hf).
  exists dirs, files. split; [exact H|]. split.
  - apply Hd. exists (Entry (Some "b/run/log.csv") None None). split; [now left|reflexivity].
  - apply Hf. exists (Entry None (Some "b/notes.XLSX") None).
    split; [right; now left|]. split; reflexivity.
Defined.

Lemma entry_dir_shape (scheme without : string) (it : entry) (d : string) :
  entry_dir scheme without it = Some d ->
  Str.endswith d "/" = true /\ Str.startswith d (scheme +:+ "://") = true.
Proof.
  unfold entry_dir, rebuild_url.
  destruct (type_is_directory it || Str.endswith (entry_name it) "/").
  - intros [= <-]. split.
    + apply endswith_iff. exists (scheme +:+ "://" +:+ Str.rstrip Str.slash (entry_name it)).
      now rewrite !append_assoc.
    + rewrite <- append_assoc. apply startswith_append.
  - destruct (Str.contains Str.slash _); [|discriminate].
    intros [= <-]. split.
    + apply endswith_iff. eexists. rewrite <- !append_assoc. reflexivity.
    + rewrite <- (append_assoc scheme). apply startswith_append.
Qed.

(** X13: whatever the listing call does, every returned directory begins
    with scheme:// and ends with a slash, and every returned file begins
    with scheme://, passes the file filter and does not end with a slash;
    so no path is returned both as a directory and as a file. *)
Theorem list_cloud_shapes (fs_ls : filesystem -> string -> result (list entry))
    (fs : filesystem) (scheme prefix : string) (s : session) :
  exists dirs files,
    outcome_of (list_cloud fs_ls fs scheme prefix s) = Done (dirs, files)
    /\ (forall d, d ∈ dirs ->
          Str.endswith d "/" = true /\ Str.startswith d (scheme +:+ "://") = true)
    /\ (forall f, f ∈ files ->
          is_allowed_file f = true /\ Str.endswith f "/" = false
          /\ Str.startswith f (scheme +:+ "://") = true)
    /\ (forall x, x ∈ dirs -> x ∉ files).
Proof.
  destruct (fs_ls fs (strip_scheme prefix).2) as [items|e] eqn:E.
  - rewrite (list_cloud_ok _ _ _ _ _ _ E).
    destruct (normalize_listing_members scheme (strip_scheme prefix).2 items) as [Hd Hf].
    destruct (normalize_listing scheme (strip_scheme prefix).2 items) as [dirs files].
    cbn [fst snd] in Hd, Hf. exists dirs, files. split; [reflexivity|].
    assert (HD : forall d, d ∈ dirs ->
              Str.endswith d "/" = true /\ Str.startswith d (scheme +:+ "://") = true).
    { intros d Hin. apply Hd in Hin as (it & _ & Hit). now apply entry_dir_shape in Hit. }
    assert (HF : forall f, f ∈ files ->
              is_allowed_file f = true /\ Str.endswith f "/" = false
              /\ Str.startswith f (scheme +:+ "://") = true).
    { intros f Hin. apply Hf in Hin as (it & _ & Hit & ->).
      unfold is_file_entry in Hit. apply andb_true_iff in Hit as [_ Ha].
      split; [exact Ha|]. split; [now apply allowed_not_slash|].
      unfold rebuild_url. rewrite <- append_assoc. apply startswith_append. }
    split; [exact HD|]. split; [exact HF|].
    intros x Hx Hx'. apply HD in Hx as [Hx _]. apply HF in Hx' as (_ & Hx' & _). congruence.
  - rewrite (list_cloud_exn _ _ _ _ _ _ E). exists [], []. split; [reflexivity|].
    split; [|split]; intros x Hx; now apply elem_of_nil in Hx.
Qed.

(** X14: an entry that carries neither a name nor a key (or only empty
    ones) and is not typed as a directory changes nothing; typed as a
    directory it adds the path scheme:///. *)
Theorem list_cloud_step_nameless (scheme without : string)
    (acc : gset string * list string) (it : entry) :
  entry_name it = "" ->
  list_cloud_step scheme without acc it
  = if type_is_directory it then ({[ scheme +:+ ":///" ]} ∪ acc.1, acc.2) else acc.
Proof.
  intros Hn. destruct acc as [d f]. unfold list_cloud_step. rewrite Hn.
  destruct (type_is_directory it); cbn [orb fst snd].
  - reflexivity.
  - change (Str.endswith "" "/") with false. cbv iota.
    assert (Hrel : (if Str.startswith "" without
                    then Str.drop (String.length without) "" else "") = "").
    { destruct (Str.startswith "" without); [|reflexivity]. now destruct (String.length without). }
    rewrite Hrel. change (Str.contains Str.slash "") with false. cbv iota.
    assert (Ha : is_allowed_file (rebuild_url scheme "") = false).
    { destruct (is_allowed_file (rebuild_url scheme "")) eqn:Ea; [|reflexivity].
      apply allowed_not_slash in Ea.
      assert (Str.endswith (rebuild_url scheme "") "/" = true); [|congruence].
      apply endswith_iff. exists (scheme +:+ ":/"). unfold rebuild_url.
      now rewrite append_assoc. }
    now rewrite Ha.
Qed.

Lemma list_cloud_step_nameless_witness :
  list_cloud_step "s3" "bucket/" (∅, []) (Entry None (Some "") (Some "file")) = (∅, []).
Proof.
  exact (list_cloud_step_nameless "s3" "bucket/" (∅, [])
           (Entry None (Some "") (Some "file")) eq_refl).
Defined.

(** * Further properties of the page *)

(** ** Runs that leave the session alone *)

Lemma keeps_bind {A B} (m : St A) (f : A -> St B) :
  keeps_session m -> (forall a, keeps_session (f a)) -> keeps_session (st_bind m f).
Proof.
  intros Hm Hf s. unfold st_bind, session_after. specialize (Hm s).
  unfold session_after in Hm.
  destruct (m s) as [[[a| |e] s1] o1]; cbn in Hm; subst s1; [|reflexivity..].
  specialize (Hf a s). unfold session_after in Hf.
  destruct (f a s) as [[r s2] o2]. exact Hf.
Qed.

Lemma keeps_ret {A} (a : A) : keeps_session (st_ret a).
Proof. now intros s. Qed.

Lemma keeps_emit (e : ui_event) : keeps_session (emit e).
Proof. now intros s. Qed.

Lemma keeps_raise {A} (e : string) : keeps_session (@raise A e).
Proof. now intros s. Qed.

Lemma keeps_get : keeps_session get_session.
Proof. now intros s. Qed.

Lemma keeps_for_each {A} (l : list A) (body : A -> St unit) :
  (forall x, keeps_session (body x)) -> keeps_session (for_each l body).
Proof.
  intros H. induction l as [|x l IH]; [apply keeps_ret|].
  cbn [for_each]. apply keeps_bind; [apply H|now intros _].
Qed.

Lemma keeps_map_st {A B} (f : A -> St B) (l : list A) :
  (forall x, keeps_session (f x)) -> keeps_session (map_st f l).
Proof.
  intros H. induction l as [|x l IH]; [apply keeps_ret|].
  cbn [map_st]. apply keeps_bind; [apply H|]. intros y.
  apply keeps_bind; [exact IH|]. intros ys. apply keeps_ret.
Qed.

Lemma keeps_index_or_raise (l : list string) (x : string) :
  keeps_session (index_or_raise l x).
Proof. unfold index_or_raise. destruct (py_index l x); [apply keeps_ret|apply keeps_raise]. Qed.

Lemma keeps_item_or_raise (l : list string) (i : nat) :
  keeps_session (item_or_raise l i).
Proof. unfold item_or_raise. destruct (l !! i); [apply keeps_ret|apply keeps_raise]. Qed.

Lemma keeps_list_cloud (fs_ls : filesystem -> string -> result (list entry))
    (fs : filesystem) (scheme prefix : string) :
  keeps_session (list_cloud fs_ls fs scheme prefix).
Proof. intros s. apply list_cloud_session. Qed.

Lemma keeps_choose_chart (px_raises : DataFrame -> figure -> option string)
    (df : DataFrame) : keeps_session (choose_chart px_raises df).
Proof.
  intros s.
  destruct (choose_chart_cases px_raises df s) as [(ev & -> & _)|(e & ->)]; reflexivity.
Qed.

Lemma keeps_visualize_file
    (pd_read_csv pd_read_excel : string -> storage_options -> result DataFrame)
    (px_raises : DataFrame -> figure -> option string)
    (fp : string) :
  keeps_session (visualize_file pd_read_csv pd_read_excel px_raises fp).
Proof.
  unfold visualize_file. apply keeps_bind; [apply keeps_emit|]. intros _.
  apply keeps_bind.
  - unfold read_any. apply keeps_bind; [apply keeps_get|]. intros s'.
    destruct (Str.endswith _ _); apply keeps_ret.
  - intros [df|e]; [|apply keeps_emit].
    apply keeps_bind; [apply keeps_emit|]. intros _. apply keeps_choose_chart.
Qed.

Lemma keeps_file_selection
    (pd_read_csv pd_read_excel : string -> storage_options -> result DataFrame)
    (px_raises : DataFrame -> figure -> option string)
    (inp : inputs) (files : list string) :
  keeps_session (file_selection pd_read_csv pd_read_excel px_raises inp files).
Proof.
  unfold file_selection. apply keeps_bind; [apply keeps_emit|]. intros _.
  destruct files as [|f files]; [apply keeps_emit|].
  apply keeps_bind; [apply keeps_map_st, keeps_index_or_raise|]. intros idxs.
  apply keeps_bind; [apply keeps_map_st, keeps_item_or_raise|]. intros picked.
  apply keeps_bind; [destruct (_ <? _)%nat; [apply keeps_emit|apply keeps_ret]|]. intros _.
  destruct (visualize inp); [|apply keeps_ret].
  destruct (take 2 picked) eqn:E; [apply keeps_ret|].
  apply keeps_for_each. intros fp. apply keeps_visualize_file.
Qed.

Lemma keeps_folder_selection_closed
    (fs_ls : filesystem -> string -> result (list entry))
    (inp : inputs) (fs : filesystem) (current_scheme current_prefix : string)
    (dirs files : list string) :
  open_btn inp = false \/ folder_select inp = "(stay here)" ->
  keeps_session (folder_selection fs_ls inp fs current_scheme current_prefix dirs files).
Proof.
  intros H. unfold folder_selection. destruct dirs as [|d dirs].
  - apply keeps_bind; [apply keeps_emit|]. intros _. apply keeps_ret.
  - assert (E : open_btn inp && negb (String.eqb (folder_select inp) "(stay here)") = false).
    { destruct H as [-> | ->]; [reflexivity|]. apply andb_false_r. }
    rewrite E. apply keeps_ret.
Qed.

Lemma keeps_main_ui (fs_ls : filesystem -> string -> result (list entry))
    (pd_read_csv pd_read_excel : string -> storage_options -> result DataFrame)
    (px_raises : DataFrame -> figure -> option string)
    (inp : inputs) :
  up_btn inp = false ->
  open_btn inp = false \/ folder_select inp = "(stay here)" ->
  keeps_session (main_ui fs_ls pd_read_csv pd_read_excel px_raises inp).
Proof.
  intros Hup Hopen. unfold main_ui. apply keeps_bind; [apply keeps_get|]. intros s0.
  destruct (ss_fs s0) as [fs|]; [|apply keeps_emit].
  destruct (truthy _ && truthy _); [|apply keeps_emit].
  apply keeps_bind; [apply keeps_emit|]. intros _.
  apply keeps_bind; [apply keeps_emit|]. intros _.
  rewrite Hup. apply keeps_bind; [apply keeps_ret|]. intros p.
  apply keeps_bind; [apply keeps_list_cloud|]. intros [dirs files].
  apply keeps_bind; [now apply keeps_folder_selection_closed|]. intros [p' [dirs' files']].
  apply keeps_file_selection.
Qed.

Lemma keeps_sidebar (inp : inputs) : keeps_session (sidebar inp).
Proof.
  unfold sidebar. apply keeps_bind; [apply keeps_emit|]. intros _.
  destruct (String.eqb _ "s3"); [apply keeps_ret|].
  destruct (String.eqb _ "gs").
  - apply keeps_bind; [destruct (gs_public inp); [apply keeps_ret|apply keeps_emit]|].
    intros _. apply keeps_ret.
  - apply keeps_bind; [apply keeps_emit|]. intros _. apply keeps_ret.
Qed.

(** X15: a run in which neither Connect nor "Go up one level" is pressed
    and no folder is opened leaves the session state exactly as it was,
    however the run ends: listing, refreshing, selecting files and
    visualising them never write to the session, also when the listing or
    a file fails. *)
Theorem app_keeps_session (fs_ls : filesystem -> string -> result (list entry))
    (pd_read_csv pd_read_excel : string -> storage_options -> result DataFrame)
    (px_raises : DataFrame -> figure -> option string)
    (json_load : string -> result string)
    (gcsfs_init : token -> option string) (inp : inputs) (s : session) :
  connect inp = false -> up_btn inp = false ->
  open_btn inp = false \/ folder_select inp = "(stay here)" ->
  session_after (app fs_ls pd_read_csv pd_read_excel px_raises json_load gcsfs_init inp s) = s.
Proof.
  intros Hc Hup Hopen. revert s. change (keeps_session (app fs_ls pd_read_csv pd_read_excel px_raises json_load gcsfs_init inp)).
  unfold app. apply keeps_bind; [apply keeps_emit|]. intros _.
  apply keeps_bind; [|intros _; now apply keeps_main_ui].
  unfold connect_step. apply keeps_bind; [apply keeps_sidebar|]. intros [scheme a].
  unfold connect_handler. rewrite Hc. apply keeps_ret.
Qed.

Lemma app_keeps_session_witness :
  let s := Session (Some "s3://b/") (Some "s3://b/") (Some S3FileSystem_anon) (Some "s3")
             (Some (opts_s3 true None None None)) in
  session_after
    (app (fun _ _ => Ok [Entry (Some "b/t.csv") None None; Entry (Some "b/d/k.csv") None None])
       (fun _ _ => Ok (Frame [("A", Series int64 3)] 3)) (fun _ _ => Exn "bad file")
       px_wide_form_check (fun j => Ok j) gcsfs_accepts
       (Inputs "s3://b/" true "" "" "" "" true None false false true
          "d" false ["t.csv"] true None) s) = s.
Proof. intros s. now apply app_keeps_session; [| |left]. Defined.

(** X16: without an accessor, a prefix or a scheme in the session the page
    shows only its hint: no listing call is made, the buttons and
    selections have no effect and the session is unchanged. *)
Theorem main_ui_disconnected (fs_ls : filesystem -> string -> result (list entry))
    (pd_read_csv pd_read_excel : string -> storage_options -> result DataFrame)
    (px_raises : DataFrame -> figure -> option string)
    (inp : inputs) (s : session) :
  connected s = false ->
  main_ui fs_ls pd_read_csv pd_read_excel px_raises inp s
  = (Done tt, s, [st_info "Enter your bucket/prefix (gs:// or s3://) and click Connect."]).
Proof.
  intros H. unfold connected in H. unfold main_ui, st_bind at 1, get_session.
  destruct (ss_fs s) as [fs|]; [|reflexivity].
  cbn in H. unfold id in *. now rewrite H.
Qed.

Lemma main_ui_disconnected_witness :
  main_ui (fun _ _ => Exn "unreachable") (fun _ _ => Exn "") (fun _ _ => Exn "") px_accepts
    (Inputs "" true "" "" "" "" true None false true true "x" true ["a.csv"] true None)
    empty_session
  = (Done tt, empty_session,
     [st_info "Enter your bucket/prefix (gs:// or s3://) and click Connect."]).
Proof. now apply main_ui_disconnected. Defined.

(** ** Opening folders *)

Lemma folder_selection_session (fs_ls : filesystem -> string -> result (list entry))
    (inp : inputs) (fs : filesystem) (current_scheme current_prefix : string)
    (dirs files : list string) (s : session) :
  session_after (folder_selection fs_ls inp fs current_scheme current_prefix dirs files s) = s
  \/ exists d, d ∈ dirs
               /\ session_after
                    (folder_selection fs_ls inp fs current_scheme current_prefix dirs files s)
                  = Session (ss_default_path s) (Some d) (ss_fs s) (ss_scheme s)
                      (ss_storage_options s).
Proof.
  remember (session_after
              (folder_selection fs_ls inp fs current_scheme current_prefix dirs files s))
    as x eqn:Hx.
  unfold folder_selection in Hx. destruct dirs as [|d0 dirs0]; [now left|].
  destruct (open_btn inp && negb (String.eqb (folder_select inp) "(stay here)"));
    [|now left].
  unfold st_bind at 1, index_or_raise in Hx.
  destruct (py_index (folder_names_of (d0 :: dirs0)) (folder_select inp)) as [k|];
    [|now left].
  unfold st_ret at 1 in Hx. unfold st_bind at 1, item_or_raise in Hx.
  destruct ((d0 :: dirs0) !! k) as [d|] eqn:Ed; [|now left].
  unfold st_ret at 1 in Hx. unfold set_prefix, st_bind, get_session, put_session in Hx.
  cbn [default ss_prefix] in Hx. unfold id in Hx.
  pose proof (list_cloud_session fs_ls fs current_scheme d
                (Session (ss_default_path s) (Some d) (ss_fs s) (ss_scheme s)
                   (ss_storage_options s))) as Hs.
  right. exists d. split; [now apply list_elem_of_lookup_2 in Ed|].
  unfold session_after in *.
  destruct (list_cloud fs_ls fs current_scheme d _) as [[[r| |e] s1] o1];
    cbn in Hs, Hx; now subst.
Qed.

(** X17: the folder selection either leaves the stored prefix as it is or
    stores one of the directories just listed; it never touches the
    accessor, the scheme, the storage options or the remembered input. *)
Theorem folder_selection_target (fs_ls : filesystem -> string -> result (list entry))
    (inp : inputs) (fs : filesystem) (current_scheme current_prefix : string)
    (dirs files : list string) (s : session) :
  let s' := session_after
              (folder_selection fs_ls inp fs current_scheme current_prefix dirs files s) in
  (ss_prefix s' = ss_prefix s \/ exists d, d ∈ dirs /\ ss_prefix s' = Some d)
  /\ ss_fs s' = ss_fs s /\ ss_scheme s' = ss_scheme s
  /\ ss_storage_options s' = ss_storage_options s
  /\ ss_default_path s' = ss_default_path s.
Proof.
  cbv zeta.
  destruct (folder_selection_session fs_ls inp fs current_scheme current_prefix dirs files s)
    as [-> | (d & Hd & ->)].
  - repeat split. now left.
  - repeat split. right. now exists d.
Qed.

(** ** Loading and visualising *)

Lemma read_any_run
    (pd_read_csv pd_read_excel : string -> storage_options -> result DataFrame)
    (path : string) (s : session) :
  read_any pd_read_csv pd_read_excel path s
  = (Done (if Str.endswith (Str.lower path) ".csv"
           then pd_read_csv path (default opts_empty (ss_storage_options s))
           else pd_read_excel path (default opts_empty (ss_storage_options s))),
     s, []).
Proof.
  unfold read_any, st_bind, get_session. now destruct (Str.endswith _ _).
Qed.

Lemma visualize_file_eq
    (pd_read_csv pd_read_excel : string -> storage_options -> result DataFrame)
    (px_raises : DataFrame -> figure -> option string)
    (fp : string) (s : session) :
  visualize_file pd_read_csv pd_read_excel px_raises fp s
  = match (if Str.endswith (Str.lower fp) ".csv"
           then pd_read_csv fp (default opts_empty (ss_storage_options s))
           else pd_read_excel fp (default opts_empty (ss_storage_options s))) with
    | Exn e =>
        (Done tt, s,
         [st_markdown ("### " +:+ basename_from_path fp);
          st_error ("Failed to read " +:+ fp +:+ ": " +:+ e)])
    | Ok df =>
        (outcome_of (choose_chart px_raises df s), s,
         [st_markdown ("### " +:+ basename_from_path fp); st_dataframe df]
           ++ displayed (choose_chart px_raises df s))
    end.
Proof.
  unfold visualize_file, st_bind at 1, emit at 1. unfold st_bind at 1.
  rewrite read_any_run.
  destruct (if Str.endswith (Str.lower fp) ".csv" then _ else _) as [df|e]; [|reflexivity].
  unfold st_bind, emit.
  destruct (choose_chart_cases px_raises df s) as [(ev & -> & _)|(e & ->)]; reflexivity.
Qed.

Lemma visualize_file_run
    (pd_read_csv pd_read_excel : string -> storage_options -> result DataFrame)
    (px_raises : DataFrame -> figure -> option string)
    (fp : string) (s : session) :
  (exists e,
      outcome_of (read_any pd_read_csv pd_read_excel fp s) = Done (Exn e)
      /\ visualize_file pd_read_csv pd_read_excel px_raises fp s
         = (Done tt, s,
            [st_markdown ("### " +:+ basename_from_path fp);
             st_error ("Failed to read " +:+ fp +:+ ": " +:+ e)]))
  \/ (exists df ev,
         outcome_of (read_any pd_read_csv pd_read_excel fp s) = Done (Ok df)
         /\ planned_outcome ev
         /\ visualize_file pd_read_csv pd_read_excel px_raises fp s
            = (Done tt, s,
               [st_markdown ("### " +:+ basename_from_path fp); st_dataframe df; ev]))
  \/ (exists df e,
         outcome_of (read_any pd_read_csv pd_read_excel fp s) = Done (Ok df)
         /\ visualize_file pd_read_csv pd_read_excel px_raises fp s
            = (Raised e, s,
               [st_markdown ("### " +:+ basename_from_path fp); st_dataframe df])).
Proof.
  rewrite visualize_file_eq, read_any_run.
  destruct (if Str.endswith (Str.lower fp) ".csv" then _ else _) as [df|e].
  - right. destruct (choose_chart_cases px_raises df s) as [(ev & Hev & Hp)|(e & He)].
    + left. exists df, ev. split; [reflexivity|]. split; [exact Hp|]. now rewrite Hev.
    + right. exists df, e. split; [reflexivity|]. now rewrite He.
  - left. exists e. split; reflexivity.
Qed.

(** X18: a file that cannot be read does not end the run: its heading and
    one error naming the file and the cause are shown, the session is
    unchanged, and the files selected after it are processed as if it had
    not been there. *)
Theorem read_failure_is_isolated
    (pd_read_csv pd_read_excel : string -> storage_options -> result DataFrame)
    (px_raises : DataFrame -> figure -> option string)
    (fp e : string) (rest : list string) (s : session) :
  outcome_of (read_any pd_read_csv pd_read_excel fp s) = Done (Exn e) ->
  let r := for_each rest (visualize_file pd_read_csv pd_read_excel px_raises) s in
  for_each (fp :: rest) (visualize_file pd_read_csv pd_read_excel px_raises) s
  = (outcome_of r, session_after r,
     [st_markdown ("### " +:+ basename_from_path fp);
      st_error ("Failed to read " +:+ fp +:+ ": " +:+ e)] ++ displayed r).
Proof.
  intros H. cbv zeta. cbn [for_each]. unfold st_bind at 1.
  destruct (visualize_file_run pd_read_csv pd_read_excel px_raises fp s)
    as [(e' & He & ->)|[(df & ev & He & _ & _)|(df & e' & He & _)]]; [|congruence..].
  assert (e' = e) as -> by congruence.
  unfold outcome_of, session_after, displayed.
  now destruct (for_each rest _ s) as [[r s1] o1].
Qed.

Lemma read_failure_is_isolated_witness :
  for_each ["s3://b/bad.csv"; "s3://b/ok.xlsx"]
    (visualize_file (fun _ _ => Exn "ParserError")
       (fun _ _ => Ok (Frame [("A", Series int64 3)] 3)) px_wide_form_check) empty_session
  = (Done tt, empty_session,
     [st_markdown "### bad.csv"; st_error "Failed to read s3://b/bad.csv: ParserError";
      st_markdown "### ok.xlsx"; st_dataframe (Frame [("A", Series int64 3)] 3);
      st_plotly_chart (px_line_wide ["A"] "Line plot (numeric columns)")]).
Proof.
  rewrite (read_failure_is_isolated (fun _ _ => Exn "ParserError")
             (fun _ _ => Ok (Frame [("A", Series int64 3)] 3)) px_wide_form_check
             "s3://b/bad.csv" "ParserError" ["s3://b/ok.xlsx"] empty_session eq_refl).
  reflexivity.
Defined.

Lemma count_events_app (p : ui_event -> bool) (a b : list ui_event) :
  count_events p (a ++ b) = (count_events p a + count_events p b)%nat.
Proof. unfold count_events. now rewrite List.filter_app, length_app. Qed.

Lemma shows_bind (p : ui_event -> bool) (a b : nat) {A B} (m : St A) (f : A -> St B) :
  shows_at_most p a m -> (forall x, shows_at_most p b (f x)) ->
  shows_at_most p (a + b) (st_bind m f).
Proof.
  intros Hm Hf s. unfold st_bind, displayed. specialize (Hm s). unfold displayed in Hm.
  destruct (m s) as [[[x| |e] s1] o1]; cbn [snd] in *; [|lia..].
  specialize (Hf x s1). unfold displayed in Hf.
  destruct (f x s1) as [[r s2] o2]. cbn [snd] in *. rewrite count_events_app. lia.
Qed.

Lemma shows_weaken (p : ui_event -> bool) (a b : nat) {A} (m : St A) :
  (a <= b)%nat -> shows_at_most p a m -> shows_at_most p b m.
Proof. intros Hab H s. specialize (H s). lia. Qed.

Lemma shows_silent (p : ui_event -> bool) {A} (m : St A) :
  (forall s, displayed (m s) = []) -> shows_at_most p 0 m.
Proof. intros H s. now rewrite H. Qed.

Lemma shows_emit_other (p : ui_event -> bool) (e : ui_event) :
  p e = false -> shows_at_most p 0 (emit e).
Proof. intros H s. unfold emit, displayed, count_events. cbn. now rewrite H. Qed.

Lemma shows_ret (p : ui_event -> bool) (n : nat) {A} (a : A) :
  shows_at_most p n (st_ret a).
Proof. intros s. unfold st_ret, displayed, count_events. cbn. lia. Qed.

Lemma shows_for_each (p : ui_event -> bool) {A} (l : list A) (body : A -> St unit) :
  (forall x, shows_at_most p 1 (body x)) -> shows_at_most p (length l) (for_each l body).
Proof.
  intros H. induction l as [|x l IH]; [apply shows_ret|].
  cbn [for_each length]. change (S (length l)) with (1 + length l)%nat.
  apply shows_bind; [apply H|now intros _].
Qed.

Lemma map_st_index_displayed (l sels : list string) (s : session) :
  displayed (map_st (index_or_raise l) sels s) = [].
Proof.
  induction sels as [|x sels IH]; [reflexivity|].
  cbn [map_st]. unfold st_bind at 1, index_or_raise at 1.
  destruct (py_index l x); [|reflexivity]. cbn. unfold st_bind at 1.
  pose proof (keeps_map_st (index_or_raise l) sels (keeps_index_or_raise l) s) as Hk.
  unfold displayed, session_after in *.
  destruct (map_st (index_or_raise l) sels s) as [[[r| |e] s1] o1]; cbn in *; now subst.
Qed.

Lemma map_st_item_displayed (l : list string) (idxs : list nat) (s : session) :
  displayed (map_st (item_or_raise l) idxs s) = [].
Proof.
  induction idxs as [|x idxs IH]; [reflexivity|].
  cbn [map_st]. unfold st_bind at 1, item_or_raise at 1.
  destruct (l !! x); [|reflexivity]. cbn. unfold st_bind at 1.
  unfold displayed in *.
  destruct (map_st (item_or_raise l) idxs s) as [[[r| |e] s1] o1]; cbn in *; now subst.
Qed.

Lemma shows_visualize_file (p : ui_event -> bool)
    (pd_read_csv pd_read_excel : string -> storage_options -> result DataFrame)
    (px_raises : DataFrame -> figure -> option string)
    (fp : string) :
  p = is_markdown \/ p = is_chart ->
  shows_at_most p 1 (visualize_file pd_read_csv pd_read_excel px_raises fp).
Proof.
  intros Hp s.
  destruct (visualize_file_run pd_read_csv pd_read_excel px_raises fp s)
    as [(e & _ & ->)|[(df & ev & _ & Hev & ->)|(df & e & _ & ->)]];
    unfold displayed, count_events; cbn [snd].
  - destruct Hp as [-> | ->]; cbn; lia.
  - destruct Hp as [-> | ->]; destruct Hev; cbn; lia.
  - destruct Hp as [-> | ->]; cbn; lia.
Qed.

(** X19: one run shows at most two file headings and at most two charts,
    however many files are selected. *)
Theorem at_most_two_files
    (pd_read_csv pd_read_excel : string -> storage_options -> result DataFrame)
    (px_raises : DataFrame -> figure -> option string)
    (inp : inputs) (files : list string) (s : session) :
  (count_events is_markdown
     (displayed (file_selection pd_read_csv pd_read_excel px_raises inp files s)) <= 2)%nat
  /\ (count_events is_chart
        (displayed (file_selection pd_read_csv pd_read_excel px_raises inp files s)) <= 2)%nat.
Proof.
  assert (H : forall p, p = is_markdown \/ p = is_chart ->
              shows_at_most p 2 (file_selection pd_read_csv pd_read_excel px_raises inp files)).
  { intros p Hp. unfold file_selection.
    apply (shows_bind p 0 2);
      [apply shows_emit_other; destruct Hp as [-> | ->]; reflexivity|].
    intros _. destruct files as [|f files];
      [apply (shows_weaken p 0); [lia|];
       apply shows_emit_other; destruct Hp as [-> | ->]; reflexivity|].
    apply (shows_bind p 0 2); [apply shows_silent; intros; apply map_st_index_displayed|].
    intros idxs.
    apply (shows_bind p 0 2); [apply shows_silent; intros; apply map_st_item_displayed|].
    intros picked.
    apply (shows_bind p 0 2).
    { destruct (_ <? _)%nat; [|apply shows_ret].
      apply shows_emit_other; destruct Hp as [-> | ->]; reflexivity. }
    intros _. destruct (visualize inp); [|apply shows_ret].
    destruct (take 2 picked) as [|x l] eqn:E; [apply shows_ret|]. rewrite <- E.
    apply (shows_weaken p (length (take 2 picked))); [rewrite length_take; lia|].
    apply shows_for_each. intros fp. now apply shows_visualize_file. }
  split; [apply (H is_markdown); now left|apply (H is_chart); now right].
Qed.

(** ** More on connecting *)

Lemma connect_step_gs_eq (json_load : string -> result string)
    (gcsfs_init : token -> option string) (inp : inputs) (s : session) :
  detect_scheme (bucket_input inp) = "gs" -> connect inp = true ->
  connect_step json_load gcsfs_init inp s
  = (let s1 := Session (Some (bucket_input inp)) (Some (clean_prefix (bucket_input inp)))
                 (ss_fs s) (ss_scheme s) (ss_storage_options s) in
     let connected_with tok :=
       Session (Some (bucket_input inp)) (Some (clean_prefix (bucket_input inp)))
         (Some (GCSFileSystem tok)) (Some "gs") (Some (opts_gs tok)) in
     let header := st_sidebar_header "Bucket connection (gs:// for GCS, s3:// for AWS)" in
     let caption := st_sidebar_caption "Or use Google Default Credentials via gcloud." in
     let build tok shown :=
       match gcsfs_init tok with
       | None => (Done tt, connected_with tok, shown)
       | Some e => (Raised e, s1, shown)
       end in
     if gs_public inp then build (TokStr "anon") [header]
     else match gs_creds_file inp with
          | Some f =>
              match json_load f with
              | Ok j => build (TokJson j) [header; caption]
              | Exn e => (Raised e, s1, [header; caption])
              end
          | None =>
              match env_GOOGLE_APPLICATION_CREDENTIALS inp with
              | Some _ => build (TokStr "google_default") [header; caption]
              | None =>
                  (Stopped, s1,
                   [header; caption;
                    st_error "Upload a Service Account JSON or run 'gcloud auth application-default login' before connecting."])
              end
          end).
Proof.
  intros H Hc. cbv zeta. unfold connect_step, sidebar. rewrite H. cbn.
  unfold connect_handler. rewrite Hc.
  destruct (gs_public inp).
  - cbn. unfold get_fs. cbn. destruct (gcsfs_init (TokStr "anon")); reflexivity.
  - destruct (gs_creds_file inp) as [f|].
    + cbn. destruct (json_load f) as [j|e]; [|reflexivity].
      cbn. unfold get_fs. cbn. destruct (gcsfs_init (TokJson j)); reflexivity.
    + destruct (env_GOOGLE_APPLICATION_CREDENTIALS inp); [|reflexivity].
      cbn. unfold get_fs. cbn. destruct (gcsfs_init (TokStr "google_default")); reflexivity.
Qed.



(** X21: Connect writes the typed URL and its normalised prefix into the
    session before it builds the accessor.  When a gs connect then halts
    for missing credentials, or dies because the uploaded file cannot be
    parsed, the session keeps its previous accessor, scheme and storage
    options together with the new prefix. *)
Theorem connect_gs_failure_keeps_accessor (json_load : string -> result string)
    (gcsfs_init : token -> option string)
    (inp : inputs) (s : session) :
  detect_scheme (bucket_input inp) = "gs" -> connect inp = true -> gs_public inp = false ->
  let r := connect_step json_load gcsfs_init inp s in
  let s1 := Session (Some (bucket_input inp)) (Some (clean_prefix (bucket_input inp)))
              (ss_fs s) (ss_scheme s) (ss_storage_options s) in
  (gs_creds_file inp = None -> env_GOOGLE_APPLICATION_CREDENTIALS inp = None ->
   outcome_of r = Stopped /\ session_after r = s1)
  /\ (forall f e, gs_creds_file inp = Some f -> json_load f = Exn e ->
        outcome_of r = Raised e /\ session_after r = s1).
Proof.
  intros H Hc Hp. cbv zeta. rewrite (connect_step_gs_eq json_load gcsfs_init inp s H Hc). cbv zeta.
  rewrite Hp. split.
  - intros -> ->. now split.
  - intros f e -> ->. now split.
Qed.

Lemma connect_gs_failure_keeps_accessor_witness :
  let s := Session (Some "s3://old/") (Some "s3://old/") (Some S3FileSystem_anon) (Some "s3")
             (Some (opts_s3 true None None None)) in
  session_after
    (connect_step (fun f => Ok f) gcsfs_accepts
       (Inputs "gs://new/" true "" "" "" "" false None
          true false false "(stay here)" false [] false None) s)
  = Session (Some "gs://new/") (Some "gs://new/") (Some S3FileSystem_anon) (Some "s3")
      (Some (opts_s3 true None None None)).
Proof.
  intros s.
  destruct (connect_gs_failure_keeps_accessor (fun f => Ok f) gcsfs_accepts
              (Inputs "gs://new/" true "" "" "" "" false None
                 true false false "(stay here)" false [] false None) s
              eq_refl eq_refl eq_refl) as [H _].
  destruct (H eq_refl eq_refl) as [_ H']. rewrite H'. reflexivity.
Defined.

(** X22: what the accessor and the storage options are built from.  For gs
    the storage options carry the token that is handed to the accessor
    constructor, so both carry the same token whenever the accessor is
    built.  For s3 with a key pair both carry
    the pair, the session token and the region; without a complete key
    pair the accessor carries no credentials at all, while the storage
    options still carry a session token that was typed in.  For anonymous
    s3 the accessor ignores the region, the storage options keep it. *)
Theorem accessor_and_storage_options (gcsfs_init : token -> option string)
    (anon : bool) (k sk tk rg : string) (tok : option token) :
  (exists t, build_storage_options "gs" anon k sk tk rg tok = opts_gs t
             /\ get_fs gcsfs_init "gs" anon k sk tk rg tok
                = match gcsfs_init t with
                  | None => Ok (GCSFileSystem t)
                  | Some e => Exn e
                  end)
  /\ (truthy k && truthy sk = true ->
      get_fs gcsfs_init "s3" false k sk tk rg tok
      = Ok (S3FileSystem (S3Kwargs (Some k) (Some sk) (Some (opt_if (truthy tk) tk))
                            (opt_if (truthy rg) rg)))
      /\ build_storage_options "s3" false k sk tk rg tok
         = opts_s3 false (Some (k, sk)) (opt_if (truthy tk) tk) (opt_if (truthy rg) rg))
  /\ (truthy k && truthy sk = false ->
      get_fs gcsfs_init "s3" false k sk tk rg tok
      = Ok (S3FileSystem (S3Kwargs None None None (opt_if (truthy rg) rg)))
      /\ build_storage_options "s3" false k sk tk rg tok
         = opts_s3 false None (opt_if (truthy tk) tk) (opt_if (truthy rg) rg))
  /\ (get_fs gcsfs_init "s3" true k sk tk rg tok = Ok S3FileSystem_anon
      /\ build_storage_options "s3" true k sk tk rg tok
         = opts_s3 true None None (opt_if (truthy rg) rg)).
Proof.
  split; [|split; [|split; [|split]]].
  - unfold get_fs, build_storage_options. cbn. eexists. split; [reflexivity|].
    now destruct (gcsfs_init _).
  - intros H. unfold get_fs, build_storage_options. cbn. rewrite H. split; reflexivity.
  - intros H. unfold get_fs, build_storage_options. cbn. rewrite H. split; reflexivity.
  - reflexivity.
  - reflexivity.
Qed.

Lemma accessor_and_storage_options_witness :
  get_fs gcsfs_accepts "s3" false "" "" "session-token" "eu-west-1" None
  = Ok (S3FileSystem (S3Kwargs None None None (Some "eu-west-1")))
  /\ build_storage_options "s3" false "" "" "session-token" "eu-west-1" None
     = opts_s3 false None (Some "session-token") (Some "eu-west-1").
Proof.
  exact (proj1 (proj2 (proj2 (accessor_and_storage_options gcsfs_accepts false "" "" "session-token"
                                "eu-west-1" None))) eq_refl).
Defined.

Lemma connect_step_s3_eq (json_load : string -> result string)
    (gcsfs_init : token -> option string) (inp : inputs) (s : session) :
  detect_scheme (bucket_input inp) = "s3" -> connect inp = true ->
  let k := if s3_public inp then "" else in_access_key_id inp in
  let sk := if s3_public inp then "" else in_secret_access_key inp in
  let tk := if s3_public inp then "" else in_session_token inp in
  exists fs,
    get_fs gcsfs_init "s3" (s3_public inp) k sk tk (s3_region inp) None = Ok fs
    /\ connect_step json_load gcsfs_init inp s
       = (Done tt,
          Session (Some (bucket_input inp)) (Some (clean_prefix (bucket_input inp)))
            (Some fs) (Some "s3")
            (Some (build_storage_options "s3" (s3_public inp) k sk tk (s3_region inp) None)),
          [st_sidebar_header "Bucket connection (gs:// for GCS, s3:// for AWS)"]).
Proof.
  intros H Hc. cbv zeta. unfold connect_step, sidebar. rewrite H. cbn.
  unfold connect_handler. rewrite Hc. cbn.
  destruct (s3_public inp); cbn; eexists; split; reflexivity.
Qed.

(** X23: a run in which Connect is pressed on an s3 URL, without going up
    or opening a folder, ends with a session that holds the typed URL, its
    normalised prefix, the scheme s3, the accessor that [get_fs] builds and
    the matching storage options, whatever the listing and the file
    loading of the same run do. *)
Theorem app_connect_s3 (fs_ls : filesystem -> string -> result (list entry))
    (pd_read_csv pd_read_excel : string -> storage_options -> result DataFrame)
    (px_raises : DataFrame -> figure -> option string)
    (json_load : string -> result string)
    (gcsfs_init : token -> option string) (inp : inputs) (s : session) :
  detect_scheme (bucket_input inp) = "s3" -> connect inp = true ->
  up_btn inp = false -> open_btn inp = false \/ folder_select inp = "(stay here)" ->
  let k := if s3_public inp then "" else in_access_key_id inp in
  let sk := if s3_public inp then "" else in_secret_access_key inp in
  let tk := if s3_public inp then "" else in_session_token inp in
  exists fs,
    get_fs gcsfs_init "s3" (s3_public inp) k sk tk (s3_region inp) None = Ok fs
    /\ session_after (app fs_ls pd_read_csv pd_read_excel px_raises json_load gcsfs_init inp s)
       = Session (Some (bucket_input inp)) (Some (clean_prefix (bucket_input inp)))
           (Some fs) (Some "s3")
           (Some (build_storage_options "s3" (s3_public inp) k sk tk (s3_region inp) None)).
Proof.
  intros H Hc Hup Hopen. cbv zeta.
  destruct (connect_step_s3_eq json_load gcsfs_init inp s H Hc) as (fs & Hfs & Hstep).
  exists fs. split; [exact Hfs|].
  unfold app, st_bind at 1, emit at 1. unfold st_bind at 1. rewrite Hstep.
  pose proof (keeps_main_ui fs_ls pd_read_csv pd_read_excel px_raises inp Hup Hopen) as Hk.
  match goal with |- context [main_ui _ _ _ _ _ ?s1] => specialize (Hk s1) end.
  unfold session_after in *.
  destruct (main_ui _ _ _ _ _ _) as [[r s2] o2]. cbn in *. exact Hk.
Qed.

Lemma app_connect_s3_witness :
  session_after
    (app (fun _ _ => Exn "AccessDenied") (fun _ _ => Exn "") (fun _ _ => Exn "") px_accepts (fun f => Ok f) gcsfs_accepts
       (Inputs "s3://bucket/data" false "eu-west-1" "AKIA" "secret" "" true None
          true false false "(stay here)" false [] false None) empty_session)
  = Session (Some "s3://bucket/data") (Some "s3://bucket/data/")
      (Some (S3FileSystem (S3Kwargs (Some "AKIA") (Some "secret") (Some None) (Some "eu-west-1"))))
      (Some "s3") (Some (opts_s3 false (Some ("AKIA", "secret")) None (Some "eu-west-1"))).
Proof.
  destruct (app_connect_s3 (fun _ _ => Exn "AccessDenied") (fun _ _ => Exn "")
              (fun _ _ => Exn "") px_accepts (fun f => Ok f) gcsfs_accepts
              (Inputs "s3://bucket/data" false "eu-west-1" "AKIA" "secret" "" true None
                 true false false "(stay here)" false [] false None) empty_session
              eq_refl eq_refl eq_refl (or_introl eq_refl)) as (fs & Hfs & H).
  rewrite H. injection Hfs as <-. reflexivity.
Defined.

(** X24: the returned files are the accepted entries' URLs in a stable
    case-insensitive order: the same paths with the same multiplicities,
    and paths with equal lower-cased form in the order of the listing. *)
Theorem list_cloud_files_order (fs_ls : filesystem -> string -> result (list entry))
    (fs : filesystem) (scheme prefix : string) (items : list entry) (s : session) :
  fs_ls fs (strip_scheme prefix).2 = Ok items ->
  let accepted := map (fun it => rebuild_url scheme (entry_name it))
                    (List.filter (is_file_entry scheme (strip_scheme prefix).2) items) in
  exists dirs files,
    outcome_of (list_cloud fs_ls fs scheme prefix s) = Done (dirs, files)
    /\ Permutation files accepted
    /\ forall k, List.filter (fun f => String.eqb (Str.lower f) k) files
                 = List.filter (fun f => String.eqb (Str.lower f) k) accepted.
Proof.
  intros H. cbv zeta. rewrite (list_cloud_ok _ _ _ _ _ _ H), normalize_listing_eq.
  eexists _, _. split; [reflexivity|].
  rewrite fold_list_cloud_files. cbn [snd]. rewrite app_nil_l.
  split; [apply sorted_by_key_perm|]. intros k. apply sorted_by_key_stable.
Qed.

Lemma list_cloud_files_order_witness :
  outcome_of (list_cloud (fun _ _ => Ok [Entry (Some "b/Z.csv") None None;
                                         Entry (Some "b/a.CSV") None None;
                                         Entry (Some "b/A.csv") None None])
                S3FileSystem_anon "s3" "s3://b/" empty_session)
  = Done ([], ["s3://b/a.CSV"; "s3://b/A.csv"; "s3://b/Z.csv"]).
Proof.
  destruct (list_cloud_files_order
              (fun _ _ => Ok [Entry (Some "b/Z.csv") None None;
                              Entry (Some "b/a.CSV") None None;
                              Entry (Some "b/A.csv") None None])
              S3FileSystem_anon "s3" "s3://b/"
              [Entry (Some "b/Z.csv") None None; Entry (Some "b/a.CSV") None None;
               Entry (Some "b/A.csv") None None] empty_session eq_refl)
    as (dirs & files & H & _ & _).
  rewrite H in *. vm_compute in H. now rewrite H.
Defined.

Lemma py_index_missing (l : list string) (x : string) :
  py_index l x = None <-> x ∉ l.
Proof.
  induction l as [|y l IH]; cbn.
  - split; [intros _; apply not_elem_of_nil|reflexivity].
  - destruct (String.eqb_spec y x) as [->|Hne].
    + split; [discriminate|]. intros H. exfalso. apply H. now left.
    + rewrite not_elem_of_cons. destruct (py_index l x) as [k|].
      * split; [discriminate|]. intros [_ H]. now apply IH in H.
      * split; [|reflexivity]. intros _. split; [congruence|]. now apply IH.
Qed.

(** X25: resolving a chosen file label.  A label that is among the labels
    of the listed files resolves, without raising, to a listed file that
    carries that label; a label that is not among them raises ValueError;
    neither touches the session or displays anything. *)
Theorem file_label_resolution (files : list string) (label : string) (s : session) :
  let labels := map basename_from_path files in
  (label ∈ labels ->
   exists k f, index_or_raise labels label s = (Done k, s, [])
               /\ item_or_raise files k s = (Done f, s, [])
               /\ f ∈ files /\ basename_from_path f = label)
  /\ (label ∉ labels -> index_or_raise labels label s = (Raised "ValueError", s, [])).
Proof.
  cbv zeta. split.
  - intros Hin. apply list_elem_of_lookup in Hin as [i Hi].
    destruct (py_index_first _ _ _ Hi) as (k & Hk & _).
    destruct (py_index_lookup _ _ _ Hk) as [Hlk _].
    rewrite list_lookup_fmap in Hlk.
    destruct (files !! k) as [f|] eqn:Ef; [|discriminate].
    injection Hlk as Hb. exists k, f. unfold index_or_raise, item_or_raise.
    rewrite Hk, Ef. repeat split; [|exact Hb]. now apply list_elem_of_lookup_2 in Ef.
  - intros Hout. apply py_index_missing in Hout. unfold index_or_raise. now rewrite Hout.
Qed.

Lemma file_label_resolution_witness :
  exists k f,
    index_or_raise (map basename_from_path ["s3://b/a.csv"; "s3://b/t.xlsx"]) "t.xlsx"
      empty_session = (Done k, empty_session, [])
    /\ item_or_raise ["s3://b/a.csv"; "s3://b/t.xlsx"] k empty_session
       = (Done f, empty_session, [])
    /\ f = "s3://b/t.xlsx".
Proof.
  destruct (file_label_resolution ["s3://b/a.csv"; "s3://b/t.xlsx"] "t.xlsx" empty_session)
    as [H _].
  destruct H as (k & f & Hk & Hf & _ & _); [right; now left|].
  exists k, f. split; [exact Hk|]. split; [exact Hf|].
  vm_compute in Hk. injection Hk as <-. vm_compute in Hf. now injection Hf as <-.
Defined.

Lemma list_cloud_shapes_witness :
  exists dirs files,
    outcome_of (list_cloud (fun _ _ => Ok [Entry (Some "b/run/log.csv") None None;
                                           Entry (Some "b/t.csv") None None])
                  S3FileSystem_anon "s3" "s3://b/" empty_session) = Done (dirs, files)
    /\ Str.endswith "s3://b/run/" "/" = true /\ "s3://b/run/" ∉ files.
Proof.
  destruct (list_cloud_shapes (fun _ _ => Ok [Entry (Some "b/run/log.csv") None None;
                                              Entry (Some "b/t.csv") None None])
              S3FileSystem_anon "s3" "s3://b/" empty_session)
    as (dirs & files & H & Hd & _ & Hx).
  exists dirs, files. split; [exact H|].
  assert (Hin : "s3://b/run/" ∈ dirs).
  { vm_compute in H. injection H as <- _. now left. }
  split; [exact (proj1 (Hd _ Hin))|exact (Hx _ Hin)].
Defined.
